(** * Yedu: a verification model of [index.tsx]

    The application is a single React component.  Its state hooks become the
    record [State]; everything outside React that the handlers touch (local
    storage, the alert box, the console, the generative model, the download
    anchor) becomes the record [World].  Handlers are written in a small
    exception-and-state monad so that [try]/[catch]/[finally] read as in the
    source.  A handler reads the state through the closure of the render that
    created it ([snap]) and writes through the setters, which act on the live
    state.  A handler that waits for the reader or for the service is also
    cut at its [await]s ([Async]), so that what the user does and the
    answers of the service can come in any order. *)

From Stdlib Require Import List NArith ZArith Bool Ascii String Lia Arith.
Import ListNotations.

(* ================================================================== *)
(** * Strings *)
(* ================================================================== *)

(** A JavaScript string is a sequence of UTF-16 code units. *)
Definition jsstring := list N.

(** Literal text of the source.  The literals are ASCII; the three arrows
    of the prompt are given by their code units. *)
Definition lit (s : string) : jsstring :=
  map N_of_ascii (list_ascii_of_string s).

Fixpoint streq (a b : jsstring) : bool :=
  match a, b with
  | [], [] => true
  | x :: a', y :: b' => N.eqb x y && streq a' b'
  | _, _ => false
  end.

(** Truthiness of a string value: only the empty string is falsy. *)
Definition nonempty (s : jsstring) : bool :=
  match s with [] => false | _ :: _ => true end.

Fixpoint intercalate (sep : jsstring) (l : list jsstring) : jsstring :=
  match l with
  | [] => []
  | [x] => x
  | x :: rest => x ++ sep ++ intercalate sep rest
  end.

(** Decimal digits of a natural number, zero-padded to [width]. *)
Fixpoint pad_digits (width : nat) (n : N) : jsstring :=
  match width with
  | O => []
  | S w => pad_digits w (n / 10) ++ [48 + n mod 10]%N
  end.

(* ================================================================== *)
(** * JSON, as [JSON.stringify] and [JSON.parse] treat it *)
(* ================================================================== *)

Module JSON.

(** Values that JSON text denotes.  A number is kept as its literal: the
    conversion to binary64 is outside this model, and no library record
    holds a number. *)
#[local] Unset Elimination Schemes.
Inductive Js : Type :=
| JsNull
| JsBool (b : bool)
| JsNum (literal : jsstring)
| JsStr (s : jsstring)
| JsArr (elems : list Js)
| JsObj (props : list (jsstring * Js)).
#[local] Set Elimination Schemes.

(** ** Quoting (QuoteJSONString) *)

Definition hexchar (d : N) : N :=
  if (d <? 10)%N then (48 + d)%N else (87 + d)%N.

(** [\uXXXX] with lower-case digits. *)
Definition uescape (c : N) : jsstring :=
  [92; 117; hexchar (c / 4096 mod 16); hexchar (c / 256 mod 16);
   hexchar (c / 16 mod 16); hexchar (c mod 16)]%N.

Definition is_high_surrogate (c : N) : bool := (55296 <=? c)%N && (c <=? 56319)%N.
Definition is_low_surrogate (c : N) : bool := (56320 <=? c)%N && (c <=? 57343)%N.

(** One code unit that is not part of a surrogate pair. *)
Definition quote_unit (c : N) : jsstring :=
  if (c =? 8)%N then [92; 98]%N
  else if (c =? 9)%N then [92; 116]%N
  else if (c =? 10)%N then [92; 110]%N
  else if (c =? 12)%N then [92; 102]%N
  else if (c =? 13)%N then [92; 114]%N
  else if (c =? 34)%N then [92; 34]%N
  else if (c =? 92)%N then [92; 92]%N
  else if (c <? 32)%N then uescape c
  else if is_high_surrogate c || is_low_surrogate c then uescape c
  else [c].

(** The string is read code point by code point: a high surrogate directly
    followed by a low one is a pair and is copied, a lone surrogate is
    escaped. *)
Fixpoint quote_body (s : jsstring) : jsstring :=
  match s with
  | [] => []
  | c :: r =>
      if is_high_surrogate c then
        match r with
        | d :: r' =>
            if is_low_surrogate d then c :: d :: quote_body r'
            else uescape c ++ quote_body r
        | [] => uescape c
        end
      else quote_unit c ++ quote_body r
  end.

Definition quote (s : jsstring) : jsstring := 34%N :: quote_body s ++ [34%N].

(** ** [JSON.stringify] (no indentation) *)

Fixpoint stringify (v : Js) : jsstring :=
  match v with
  | JsNull => lit "null"
  | JsBool true => lit "true"
  | JsBool false => lit "false"
  | JsNum l => l
  | JsStr s => quote s
  | JsArr elems => [91%N] ++ intercalate [44%N] (map stringify elems) ++ [93%N]
  | JsObj props =>
      [123%N]
        ++ intercalate [44%N]
             (map (fun kv => quote (fst kv) ++ [58%N] ++ stringify (snd kv)) props)
        ++ [125%N]
  end.

(** ** [JSON.parse] *)

Definition is_ws (c : N) : bool :=
  (c =? 32)%N || (c =? 9)%N || (c =? 10)%N || (c =? 13)%N.

Fixpoint skip_ws (s : jsstring) : jsstring :=
  match s with
  | c :: r => if is_ws c then skip_ws r else s
  | [] => []
  end.

Definition hexval (c : N) : option N :=
  if (48 <=? c)%N && (c <=? 57)%N then Some (c - 48)%N
  else if (97 <=? c)%N && (c <=? 102)%N then Some (c - 87)%N
  else if (65 <=? c)%N && (c <=? 70)%N then Some (c - 55)%N
  else None.

Definition hex4 (a b c d : N) : option N :=
  match hexval a, hexval b, hexval c, hexval d with
  | Some x, Some y, Some z, Some w => Some (x * 4096 + y * 256 + z * 16 + w)%N
  | _, _, _, _ => None
  end.

(** The character after a backslash, other than [u]. *)
Definition unescape (e : N) : option N :=
  if (e =? 34)%N then Some 34%N
  else if (e =? 92)%N then Some 92%N
  else if (e =? 47)%N then Some 47%N
  else if (e =? 98)%N then Some 8%N
  else if (e =? 102)%N then Some 12%N
  else if (e =? 110)%N then Some 10%N
  else if (e =? 114)%N then Some 13%N
  else if (e =? 116)%N then Some 9%N
  else None.

Definition consfst {A B : Type} (a : A) (r : option (list A * B)) : option (list A * B) :=
  match r with
  | Some (l, b) => Some (a :: l, b)
  | None => None
  end.

(** The characters of a string literal, after its opening quote, up to and
    including the closing quote. *)
Fixpoint parse_chars (s : jsstring) : option (jsstring * jsstring) :=
  match s with
  | [] => None
  | c :: r =>
      if (c =? 34)%N then Some ([], r)
      else if (c =? 92)%N then
        match r with
        | [] => None
        | e :: r1 =>
            if (e =? 117)%N then
              match r1 with
              | h1 :: h2 :: h3 :: h4 :: r2 =>
                  match hex4 h1 h2 h3 h4 with
                  | Some u => consfst u (parse_chars r2)
                  | None => None
                  end
              | _ => None
              end
            else
              match unescape e with
              | Some u => consfst u (parse_chars r1)
              | None => None
              end
        end
      else if (c <? 32)%N then None
      else consfst c (parse_chars r)
  end.

Definition is_digit (c : N) : bool := (48 <=? c)%N && (c <=? 57)%N.

Fixpoint span_digits (s : jsstring) : jsstring * jsstring :=
  match s with
  | c :: r =>
      if is_digit c then let (d, r') := span_digits r in (c :: d, r') else ([], s)
  | [] => ([], [])
  end.

(** A number literal: an optional minus sign, an integer part without a
    leading zero, an optional fraction and an optional exponent. *)
Definition parse_number (s : jsstring) : option (jsstring * jsstring) :=
  let (sign, s1) :=
    match s with
    | c :: r => if (c =? 45)%N then ([45%N], r) else ([], s)
    | [] => ([], s)
    end in
  let int_part :=
    match s1 with
    | c :: r =>
        if (c =? 48)%N then Some ([48%N], r)
        else if is_digit c then let (d, r') := span_digits r in Some (c :: d, r')
        else None
    | [] => None
    end in
  match int_part with
  | None => None
  | Some (ip, s2) =>
      let frac :=
        match s2 with
        | c :: r =>
            if (c =? 46)%N then
              match span_digits r with
              | ([], _) => None
              | (d, r') => Some (c :: d, r')
              end
            else Some ([], s2)
        | [] => Some ([], s2)
        end in
      match frac with
      | None => None
      | Some (fp, s3) =>
          let expo :=
            match s3 with
            | c :: r =>
                if (c =? 101)%N || (c =? 69)%N then
                  let (sg, r1) :=
                    match r with
                    | x :: r0 =>
                        if (x =? 43)%N || (x =? 45)%N then ([x], r0) else ([], r)
                    | [] => ([], r)
                    end in
                  match span_digits r1 with
                  | ([], _) => None
                  | (d, r') => Some (c :: sg ++ d, r')
                  end
                else Some ([], s3)
            | [] => Some ([], s3)
            end in
          match expo with
          | None => None
          | Some (ep, s4) => Some (sign ++ ip ++ fp ++ ep, s4)
          end
      end
  end.

Fixpoint strip_prefix (p s : jsstring) : option jsstring :=
  match p, s with
  | [], _ => Some s
  | x :: p', y :: s' => if (x =? y)%N then strip_prefix p' s' else None
  | _ :: _, [] => None
  end.

(** Defining a property of an object under construction: a repeated key
    keeps its place and takes the later value. *)
Fixpoint obj_set (k : jsstring) (v : Js) (props : list (jsstring * Js))
  : list (jsstring * Js) :=
  match props with
  | [] => [(k, v)]
  | (k', v') :: rest =>
      if streq k k' then (k, v) :: rest else (k', v') :: obj_set k v rest
  end.

Definition build_object (members : list (jsstring * Js)) : Js :=
  JsObj (fold_left (fun acc kv => obj_set (fst kv) (snd kv) acc) members []).

(** Recursive descent.  Every call consumes one unit of [fuel]; every call
    is on a strictly shorter text than the one that made it, so
    [S (length text)] units are enough for any text. *)
Fixpoint parse_value (fuel : nat) (s : jsstring) : option (Js * jsstring) :=
  match fuel with
  | O => None
  | S f =>
      match skip_ws s with
      | [] => None
      | c :: r =>
          if (c =? 34)%N then
            match parse_chars r with
            | Some (str, r') => Some (JsStr str, r')
            | None => None
            end
          else if (c =? 91)%N then
            match skip_ws r with
            | [] => None
            | c' :: r' =>
                if (c' =? 93)%N then Some (JsArr [], r')
                else
                  match parse_elems f r with
                  | Some (vs, r'') => Some (JsArr vs, r'')
                  | None => None
                  end
            end
          else if (c =? 123)%N then
            match skip_ws r with
            | [] => None
            | c' :: r' =>
                if (c' =? 125)%N then Some (JsObj [], r')
                else
                  match parse_members f r with
                  | Some (ms, r'') => Some (build_object ms, r'')
                  | None => None
                  end
            end
          else if (c =? 116)%N then
            match strip_prefix (lit "rue") r with
            | Some r' => Some (JsBool true, r')
            | None => None
            end
          else if (c =? 102)%N then
            match strip_prefix (lit "alse") r with
            | Some r' => Some (JsBool false, r')
            | None => None
            end
          else if (c =? 110)%N then
            match strip_prefix (lit "ull") r with
            | Some r' => Some (JsNull, r')
            | None => None
            end
          else
            match parse_number (c :: r) with
            | Some (l, r') => Some (JsNum l, r')
            | None => None
            end
      end
  end

with parse_elems (fuel : nat) (s : jsstring) : option (list Js * jsstring) :=
  match fuel with
  | O => None
  | S f =>
      match parse_value f s with
      | None => None
      | Some (v, r) =>
          match skip_ws r with
          | [] => None
          | c :: r' =>
              if (c =? 44)%N then consfst v (parse_elems f r')
              else if (c =? 93)%N then Some ([v], r')
              else None
          end
      end
  end

with parse_members (fuel : nat) (s : jsstring)
  : option (list (jsstring * Js) * jsstring) :=
  match fuel with
  | O => None
  | S f =>
      match skip_ws s with
      | [] => None
      | q :: r0 =>
          if (q =? 34)%N then
            match parse_chars r0 with
            | None => None
            | Some (k, r1) =>
                match skip_ws r1 with
                | [] => None
                | colon :: r2 =>
                    if (colon =? 58)%N then
                      match parse_value f r2 with
                      | None => None
                      | Some (v, r3) =>
                          match skip_ws r3 with
                          | [] => None
                          | c :: r4 =>
                              if (c =? 44)%N then consfst (k, v) (parse_members f r4)
                              else if (c =? 125)%N then Some ([(k, v)], r4)
                              else None
                          end
                      end
                    else None
                end
            end
          else None
      end
  end.

(** [JSON.parse text]: [None] stands for the [SyntaxError] it throws. *)
Definition parse (text : jsstring) : option Js :=
  match parse_value (S (List.length text)) text with
  | Some (v, rest) =>
      match skip_ws rest with
      | [] => Some v
      | _ :: _ => None
      end
  | None => None
  end.

(** ** Values that the library can hold *)

Fixpoint distinct (keys : list jsstring) : bool :=
  match keys with
  | [] => true
  | k :: rest => negb (existsb (streq k) rest) && distinct rest
  end.

(** No number inside, and no object with a repeated key. *)
Fixpoint clean (v : Js) : bool :=
  match v with
  | JsNum _ => false
  | JsArr elems => forallb clean elems
  | JsObj props =>
      distinct (map fst props) && forallb (fun kv => clean (snd kv)) props
  | _ => true
  end.

(** Induction on values, with the hypothesis for every element of an array
    and every property of an object. *)
Definition Js_induction (P : Js -> Prop)
    (Hnull : P JsNull)
    (Hbool : forall b, P (JsBool b))
    (Hnum : forall l, P (JsNum l))
    (Hstr : forall s, P (JsStr s))
    (Harr : forall elems, Forall P elems -> P (JsArr elems))
    (Hobj : forall props, Forall (fun kv => P (snd kv)) props -> P (JsObj props))
  : forall v, P v :=
  fix go (v : Js) : P v :=
    match v with
    | JsNull => Hnull
    | JsBool b => Hbool b
    | JsNum l => Hnum l
    | JsStr s => Hstr s
    | JsArr elems =>
        Harr elems
          ((fix all (l : list Js) : Forall P l :=
              match l with
              | [] => Forall_nil P
              | e :: l' => Forall_cons e (go e) (all l')
              end) elems)
    | JsObj props =>
        Hobj props
          ((fix all (l : list (jsstring * Js)) : Forall (fun kv => P (snd kv)) l :=
              match l with
              | [] => Forall_nil _
              | kv :: l' => Forall_cons kv (go (snd kv)) (all l')
              end) props)
    end.

(** ** Reading back what [stringify] wrote *)

(** The first character of the text of a clean value starts a value and
    nothing else. *)
Definition starts_value (c : N) : Prop :=
  is_ws c = false /\ (c =? 93)%N = false /\ (c =? 125)%N = false.

(** The text of one property. *)
Definition member_text (kv : jsstring * Js) : jsstring :=
  quote (fst kv) ++ [58%N] ++ stringify (snd kv).

(** [parse_value] reads the text of [v] back, whatever follows it, when
    the fuel covers the length of that text. *)
Definition reads_back (v : Js) : Prop :=
  clean v = true ->
  forall (fuel : nat) (rest : jsstring),
    (List.length (stringify v) <= fuel)%nat ->
    parse_value fuel (stringify v ++ rest) = Some (v, rest).

End JSON.

(* ================================================================== *)
(** * Regular expressions, as [String.prototype.match] runs them *)
(* ================================================================== *)

Module RegExp.

(** The two patterns of the source are sequences of one-character terms,
    starred character classes and one capture group, so the pattern type
    has exactly these. *)
Inductive Term : Type :=
| Chr (cls : N -> bool)
| Star (greedy : bool) (cls : N -> bool)
| GroupOpen
| GroupClose.

Definition Pattern := list Term.

(** Capture group 1 while matching: whether it is open, and the code units
    it has taken (latest first). *)
Record Capture : Type := mkCapture { recording : bool; taken : jsstring }.

Definition no_capture : Capture := mkCapture false [].

Definition take (c : N) (g : Capture) : Capture :=
  if recording g then mkCapture true (c :: taken g) else g.

(** Backtracking matcher anchored at the start of [s]: the first successful
    alternative in the order of the ECMAScript semantics (a greedy star
    tries the longest repetition first, a lazy one the shortest). *)
Fixpoint match_here (p : Pattern) (s : jsstring) (g : Capture) : option Capture :=
  match p with
  | [] => Some g
  | Chr cls :: p' =>
      match s with
      | c :: s' => if cls c then match_here p' s' (take c g) else None
      | [] => None
      end
  | Star true cls :: p' =>
      (fix more (s : jsstring) (g : Capture) : option Capture :=
         match s with
         | c :: s' =>
             if cls c then
               match more s' (take c g) with
               | Some r => Some r
               | None => match_here p' s g
               end
             else match_here p' s g
         | [] => match_here p' s g
         end) s g
  | Star false cls :: p' =>
      (fix more (s : jsstring) (g : Capture) : option Capture :=
         match match_here p' s g with
         | Some r => Some r
         | None =>
             match s with
             | c :: s' => if cls c then more s' (take c g) else None
             | [] => None
             end
         end) s g
  | GroupOpen :: p' => match_here p' s (mkCapture true [])
  | GroupClose :: p' => match_here p' s (mkCapture false (taken g))
  end.

(** [str.match(re)] for a pattern without the [g] flag: the leftmost start
    at which the pattern matches; the result is element [1] of the match
    array.  [None] is the [null] of a failed match. *)
Fixpoint exec (p : Pattern) (s : jsstring) : option jsstring :=
  match match_here p s no_capture with
  | Some g => Some (rev (taken g))
  | None =>
      match s with
      | _ :: s' => exec p s'
      | [] => None
      end
  end.

(** Character classes. *)
Definition only (a : N) : N -> bool := fun c => (c =? a)%N.
Definition other_than (a : N) : N -> bool := fun c => negb (c =? a)%N.

(** A letter under the [i] flag: both cases. *)
Definition letter_i (lower upper : N) : N -> bool :=
  fun c => (c =? lower)%N || (c =? upper)%N.

Definition is_line_terminator (c : N) : bool :=
  (c =? 10)%N || (c =? 13)%N || (c =? 8232)%N || (c =? 8233)%N.

(** [.] without the [s] flag. *)
Definition dot : N -> bool := fun c => negb (is_line_terminator c).

(** [/<h1[^>]*>(.*?)<\/h1>/i] *)
Definition h1_pattern : Pattern :=
  [ Chr (only 60); Chr (letter_i 104 72); Chr (only 49);
    Star true (other_than 62); Chr (only 62);
    GroupOpen; Star false dot; GroupClose;
    Chr (only 60); Chr (only 47); Chr (letter_i 104 72); Chr (only 49); Chr (only 62) ].

(** [str.replace(/ /g, '_')]: every space, one by one. *)
Definition replace_spaces (s : jsstring) : jsstring :=
  map (fun c => if (c =? 32)%N then 95%N else c) s.

End RegExp.

(* ================================================================== *)
(** * [Date.prototype.toISOString] *)
(* ================================================================== *)

Module JsDate.

Local Open Scope Z_scope.

(** Civil date of a day number counted from 1970-01-01 (proleptic
    Gregorian calendar). *)
Definition civil_from_days (days : Z) : Z * Z * Z :=
  let z := days + 719468 in
  let era := z / 146097 in
  let doe := z - era * 146097 in
  let yoe := (doe - doe / 1460 + doe / 36524 - doe / 146096) / 365 in
  let doy := doe - (365 * yoe + yoe / 4 - yoe / 100) in
  let mp := (5 * doy + 2) / 153 in
  let d := doy - (153 * mp + 2) / 5 + 1 in
  let m := if mp <? 10 then mp + 3 else mp - 9 in
  let y := yoe + era * 400 + (if m <=? 2 then 1 else 0) in
  (y, m, d).

Definition digits (width : nat) (n : Z) : jsstring := pad_digits width (Z.to_N n).

Definition year_string (y : Z) : jsstring :=
  if (0 <=? y) && (y <=? 9999) then digits 4 y
  else if y <? 0 then [45%N] ++ digits 6 (- y)
  else [43%N] ++ digits 6 y.

(** [new Date(ms).toISOString()] for a time value [ms] (milliseconds since
    the epoch, UTC): [YYYY-MM-DDTHH:mm:ss.sssZ]. *)
Definition toISOString (ms : Z) : jsstring :=
  let day := ms / 86400000 in
  let t := ms mod 86400000 in
  let '(y, m, d) := civil_from_days day in
  year_string y ++ [45%N] ++ digits 2 m ++ [45%N] ++ digits 2 d ++ [84%N]
    ++ digits 2 (t / 3600000) ++ [58%N]
    ++ digits 2 (t / 60000 mod 60) ++ [58%N]
    ++ digits 2 (t / 1000 mod 60) ++ [46%N]
    ++ digits 3 (t mod 1000) ++ [90%N].

End JsDate.

(* ================================================================== *)
(** * Types and constants of the source *)
(* ================================================================== *)

Definition dq : jsstring := [34%N].
Definition nl : jsstring := [10%N].

Inductive VisualTheme : Type := ModernScholar | Manuscript.

Definition VisualTheme_string (t : VisualTheme) : jsstring :=
  match t with
  | ModernScholar => lit "Modern Scholar"
  | Manuscript => lit "Manuscript"
  end.

Inductive View : Type := welcome | infographic.

Module LibraryEntry.

Record t : Type := mk {
  id : jsstring;
  title : jsstring;
  sourceText : jsstring;
  infographicHtml : jsstring;
  analysisLens : jsstring;
  customDirectives : jsstring;
  visualTheme : VisualTheme;
  createdAt : jsstring;
  refinementHistory : list jsstring
}.

(** The object a record is at run time, keys in the order in which the
    source's object literals define them (a spread keeps that order). *)
Definition toJs (e : t) : JSON.Js :=
  JSON.JsObj
    [ (lit "id", JSON.JsStr (id e));
      (lit "title", JSON.JsStr (title e));
      (lit "sourceText", JSON.JsStr (sourceText e));
      (lit "infographicHtml", JSON.JsStr (infographicHtml e));
      (lit "analysisLens", JSON.JsStr (analysisLens e));
      (lit "customDirectives", JSON.JsStr (customDirectives e));
      (lit "visualTheme", JSON.JsStr (VisualTheme_string (visualTheme e)));
      (lit "createdAt", JSON.JsStr (createdAt e));
      (lit "refinementHistory", JSON.JsArr (map JSON.JsStr (refinementHistory e))) ].

Definition listToJs (l : list t) : JSON.Js := JSON.JsArr (map toJs l).

(** Reading a parsed value at the type [LibraryEntry[]].  The source casts
    without a check; [None] marks a value that is not of that type, which
    the typed state of this model cannot hold. *)
Fixpoint lookup (k : jsstring) (props : list (jsstring * JSON.Js)) : option JSON.Js :=
  match props with
  | [] => None
  | (k', v) :: rest => if streq k k' then Some v else lookup k rest
  end.

Definition getStr (k : string) (props : list (jsstring * JSON.Js)) : option jsstring :=
  match lookup (lit k) props with
  | Some (JSON.JsStr s) => Some s
  | _ => None
  end.

Fixpoint strings (l : list JSON.Js) : option (list jsstring) :=
  match l with
  | [] => Some []
  | JSON.JsStr s :: rest =>
      match strings rest with
      | Some ss => Some (s :: ss)
      | None => None
      end
  | _ :: _ => None
  end.

Definition themeOf (s : jsstring) : option VisualTheme :=
  if streq s (lit "Modern Scholar") then Some ModernScholar
  else if streq s (lit "Manuscript") then Some Manuscript
  else None.

Definition ofJs (v : JSON.Js) : option t :=
  match v with
  | JSON.JsObj props =>
      match getStr "id" props, getStr "title" props, getStr "sourceText" props,
            getStr "infographicHtml" props, getStr "analysisLens" props,
            getStr "customDirectives" props, getStr "visualTheme" props,
            getStr "createdAt" props, lookup (lit "refinementHistory") props with
      | Some i, Some ti, Some st, Some html, Some lens, Some cd, Some th, Some ca,
        Some (JSON.JsArr h) =>
          match themeOf th, strings h with
          | Some theme, Some hist =>
              if Nat.eqb (List.length props) 9
              then Some (mk i ti st html lens cd theme ca hist)
              else None
          | _, _ => None
          end
      | _, _, _, _, _, _, _, _, _ => None
      end
  | _ => None
  end.

Fixpoint entries (l : list JSON.Js) : option (list t) :=
  match l with
  | [] => Some []
  | v :: rest =>
      match ofJs v, entries rest with
      | Some e, Some es => Some (e :: es)
      | _, _ => None
      end
  end.

Definition listOfJs (v : JSON.Js) : option (list t) :=
  match v with
  | JSON.JsArr l => entries l
  | _ => None
  end.

End LibraryEntry.

Definition ANALYSIS_LENSES : list jsstring :=
  [ lit "General Summary";
    lit "Halachic Structure & Process";
    lit "Philosophical Deep Dive";
    lit "Character & Narrative Analysis";
    lit "Compare & Contrast Viewpoints" ].

Definition QUOTES : list jsstring :=
  [ lit "Turn it, and turn it, for everything is in it. (Ben Bag Bag, Pirkei Avot 5:22)";
    lit "The world stands on three things: on Torah, on service, and on acts of loving-kindness. (Shimon Hatzadik, Pirkei Avot 1:2)";
    lit "The day is short, the work is great... It is not your duty to finish the work, but neither are you at liberty to neglect it. (Rabbi Tarfon, Pirkei Avot 2:15-16)";
    lit "Who is wise? He who learns from every man. (Ben Zoma, Pirkei Avot 4:1)" ].

(* ================================================================== *)
(** * The environment of the component *)
(* ================================================================== *)

(** A thrown value other than [undefined] and [null]; [message] is its
    [.message], absent on a value that is not an [Error]. *)
Record JsError : Type := mkError { message : option jsstring }.

Definition Error (msg : jsstring) : JsError := mkError (Some msg).

(** The error that reading a property of [undefined] or [null] raises. *)
Definition TypeError (msg : jsstring) : JsError := mkError (Some msg).

(** What a [throw] or a rejected promise carries: any value.  For
    [undefined] and [null], [complaint] is the message of the TypeError that
    the engine raises when a property of the value is read; its wording is
    the engine's. *)
Inductive Thrown : Type :=
| Nullish (complaint : jsstring)
| Value (e : JsError).

Coercion Value : JsError >-> Thrown.

(** [e.message || fallback], for a value [e] that has properties. *)
Definition message_or (e : JsError) (fallback : jsstring) : jsstring :=
  match message e with
  | Some (c :: m) => c :: m
  | _ => fallback
  end.

(** ** The generative model *)

Inductive Part : Type :=
| TextPart (text : jsstring)
| InlineDataPart (mimeType : jsstring) (data : option jsstring).

(** The argument of [generateContent]: [contents] is always one entry with
    role ['user']. *)
Record Request : Type := mkRequest {
  model : jsstring;
  role : jsstring;
  parts : list Part
}.

(** [response.text] is declared [string | undefined].  [handleGenerate]
    tests its run-time type as well, so a value of another type is part of
    what it can see. *)
Inductive ResponseText : Type :=
| TextUndefined
| TextString (s : jsstring)
| TextNonString.

(** How a call to the service settles.  A call that never settles is a
    handler that stays in flight ([Async]). *)
Inductive Reply (T : Type) : Type :=
| Rejects (e : Thrown)
| Resolves (text : T).

Arguments Rejects {T} e.
Arguments Resolves {T} text.

(** ** Local storage: the item ['yedu-library'] *)

Record Storage : Type := mkStorage {
  (** access to storage is allowed (it throws a SecurityError otherwise) *)
  accessible : bool;
  (** longest text the store accepts, [None] for no bound; a longer one
      makes [setItem] throw QuotaExceededError *)
  quota : option nat;
  item : option jsstring
}.

(** ** Blobs: [new Blob([s])] and [blob.text()] *)

Module Blob.

(** The scalar values of a string, as its conversion to a USVString gives
    them: a surrogate pair is one value, a surrogate without its partner
    becomes U+FFFD. *)
Fixpoint scalarValues (s : jsstring) : list N :=
  match s with
  | [] => []
  | c :: r =>
      if JSON.is_high_surrogate c then
        match r with
        | d :: r' =>
            if JSON.is_low_surrogate d
            then (65536 + (c - 55296) * 1024 + (d - 56320))%N :: scalarValues r'
            else 65533%N :: scalarValues r
        | [] => [65533%N]
        end
      else if JSON.is_low_surrogate c then 65533%N :: scalarValues r
      else c :: scalarValues r
  end.

(** The UTF-8 bytes of a scalar value. *)
Definition utf8 (c : N) : list N :=
  if (c <? 128)%N then [c]
  else if (c <? 2048)%N then [192 + c / 64; 128 + c mod 64]%N
  else if (c <? 65536)%N
       then [224 + c / 4096; 128 + (c / 64) mod 64; 128 + c mod 64]%N
       else [240 + c / 262144; 128 + (c / 4096) mod 64; 128 + (c / 64) mod 64;
             128 + c mod 64]%N.

(** The bytes that [new Blob([s])] holds. *)
Definition bytes (s : jsstring) : list N := flat_map utf8 (scalarValues s).

Definition continuation (b : N) : bool := (128 <=? b)%N && (b <? 192)%N.

Definition surrogate (c : N) : bool := (55296 <=? c)%N && (c <? 57344)%N.

(** The scalar values that a sequence of bytes encodes, [None] when the
    bytes are not UTF-8: a byte out of place, a value written longer than
    it needs, a surrogate, a value above U+10FFFF. *)
Fixpoint decode (bs : list N) : option (list N) :=
  match bs with
  | [] => Some []
  | b0 :: r0 =>
      if (b0 <? 128)%N then option_map (cons b0) (decode r0)
      else if (192 <=? b0)%N && (b0 <? 224)%N then
        match r0 with
        | b1 :: r1 =>
            let c := ((b0 - 192) * 64 + (b1 - 128))%N in
            if continuation b1 && (128 <=? c)%N
            then option_map (cons c) (decode r1)
            else None
        | _ => None
        end
      else if (224 <=? b0)%N && (b0 <? 240)%N then
        match r0 with
        | b1 :: b2 :: r2 =>
            let c := ((b0 - 224) * 4096 + (b1 - 128) * 64 + (b2 - 128))%N in
            if continuation b1 && continuation b2 && (2048 <=? c)%N
               && negb (surrogate c)
            then option_map (cons c) (decode r2)
            else None
        | _ => None
        end
      else if (240 <=? b0)%N && (b0 <? 248)%N then
        match r0 with
        | b1 :: b2 :: b3 :: r3 =>
            let c := ((b0 - 240) * 262144 + (b1 - 128) * 4096
                      + (b2 - 128) * 64 + (b3 - 128))%N in
            if continuation b1 && continuation b2 && continuation b3
               && (65536 <=? c)%N && (c <? 1114112)%N
            then option_map (cons c) (decode r3)
            else None
        | _ => None
        end
      else None
  end.

(** The code units of a scalar value. *)
Definition utf16 (c : N) : jsstring :=
  if (c <? 65536)%N then [c]
  else [55296 + (c - 65536) / 1024; 56320 + (c - 65536) mod 1024]%N.

(** [await blob.text()] on bytes that are UTF-8 (on others the decoder
    puts U+FFFD where it cannot read, which the bytes of a blob made from a
    string never need). *)
Definition text (bs : list N) : option jsstring :=
  option_map (flat_map utf16) (decode bs).

(** [s.isWellFormed()]: no surrogate stands without its partner. *)
Fixpoint isWellFormed (s : jsstring) : bool :=
  match s with
  | [] => true
  | c :: r =>
      if JSON.is_high_surrogate c then
        match r with
        | d :: r' => JSON.is_low_surrogate d && isWellFormed r'
        | [] => false
        end
      else negb (JSON.is_low_surrogate c) && isWellFormed r
  end.

(** A scalar value: at most U+10FFFF and no surrogate. *)
Definition scalar (c : N) : Prop := (c < 1114112)%N /\ surrogate c = false.

(** The code units of a string are 16 bits wide. *)
Definition codeUnits (s : jsstring) : Prop := Forall (fun c => (c < 65536)%N) s.

End Blob.

(** What the clicked anchor offers: the name in its [download] attribute
    (the name suggested to the browser), and the type and the bytes of the
    blob behind its [href]. *)
Record Download : Type := mkDownload {
  download_name : jsstring;
  blob_type : jsstring;
  blob_content : list N
}.

(* ================================================================== *)
(** * The component [App] *)
(* ================================================================== *)

Module App.

(** The state hooks, with the names of the source. [sourceText] can hold
    [undefined] ([None]): [handleFileSelect] stores [response.text] in it
    as it comes. *)
Record State : Type := mkState {
  view : View;
  isLoading : bool;
  loadingQuote : jsstring;
  currentAnalysis : option LibraryEntry.t;
  sourceText : option jsstring;
  analysisLens : jsstring;
  customDirectives : jsstring;
  visualTheme : VisualTheme;
  library : list LibraryEntry.t;
  isSidebarOpen : bool;
  isRefineModalOpen : bool;
  refineDirectives : jsstring
}.

Definition initialState : State :=
  {| view := welcome; isLoading := false; loadingQuote := [];
     currentAnalysis := None; sourceText := Some [];
     analysisLens := lit "General Summary"; customDirectives := [];
     visualTheme := ModernScholar; library := [];
     isSidebarOpen := false; isRefineModalOpen := false;
     refineDirectives := [] |}.

(** What the handlers act on: the live state of the component and the
    browser around it.  Logs grow at the end. *)
Record World : Type := mkWorld {
  app : State;
  storage : Storage;
  alerts : list jsstring;
  console : list jsstring;
  requests : list Request;
  downloads : list Download
}.

Definition boot (st : Storage) : World :=
  {| app := initialState; storage := st; alerts := []; console := [];
     requests := []; downloads := [] |}.

(** ** Computations: state and exceptions *)

Inductive Completion (A : Type) : Type :=
| Normal (a : A)
| Throw (e : Thrown).

Arguments Normal {A} a.
Arguments Throw {A} e.

Definition M (A : Type) : Type := World -> Completion A * World.

Definition ret {A : Type} (a : A) : M A := fun w => (Normal a, w).

Definition bind {A B : Type} (m : M A) (k : A -> M B) : M B :=
  fun w =>
    match m w with
    | (Normal a, w') => k a w'
    | (Throw e, w') => (Throw e, w')
    end.

Definition throw {A : Type} (e : Thrown) : M A := fun w => (Throw e, w).

Definition try_catch {A : Type} (body : M A) (handler : Thrown -> M A) : M A :=
  fun w =>
    match body w with
    | (Normal a, w') => (Normal a, w')
    | (Throw e, w') => handler e w'
    end.

Definition try_finally {A : Type} (body : M A) (finalizer : M unit) : M A :=
  fun w =>
    match body w with
    | (c, w') =>
        match finalizer w' with
        | (Normal _, w'') => (c, w'')
        | (Throw e, w'') => (Throw e, w'')
        end
    end.

Notation "x <- m ;; k" := (bind m (fun x => k))
  (at level 61, m at next level, right associativity).
Notation "m ;; k" := (bind m (fun _ => k))
  (at level 61, right associativity).

(** The state a computation leaves. *)
Definition exec {A : Type} (m : M A) (w : World) : World := snd (m w).

(** An event reaching a handler of the latest render: the handler's closure
    holds the state of that render. *)
Definition dispatch {A : Type} (h : State -> M A) : M A := fun w => h (app w) w.

Definition modify (f : State -> State) : M unit :=
  fun w => (Normal tt,
            {| app := f (app w); storage := storage w; alerts := alerts w;
               console := console w; requests := requests w;
               downloads := downloads w |}).

(** ** Setters *)

Definition setView (v : View) : M unit :=
  modify (fun s => mkState v (isLoading s) (loadingQuote s) (currentAnalysis s)
    (sourceText s) (analysisLens s) (customDirectives s) (visualTheme s)
    (library s) (isSidebarOpen s) (isRefineModalOpen s) (refineDirectives s)).

Definition setIsLoading (b : bool) : M unit :=
  modify (fun s => mkState (view s) b (loadingQuote s) (currentAnalysis s)
    (sourceText s) (analysisLens s) (customDirectives s) (visualTheme s)
    (library s) (isSidebarOpen s) (isRefineModalOpen s) (refineDirectives s)).

Definition setLoadingQuote (q : jsstring) : M unit :=
  modify (fun s => mkState (view s) (isLoading s) q (currentAnalysis s)
    (sourceText s) (analysisLens s) (customDirectives s) (visualTheme s)
    (library s) (isSidebarOpen s) (isRefineModalOpen s) (refineDirectives s)).

Definition setCurrentAnalysis (c : option LibraryEntry.t) : M unit :=
  modify (fun s => mkState (view s) (isLoading s) (loadingQuote s) c
    (sourceText s) (analysisLens s) (customDirectives s) (visualTheme s)
    (library s) (isSidebarOpen s) (isRefineModalOpen s) (refineDirectives s)).

Definition setSourceText (t : option jsstring) : M unit :=
  modify (fun s => mkState (view s) (isLoading s) (loadingQuote s) (currentAnalysis s)
    t (analysisLens s) (customDirectives s) (visualTheme s)
    (library s) (isSidebarOpen s) (isRefineModalOpen s) (refineDirectives s)).

Definition setAnalysisLens (l : jsstring) : M unit :=
  modify (fun s => mkState (view s) (isLoading s) (loadingQuote s) (currentAnalysis s)
    (sourceText s) l (customDirectives s) (visualTheme s)
    (library s) (isSidebarOpen s) (isRefineModalOpen s) (refineDirectives s)).

Definition setCustomDirectives (d : jsstring) : M unit :=
  modify (fun s => mkState (view s) (isLoading s) (loadingQuote s) (currentAnalysis s)
    (sourceText s) (analysisLens s) d (visualTheme s)
    (library s) (isSidebarOpen s) (isRefineModalOpen s) (refineDirectives s)).

Definition setVisualTheme (t : VisualTheme) : M unit :=
  modify (fun s => mkState (view s) (isLoading s) (loadingQuote s) (currentAnalysis s)
    (sourceText s) (analysisLens s) (customDirectives s) t
    (library s) (isSidebarOpen s) (isRefineModalOpen s) (refineDirectives s)).

Definition setLibrary (l : list LibraryEntry.t) : M unit :=
  modify (fun s => mkState (view s) (isLoading s) (loadingQuote s) (currentAnalysis s)
    (sourceText s) (analysisLens s) (customDirectives s) (visualTheme s)
    l (isSidebarOpen s) (isRefineModalOpen s) (refineDirectives s)).

Definition setIsSidebarOpen (b : bool) : M unit :=
  modify (fun s => mkState (view s) (isLoading s) (loadingQuote s) (currentAnalysis s)
    (sourceText s) (analysisLens s) (customDirectives s) (visualTheme s)
    (library s) b (isRefineModalOpen s) (refineDirectives s)).

Definition setIsRefineModalOpen (b : bool) : M unit :=
  modify (fun s => mkState (view s) (isLoading s) (loadingQuote s) (currentAnalysis s)
    (sourceText s) (analysisLens s) (customDirectives s) (visualTheme s)
    (library s) (isSidebarOpen s) b (refineDirectives s)).

Definition setRefineDirectives (d : jsstring) : M unit :=
  modify (fun s => mkState (view s) (isLoading s) (loadingQuote s) (currentAnalysis s)
    (sourceText s) (analysisLens s) (customDirectives s) (visualTheme s)
    (library s) (isSidebarOpen s) (isRefineModalOpen s) d).

(** ** The browser *)

Definition alert (msg : jsstring) : M unit :=
  fun w => (Normal tt,
            {| app := app w; storage := storage w; alerts := alerts w ++ [msg];
               console := console w; requests := requests w;
               downloads := downloads w |}).

(** [console.error(label, ...)]: the label is what the log keeps. *)
Definition console_error (label : jsstring) : M unit :=
  fun w => (Normal tt,
            {| app := app w; storage := storage w; alerts := alerts w;
               console := console w ++ [label]; requests := requests w;
               downloads := downloads w |}).

Definition localStorage_getItem : M (option jsstring) :=
  fun w =>
    if accessible (storage w) then (Normal (item (storage w)), w)
    else (Throw (Error (lit "The operation is insecure.")), w).

Definition fits (text : jsstring) (q : option nat) : bool :=
  match q with
  | None => true
  | Some n => Nat.leb (List.length text) n
  end.

Definition localStorage_setItem (text : jsstring) : M unit :=
  fun w =>
    if accessible (storage w) then
      if fits text (quota (storage w)) then
        (Normal tt,
         {| app := app w;
            storage := mkStorage true (quota (storage w)) (Some text);
            alerts := alerts w; console := console w; requests := requests w;
            downloads := downloads w |})
      else (Throw (Error (lit "The quota has been exceeded.")), w)
    else (Throw (Error (lit "The operation is insecure.")), w).

(** [model.generateContent(request)]: the request goes out. *)
Definition send (request : Request) : M unit :=
  fun w => (Normal tt,
            {| app := app w; storage := storage w; alerts := alerts w;
               console := console w; requests := requests w ++ [request];
               downloads := downloads w |}).

(** [await] on a call that has settled: its value, or its reason thrown. *)
Definition await {T : Type} (reply : Reply T) : M T :=
  match reply with
  | Rejects e => throw e
  | Resolves text => ret text
  end.

(** [await model.generateContent(request)]: the request goes out, and the
    call resolves or rejects as the service decides ([reply]). *)
Definition generateContent {T : Type} (request : Request) (reply : Reply T) : M T :=
  send request ;; await reply.

(** [error.message || fallback] in a [catch] block: [error] is whatever was
    thrown, and reading [.message] of [undefined] or [null] throws. *)
Definition message_of (error : Thrown) (fallback : jsstring) : M jsstring :=
  match error with
  | Nullish complaint => throw (TypeError complaint)
  | Value e => ret (message_or e fallback)
  end.

(** The anchor element that is clicked: a file is offered for download. *)
Definition click_download (d : Download) : M unit :=
  fun w => (Normal tt,
            {| app := app w; storage := storage w; alerts := alerts w;
               console := console w; requests := requests w;
               downloads := downloads w ++ [d] |}).

(** ** Effects *)

Inductive LoadResult : Type :=
| LoadDone
| LoadForeign (v : JSON.Js).

(** The first effect, run once when the component mounts.  The parsed value
    goes to [setLibrary] unchecked; when it is not a [LibraryEntry[]] the
    typed state cannot hold it and the result says so ([LoadForeign]). *)
Definition loadLibraryEffect : M LoadResult :=
  try_catch
    (savedLibrary <- localStorage_getItem ;;
     match savedLibrary with
     | Some (c :: text) =>
         match JSON.parse (c :: text) with
         | Some v =>
             match LibraryEntry.listOfJs v with
             | Some l => setLibrary l ;; ret LoadDone
             | None => ret (LoadForeign v)
             end
         | None => throw (Error (lit "JSON.parse: unexpected character"))
         end
     | _ => ret LoadDone
     end)
    (fun error =>
       console_error (lit "Failed to load library from localStorage") ;;
       ret LoadDone).

(** Opening the page: a fresh component over the browser's storage. *)
Definition mount (st : Storage) : Completion LoadResult * World :=
  loadLibraryEffect (boot st).

Definition saveLibrary (newLibrary : list LibraryEntry.t) : M unit :=
  setLibrary newLibrary ;;
  try_catch
    (localStorage_setItem (JSON.stringify (LibraryEntry.listToJs newLibrary)))
    (fun error => console_error (lit "Failed to save library to localStorage")).

(** ** API and data handling *)

Record File : Type := mkFile { type : jsstring }.

Inductive ReadResult : Type :=
| ReadOk (dataURL : jsstring)
| ReadError (e : JsError).

Fixpoint until_comma (s : jsstring) : jsstring :=
  match s with
  | [] => []
  | c :: r => if (c =? 44)%N then [] else c :: until_comma r
  end.

(** [result.split(',')[1]]: the text between the first comma and the
    second, [undefined] when there is no comma. *)
Fixpoint split_comma_1 (s : jsstring) : option jsstring :=
  match s with
  | [] => None
  | c :: r => if (c =? 44)%N then Some (until_comma r) else split_comma_1 r
  end.

Definition fileToBase64 (read : ReadResult) : M (option jsstring) :=
  match read with
  | ReadOk result => ret (split_comma_1 result)
  | ReadError error => throw error
  end.

Definition getSystemPrompt (lens directives : jsstring) (theme : VisualTheme)
    (task : jsstring) : jsstring :=
  nl
    ++ lit "            Role: You are an AI Scholarly Architect and Data Visualization expert. Your domain is the synthesis of complex textual and spoken-word content into structured, insightful, and aesthetically refined academic summaries." ++ nl
    ++ lit "            Core Task: " ++ task ++ lit ", strictly adhering to the user's specified [Analysis Lens] and [Custom Directives]. Your output must be a single, self-contained, interactive HTML file that functions as a rich, infographic-style summary." ++ nl
    ++ lit "            Input:" ++ nl
    ++ lit "            - A full-text transcript." ++ nl
    ++ lit "            - An [Analysis Lens] selection from the user: " ++ dq ++ lens ++ dq ++ nl
    ++ lit "            - Optional [Custom Directives] from the user: " ++ dq ++ directives ++ dq ++ nl
    ++ lit "            - A [Visual Theme] selection: " ++ dq ++ VisualTheme_string theme ++ dq ++ nl
    ++ lit "            Output Specification: A Single, Well-Formed HTML File." ++ nl
    ++ lit "            Methodology & Required Content Structure:" ++ nl
    ++ lit "            1.  Deep Analysis: First, synthesize the transcript's core theme, arguments, terminology, and logical flow, filtering everything through the prism of the user's chosen [Analysis Lens] and [Custom Directives]." ++ nl
    ++ lit "            2.  Infographic Blueprint (Semantic HTML): Structure the output using the following sections. Omit any section that is not relevant to the source material." ++ nl
    ++ lit "                A. Main Title (<h1>): A concise, descriptive title reflecting the lesson's core topic." ++ nl
    ++ lit "                B. Core Thesis (<p class=" ++ dq ++ lit "intro" ++ dq ++ lit ">): A highlighted paragraph stating the central argument or takeaway." ++ nl
    ++ lit "                C. Key Concepts & Terminology (<section class=" ++ dq ++ lit "concepts-grid" ++ dq ++ lit ">): Present foundational ideas in a grid of " ++ dq ++ lit "cards." ++ dq ++ lit " Each card must contain a relevant emoji/icon, the concept's name (<h3>), and a clear definition (<p>). Use a <table> for direct comparisons if central to the analysis." ++ nl
    ++ lit "                D. Logical Flow / Schematic Diagram (<section class=" ++ dq ++ lit "flowchart" ++ dq ++ lit ">): If the content describes a process, hierarchy, or argument structure, represent it schematically using nested lists, text, and Unicode arrows (" ++ [8595%N] ++ lit ", " ++ [8594%N] ++ lit ", " ++ [8627%N] ++ lit ")." ++ nl
    ++ lit "                E. Supporting Examples & Sources (<section class=" ++ dq ++ lit "examples" ++ dq ++ lit ">): Extract concrete examples." ++ nl
    ++ lit "                F. Questions for Further Inquiry (<section class=" ++ dq ++ lit "further-inquiry" ++ dq ++ lit ">): Generate 2-3 probing, open-ended questions that challenge the user to think more deeply about the material's implications." ++ nl
    ++ lit "                G. Concluding Summary (<p class=" ++ dq ++ lit "conclusion" ++ dq ++ lit ">): A final paragraph that recaps the main points and reinforces the core thesis." ++ nl
    ++ lit "            3.  HTML Formatting, Styling, and Interactivity:" ++ nl
    ++ lit "                - Single File Output: All content must be in one HTML file. All CSS must be contained within a single <style> block in the <head>. DO NOT use external links for anything." ++ nl
    ++ lit "                - Bespoke Visual Themes: Apply internal CSS that corresponds to the user-selected [Visual Theme]." ++ nl
    ++ lit "                  - Manuscript Theme: Use sepia/parchment backgrounds (#f5f1e8), dark brown text (#4a2c2a), serif fonts ('Frank Ruhl Libre'), and subtle gold/amber accents." ++ nl
    ++ lit "                  - Modern Scholar Theme: Use a clean off-white (#f8f9fa) or dark charcoal (#212529) background, sans-serif fonts ('Heebo'), and one bold, primary color for headings and borders." ++ nl
    ++ lit "                - Direct Editability: Ensure all primary text containers (h1-h6, p, li, th, td) have the contenteditable=" ++ dq ++ lit "true" ++ dq ++ lit " attribute." ++ nl
    ++ lit "            4.  Trust & Verification Footer:" ++ nl
    ++ lit "                - Conclude with a <footer> containing a Confidence Score (e.g., " ++ dq ++ lit "Confidence: High" ++ dq ++ lit ") and disclaimers for any ambiguities." ++ nl
    ++ lit "            Final Constraint: The output language must strictly match the primary language of the input transcript." ++ nl
    ++ lit "        ".

Definition supportedTypes : list jsstring :=
  [ lit "audio/mpeg"; lit "audio/mp3"; lit "audio/x-m4a"; lit "audio/mp4" ].

(** [supportedTypes.includes(x)] *)
Definition includes (l : list jsstring) (x : jsstring) : bool :=
  existsb (streq x) l.

Definition transcribePrompt : jsstring :=
  lit "Please transcribe the following audio recording into clean, coherent text. Remove any filler words, stutters, or false starts. The output should be a single block of text representing the spoken content.".

(** What the world supplies to one run of [handleGenerate]. *)
Record GenEnv : Type := mkGenEnv {
  (** [Math.floor(Math.random() * QUOTES.length)] *)
  random_index : nat;
  reply : Reply ResponseText;
  (** the clock at the two [new Date()], in milliseconds *)
  now_id : Z;
  now_createdAt : Z
}.

(** [textOverride ?? (isRefinement ? currentAnalysis?.sourceText : sourceText)] *)
Definition textToAnalyze (snap : State) (isRefinement : bool)
    (textOverride : option jsstring) : option jsstring :=
  match textOverride with
  | Some t => Some t
  | None =>
      if isRefinement
      then option_map LibraryEntry.sourceText (currentAnalysis snap)
      else sourceText snap
  end.

(** [htmlOutput.match(/<h1[^>]*>(.*?)<\/h1>/i)], then the title. *)
Definition extractTitle (htmlOutput : jsstring) : jsstring :=
  match RegExp.exec RegExp.h1_pattern htmlOutput with
  | Some group1 => group1
  | None => lit "Untitled Analysis"
  end.

Definition emptyResponseMessage : jsstring :=
  lit "The AI model returned an empty response. This could be due to content safety filters or an issue with the prompt. Please try modifying your input or directives.".

Definition generationRequest (snap : State) (isRefinement : bool)
    (text : jsstring) : Request :=
  let directives := if isRefinement then refineDirectives snap else customDirectives snap in
  let task :=
    if isRefinement
    then lit "Refine the previous analysis based on the new directive"
    else lit "Analyze the provided transcript" in
  let prompt := getSystemPrompt (analysisLens snap) directives (visualTheme snap) task in
  {| model := lit "gemini-2.5-pro";
     role := lit "user";
     parts := [ TextPart prompt;
                TextPart (lit "Transcript to analyze: " ++ nl ++ nl ++ text) ] |}.

(** [library.map(item => item.id === currentAnalysis.id ? updatedAnalysis : item)] *)
Definition replaceById (current updated : LibraryEntry.t)
    (lib : list LibraryEntry.t) : list LibraryEntry.t :=
  map (fun item =>
         if streq (LibraryEntry.id item) (LibraryEntry.id current)
         then updated else item) lib.

(** The [try] block of [handleGenerate] from the answer of the service on:
    the check of the response, the title, and the record. *)
Definition generated (snap : State) (env : GenEnv) (isRefinement : bool)
    (text : jsstring) (response : ResponseText) : M unit :=
  let directives :=
    if isRefinement then refineDirectives snap else customDirectives snap in
  match response with
  | TextString (h :: tml) =>
      let htmlOutput := h :: tml in
      let title := extractTitle htmlOutput in
      match isRefinement, currentAnalysis snap with
      | true, Some current =>
          let updatedAnalysis :=
            LibraryEntry.mk
              (LibraryEntry.id current)
              title
              (LibraryEntry.sourceText current)
              htmlOutput
              (LibraryEntry.analysisLens current)
              (LibraryEntry.customDirectives current)
              (LibraryEntry.visualTheme current)
              (LibraryEntry.createdAt current)
              (LibraryEntry.refinementHistory current ++ [directives]) in
          setCurrentAnalysis (Some updatedAnalysis) ;;
          saveLibrary (replaceById current updatedAnalysis (library snap))
      | _, _ =>
          let newEntry :=
            LibraryEntry.mk
              (JsDate.toISOString (now_id env))
              title
              text
              htmlOutput
              (analysisLens snap)
              (customDirectives snap)
              (visualTheme snap)
              (JsDate.toISOString (now_createdAt env))
              [] in
          setCurrentAnalysis (Some newEntry) ;;
          saveLibrary (newEntry :: library snap) ;;
          setView infographic
      end
  | _ =>
      console_error
        (lit "Analysis generation returned an empty or invalid response:") ;;
      throw (Error emptyResponseMessage)
  end.

(** The [catch] block of [handleGenerate]. *)
Definition generationFailed (error : Thrown) : M unit :=
  console_error (lit "Error generating analysis:") ;;
  msg <- message_of error
           (lit "An error occurred while analyzing the text. Please try again.") ;;
  alert msg.

(** The [finally] block of [handleGenerate]. *)
Definition generationOver : M unit :=
  setIsLoading false ;;
  setIsRefineModalOpen false ;;
  setRefineDirectives [].

Definition handleGenerate (snap : State) (env : GenEnv) (isRefinement : bool)
    (textOverride : option jsstring) : M unit :=
  match textToAnalyze snap isRefinement textOverride with
  | Some (c :: rest) =>
      let text := c :: rest in
      setIsLoading true ;;
      setLoadingQuote (nth (random_index env mod List.length QUOTES) QUOTES []) ;;
      try_finally
        (try_catch
           (response <- generateContent (generationRequest snap isRefinement text)
                          (reply env) ;;
            generated snap env isRefinement text response)
           generationFailed)
        generationOver
  | _ => alert (lit "Please provide some text to analyze.")
  end.

(** What the world supplies to one run of [handleFileSelect]. *)
Record FileEnv : Type := mkFileEnv {
  read : ReadResult;
  transcription_reply : Reply (option jsstring);
  generation : GenEnv
}.

Definition transcriptionRequest (file : File) (base64Audio : option jsstring)
  : Request :=
  {| model := lit "gemini-2.5-pro";
     role := lit "user";
     parts := [ TextPart transcribePrompt;
                InlineDataPart (type file) base64Audio ] |}.

(** The [catch] block of [handleFileSelect]. *)
Definition transcriptionFailed (error : Thrown) : M unit :=
  console_error (lit "Error transcribing audio:") ;;
  msg <- message_of error (lit "Please try again.") ;;
  alert (lit "An error occurred during transcription or analysis: " ++ msg) ;;
  setIsLoading false.

Definition handleFileSelect (snap : State) (env : FileEnv) (file : option File)
  : M unit :=
  match file with
  | None => ret tt
  | Some file =>
      if negb (includes supportedTypes (type file)) then
        alert (lit "Unsupported file type: " ++ type file
                 ++ lit ". Please upload an MP3 or M4A file.")
      else
        setIsLoading true ;;
        setLoadingQuote (lit "Transcribing your audio, one moment...") ;;
        try_catch
          (base64Audio <- fileToBase64 (read env) ;;
           transcription <- generateContent (transcriptionRequest file base64Audio)
                              (transcription_reply env) ;;
           setSourceText transcription ;;
           handleGenerate snap (generation env) false transcription)
          transcriptionFailed
  end.

(** [innerHTML] is [infographicRef.current.innerHTML], [None] when the ref
    is not attached. *)
Definition handleSaveChanges (snap : State) (innerHTML : option jsstring) : M unit :=
  match currentAnalysis snap, innerHTML with
  | Some current, Some updatedHtml =>
      let updatedAnalysis :=
        LibraryEntry.mk
          (LibraryEntry.id current)
          (LibraryEntry.title current)
          (LibraryEntry.sourceText current)
          updatedHtml
          (LibraryEntry.analysisLens current)
          (LibraryEntry.customDirectives current)
          (LibraryEntry.visualTheme current)
          (LibraryEntry.createdAt current)
          (LibraryEntry.refinementHistory current) in
      setCurrentAnalysis (Some updatedAnalysis) ;;
      saveLibrary (replaceById current updatedAnalysis (library snap)) ;;
      alert (lit "Changes saved to library.")
  | _, _ => ret tt
  end.

Definition downloadName (title : jsstring) : jsstring :=
  RegExp.replace_spaces title ++ lit ".html".

Definition handleDownloadHtml (snap : State) : M unit :=
  match currentAnalysis snap with
  | None => ret tt
  | Some current =>
      click_download
        {| download_name := downloadName (LibraryEntry.title current);
           blob_type := lit "text/html";
           blob_content := Blob.bytes (LibraryEntry.infographicHtml current) |}
  end.

Definition loadAnalysis (entry : LibraryEntry.t) : M unit :=
  setCurrentAnalysis (Some entry) ;;
  setSourceText (Some (LibraryEntry.sourceText entry)) ;;
  setAnalysisLens (LibraryEntry.analysisLens entry) ;;
  setCustomDirectives (LibraryEntry.customDirectives entry) ;;
  setVisualTheme (LibraryEntry.visualTheme entry) ;;
  setView infographic ;;
  setIsSidebarOpen false.

Definition startNewAnalysis : M unit :=
  setCurrentAnalysis None ;;
  setSourceText (Some []) ;;
  setCustomDirectives [] ;;
  setView welcome.

End App.

(* ================================================================== *)
(** * The user interface as events *)
(* ================================================================== *)

Module UI.

Import App.

(** The handlers that the rendered tree binds to its controls.  An event is
    a call of one of them from the latest render.  Which controls are on
    screen in a given state is not modelled: what is proved of an event is
    proved of it in every state. *)
Inductive Event : Type :=
| TypeSourceText (s : jsstring)
| ChooseLens (l : jsstring)
| ChooseTheme (t : VisualTheme)
| TypeCustomDirectives (d : jsstring)
| Generate (env : GenEnv)
| SelectFile (env : FileEnv) (file : File)
| OpenLibrary
| CloseSidebar
| LoadFromLibrary (index : nat)
| NewAnalysis
| SaveEdits (innerHTML : option jsstring)
| DownloadHtml
| OpenRefine
| TypeRefineDirectives (d : jsstring)
| CloseRefine
| SubmitRefine (env : GenEnv).

Definition step (ev : Event) : M unit :=
  match ev with
  | TypeSourceText s => setSourceText (Some s)
  | ChooseLens l => setAnalysisLens l
  | ChooseTheme t => setVisualTheme t
  | TypeCustomDirectives d => setCustomDirectives d
  | Generate env => dispatch (fun snap => handleGenerate snap env false None)
  | SelectFile env file => dispatch (fun snap => handleFileSelect snap env (Some file))
  | OpenLibrary => setIsSidebarOpen true
  | CloseSidebar => setIsSidebarOpen false
  | LoadFromLibrary index =>
      dispatch (fun snap =>
        match nth_error (library snap) index with
        | Some entry => loadAnalysis entry
        | None => ret tt
        end)
  | NewAnalysis => startNewAnalysis
  | SaveEdits innerHTML => dispatch (fun snap => handleSaveChanges snap innerHTML)
  | DownloadHtml => dispatch handleDownloadHtml
  | OpenRefine => setIsRefineModalOpen true
  | TypeRefineDirectives d => setRefineDirectives d
  | CloseRefine => setIsRefineModalOpen false
  | SubmitRefine env => dispatch (fun snap => handleGenerate snap env true None)
  end.

(** Events one after the other, each handled to its end before the next:
    a session in which every call to the service has settled, and its
    handler has finished, before the user does the next thing.  Handlers
    that overlap are in [Async]. *)
Fixpoint run (evs : list Event) (w : World) : World :=
  match evs with
  | [] => w
  | ev :: rest => run rest (exec (step ev) w)
  end.

(** Events that leave the record in hand in place: all but those that
    create a record, pick another one or drop the current one. *)
Definition keepsRecord (ev : Event) : bool :=
  match ev with
  | Generate _ | SelectFile _ _ | LoadFromLibrary _ | NewAnalysis => false
  | _ => true
  end.

Definition isSubmitRefine (ev : Event) : bool :=
  match ev with
  | SubmitRefine _ => true
  | _ => false
  end.

(** The service answers with a non-empty string. *)
Definition answers (env : GenEnv) : option jsstring :=
  match reply env with
  | Resolves (TextString (c :: html)) => Some (c :: html)
  | _ => None
  end.

(** The record that a successful initial generation creates. *)
Definition created (s : State) (text : jsstring) (env : GenEnv) (html : jsstring)
  : LibraryEntry.t :=
  LibraryEntry.mk (JsDate.toISOString (now_id env)) (extractTitle html) text html
    (analysisLens s) (customDirectives s) (visualTheme s)
    (JsDate.toISOString (now_createdAt env)) [].

(** The record that a successful refinement of [current] produces. *)
Definition refined (current : LibraryEntry.t) (directives html : jsstring)
  : LibraryEntry.t :=
  LibraryEntry.mk (LibraryEntry.id current) (extractTitle html)
    (LibraryEntry.sourceText current) html
    (LibraryEntry.analysisLens current) (LibraryEntry.customDirectives current)
    (LibraryEntry.visualTheme current) (LibraryEntry.createdAt current)
    (LibraryEntry.refinementHistory current ++ [directives]).

(** The record that saving a manual edit of [current] produces. *)
Definition edited (current : LibraryEntry.t) (html : jsstring) : LibraryEntry.t :=
  LibraryEntry.mk (LibraryEntry.id current) (LibraryEntry.title current)
    (LibraryEntry.sourceText current) html
    (LibraryEntry.analysisLens current) (LibraryEntry.customDirectives current)
    (LibraryEntry.visualTheme current) (LibraryEntry.createdAt current)
    (LibraryEntry.refinementHistory current).

Definition answers_of (ev : Event) : option jsstring :=
  match ev with
  | SubmitRefine env => answers env
  | _ => None
  end.

(** The quotation shown while [handleGenerate] waits. *)
Definition quoteOf (env : GenEnv) : jsstring :=
  nth (random_index env mod List.length QUOTES) QUOTES [].

(** The state in which [handleGenerate] leaves [s] when it created and
    changed no record: its [finally] block has run. *)
Definition settled (s : State) (quote : jsstring) : State :=
  mkState (view s) false quote (currentAnalysis s) (sourceText s)
    (analysisLens s) (customDirectives s) (visualTheme s) (library s)
    (isSidebarOpen s) false [].

(** The storage after [saveLibrary l]: the text of [l] when the store takes
    it, the store as it was when [setItem] throws. *)
Definition stored (l : list LibraryEntry.t) (st : Storage) : Storage :=
  if accessible st then
    if fits (JSON.stringify (LibraryEntry.listToJs l)) (quota st)
    then mkStorage true (quota st) (Some (JSON.stringify (LibraryEntry.listToJs l)))
    else st
  else st.

(** The request carries [text] as its transcript: its second part is the
    template [Transcript to analyze: \n\n${text}]. *)
Definition carries (text : jsstring) (q : Request) : Prop :=
  exists prompt,
    parts q = [TextPart prompt;
               TextPart (lit "Transcript to analyze: " ++ nl ++ nl ++ text)].

(** The record that the generation for input [i] creates when the service
    answers: the lens and the theme are those chosen in [s], the custom
    directives are empty (New Analysis clears them). *)
Definition createdBy (s : State) (i : jsstring * GenEnv) : LibraryEntry.t :=
  let html := match answers (snd i) with Some html => html | None => [] end in
  LibraryEntry.mk (JsDate.toISOString (now_id (snd i))) (extractTitle html)
    (fst i) html (analysisLens s) [] (visualTheme s)
    (JsDate.toISOString (now_createdAt (snd i))) [].

(** The response is not a non-empty string:
    [!htmlOutput || typeof htmlOutput !== 'string']. *)
Definition malformed (t : ResponseText) : bool :=
  match t with
  | TextString (_ :: _) => false
  | _ => true
  end.

(** The world after a message box and nothing else. *)
Definition alerted (w : World) (msg : jsstring) : World :=
  mkWorld (app w) (storage w) (alerts w ++ [msg]) (console w) (requests w)
    (downloads w).

(** The world in which [handleFileSelect] calls [handleGenerate]: loading is
    on, the transcription request has gone out and its text is in the form. *)
Definition transcribed (w : World) (file : File) (dataURL : jsstring)
    (transcription : option jsstring) : World :=
  mkWorld
    (mkState (view (app w)) true (lit "Transcribing your audio, one moment...")
       (currentAnalysis (app w)) transcription (analysisLens (app w))
       (customDirectives (app w)) (visualTheme (app w)) (library (app w))
       (isSidebarOpen (app w)) (isRefineModalOpen (app w)) (refineDirectives (app w)))
    (storage w) (alerts w) (console w)
    (requests w ++ [transcriptionRequest file (split_comma_1 dataURL)])
    (downloads w).

(** The world while [handleFileSelect] waits for the reader: loading is on. *)
Definition reading (w : World) : World :=
  mkWorld
    (mkState (view (app w)) true (lit "Transcribing your audio, one moment...")
       (currentAnalysis (app w)) (sourceText (app w)) (analysisLens (app w))
       (customDirectives (app w)) (visualTheme (app w)) (library (app w))
       (isSidebarOpen (app w)) (isRefineModalOpen (app w)) (refineDirectives (app w)))
    (storage w) (alerts w) (console w) (requests w) (downloads w).

(** The world while [handleGenerate] waits for the answer to [request]:
    loading is on, with the quotation drawn. *)
Definition waiting (w : World) (quote : jsstring) (request : Request) : World :=
  mkWorld
    (mkState (view (app w)) true quote (currentAnalysis (app w))
       (sourceText (app w)) (analysisLens (app w)) (customDirectives (app w))
       (visualTheme (app w)) (library (app w)) (isSidebarOpen (app w))
       (isRefineModalOpen (app w)) (refineDirectives (app w)))
    (storage w) (alerts w) (console w) (requests w ++ [request]) (downloads w).

(** A stored record and what stands in its place later: same identifier,
    and the source text is the old one or, for a record that shares the
    identifier of [r], that of [r]. *)
Definition sourceKept (r old new : LibraryEntry.t) : Prop :=
  LibraryEntry.id new = LibraryEntry.id old
  /\ (LibraryEntry.sourceText new = LibraryEntry.sourceText old
      \/ (LibraryEntry.id old = LibraryEntry.id r
          /\ LibraryEntry.sourceText new = LibraryEntry.sourceText r)).

(** A stored record and what stands in its place later: same identifier,
    and the history is the old one with directives added at its end. *)
Definition historyGrows (old new : LibraryEntry.t) : Prop :=
  LibraryEntry.id new = LibraryEntry.id old
  /\ exists suffix,
       LibraryEntry.refinementHistory new
       = LibraryEntry.refinementHistory old ++ suffix.

(** The choices of the form that survive New Analysis. *)
Definition sameForm (s1 s2 : State) : Prop :=
  analysisLens s1 = analysisLens s2 /\ visualTheme s1 = visualTheme s2.

(** An input whose generation succeeds: text to analyse, and a service that
    answers it. *)
Definition answered (i : jsstring * GenEnv) : Prop :=
  fst i <> [] /\ answers (snd i) <> None.

(** A user presses New Analysis, pastes a transcript and presses Generate,
    once per input. *)
Definition generateEach (inputs : list (jsstring * GenEnv)) : list Event :=
  flat_map (fun i => [NewAnalysis; TypeSourceText (fst i); Generate (snd i)]) inputs.

(** The service answers the event with a non-empty string. *)
Definition answered_event (ev : Event) : bool :=
  match answers_of ev with
  | Some _ => true
  | None => false
  end.

(** What an event leaves when it is not an event on the record in hand:
    the library as it was, with the same record in hand, none, or one of
    the library; or one new record in front of the library and in hand. *)
Definition elsewhere (w w' : World) : Prop :=
  (library (app w') = library (app w)
   /\ (currentAnalysis (app w') = currentAnalysis (app w)
       \/ currentAnalysis (app w') = None
       \/ exists e, In e (library (app w)) /\ currentAnalysis (app w') = Some e))
  \/ (exists e, library (app w') = e :: library (app w)
                /\ currentAnalysis (app w') = Some e).

(** The identifiers of the library are pairwise distinct and the record in
    hand, if any, is one of the library: the invariant of the data model. *)
Definition wellFormed (s : State) : Prop :=
  NoDup (map LibraryEntry.id (library s))
  /\ (forall r, currentAnalysis s = Some r -> In r (library s)).

End UI.

(* ================================================================== *)
(** * Handlers in flight *)
(* ================================================================== *)

(** [handleGenerate] and [handleFileSelect] are [async]: each runs up to an
    [await], gives way to whatever comes next, and goes on when its call
    has settled, with the closure of the render that created it.  Here they
    are, cut at their [await]s. *)
Module Async.

Import App UI.

(** A handler that waits at an [await]: what it will need when it goes on. *)
Inductive Call : Type :=
| GenerationCall (snap : State) (env : GenEnv) (isRefinement : bool)
    (text : jsstring) (fromUpload : bool)
| FileRead (snap : State) (env : FileEnv) (file : File)
| TranscriptionCall (snap : State) (env : FileEnv).

(** [handleGenerate] up to its [await]. *)
Definition startGenerate (snap : State) (env : GenEnv) (isRefinement : bool)
    (textOverride : option jsstring) (fromUpload : bool) : M (list Call) :=
  match textToAnalyze snap isRefinement textOverride with
  | Some (c :: rest) =>
      let text := c :: rest in
      setIsLoading true ;;
      setLoadingQuote (nth (random_index env mod List.length QUOTES) QUOTES []) ;;
      send (generationRequest snap isRefinement text) ;;
      ret [GenerationCall snap env isRefinement text fromUpload]
  | _ => alert (lit "Please provide some text to analyze.") ;; ret []
  end.

(** [handleGenerate] from its [await] on. *)
Definition resumeGenerate (snap : State) (env : GenEnv) (isRefinement : bool)
    (text : jsstring) : M unit :=
  try_finally
    (try_catch
       (response <- await (reply env) ;;
        generated snap env isRefinement text response)
       generationFailed)
    generationOver.

(** [handleFileSelect] up to its first [await], the read of the file. *)
Definition startFileSelect (snap : State) (env : FileEnv) (file : option File)
  : M (list Call) :=
  match file with
  | None => ret []
  | Some file =>
      if negb (includes supportedTypes (type file)) then
        alert (lit "Unsupported file type: " ++ type file
                 ++ lit ". Please upload an MP3 or M4A file.") ;;
        ret []
      else
        setIsLoading true ;;
        setLoadingQuote (lit "Transcribing your audio, one moment...") ;;
        ret [FileRead snap env file]
  end.

(** [handleFileSelect] from the read of the file to its second [await],
    the transcription. *)
Definition resumeFileRead (snap : State) (env : FileEnv) (file : File)
  : M (list Call) :=
  try_catch
    (base64Audio <- fileToBase64 (read env) ;;
     send (transcriptionRequest file base64Audio) ;;
     ret [TranscriptionCall snap env])
    (fun error => transcriptionFailed error ;; ret []).

(** [handleFileSelect] from the transcription to the [await] inside the
    [handleGenerate] that it calls. *)
Definition resumeTranscription (snap : State) (env : FileEnv) : M (list Call) :=
  try_catch
    (transcription <- await (transcription_reply env) ;;
     setSourceText transcription ;;
     startGenerate snap (generation env) false transcription true)
    (fun error => transcriptionFailed error ;; ret []).

(** A handler goes on.  A generation that an upload started is still inside
    the [try] of [handleFileSelect]. *)
Definition resume (c : Call) : M (list Call) :=
  match c with
  | GenerationCall snap env isRefinement text fromUpload =>
      if fromUpload then
        try_catch
          (resumeGenerate snap env isRefinement text ;; ret [])
          (fun error => transcriptionFailed error ;; ret [])
      else resumeGenerate snap env isRefinement text ;; ret []
  | FileRead snap env file => resumeFileRead snap env file
  | TranscriptionCall snap env => resumeTranscription snap env
  end.

(** The render whose state the handler sees. *)
Definition closure (c : Call) : State :=
  match c with
  | GenerationCall snap _ _ _ _ => snap
  | FileRead snap _ _ => snap
  | TranscriptionCall snap _ => snap
  end.

(** The page: the component and the browser, and the handlers in flight. *)
Record Page : Type := mkPage { world : World; inFlight : list Call }.

(** What happens next: the user does something, or the call of one of the
    handlers in flight settles and that handler goes on.  A call that never
    settles is a handler that no [Settle] ever picks. *)
Inductive Action : Type :=
| Do (ev : Event)
| Settle (k : nat).

(** An event from the latest render, up to the first [await] of its
    handler. *)
Definition begin (ev : Event) : M (list Call) :=
  match ev with
  | Generate env => dispatch (fun snap => startGenerate snap env false None false)
  | SubmitRefine env => dispatch (fun snap => startGenerate snap env true None false)
  | SelectFile env file =>
      dispatch (fun snap => startFileSelect snap env (Some file))
  | _ => UI.step ev ;; ret []
  end.

(** The page after a piece of a handler: the calls that it made join the
    handlers in flight.  An exception that it lets out is lost (an
    unhandled rejection), the state stays. *)
Definition after (m : M (list Call)) (w : World) (others : list Call) : Page :=
  match m w with
  | (Normal calls, w') => mkPage w' (others ++ calls)
  | (Throw _, w') => mkPage w' others
  end.

Fixpoint without (k : nat) (calls : list Call) : list Call :=
  match calls, k with
  | [], _ => []
  | _ :: rest, O => rest
  | c :: rest, S k' => c :: without k' rest
  end.

Definition step (a : Action) (p : Page) : Page :=
  match a with
  | Do ev => after (begin ev) (world p) (inFlight p)
  | Settle k =>
      match nth_error (inFlight p) k with
      | Some c => after (resume c) (world p) (without k (inFlight p))
      | None => p
      end
  end.

Fixpoint run (actions : list Action) (p : Page) : Page :=
  match actions with
  | [] => p
  | a :: rest => run rest (step a p)
  end.

(** The page when the component has mounted: nothing is in flight. *)
Definition opened (st : Storage) : Page := mkPage (snd (mount st)) [].

(** The session in which every call settles, and its handler goes on,
    before the user does the next thing: an upload makes three calls in a
    row (the reader, the transcription, the generation). *)
Definition oneAtATime (evs : list Event) : list Action :=
  flat_map (fun ev => [Do ev; Settle 0; Settle 0; Settle 0]) evs.

End Async.

(* ================================================================== *)
(** * What the specification says, in its own words *)
(* ================================================================== *)

Module Spec.

(** [s] begins with [<h1] (either case); what follows the three characters. *)
Definition after_h1_open (s : jsstring) : option jsstring :=
  match s with
  | a :: b :: c :: r =>
      if (a =? 60)%N && ((b =? 104)%N || (b =? 72)%N) && (c =? 49)%N
      then Some r else None
  | _ => None
  end.

(** What follows the first [>]. *)
Fixpoint after_gt (s : jsstring) : option jsstring :=
  match s with
  | [] => None
  | c :: r => if (c =? 62)%N then Some r else after_gt r
  end.

Definition is_h1_close (s : jsstring) : bool :=
  match s with
  | a :: b :: c :: d :: e :: _ =>
      (a =? 60)%N && (b =? 47)%N && ((c =? 104)%N || (c =? 72)%N)
        && (d =? 49)%N && (e =? 62)%N
  | _ => false
  end.

(** The text before the first closing [</h1>]. *)
Fixpoint before_h1_close (s : jsstring) : option jsstring :=
  if is_h1_close s then Some []
  else
    match s with
    | [] => None
    | c :: r =>
        match before_h1_close r with
        | Some content => Some (c :: content)
        | None => None
        end
    end.

(** "The inner content of the first [<h1>] tag": the first place where an
    opening tag stands, and what lies between it and the closing tag that
    follows. *)
Fixpoint first_h1_content (html : jsstring) : option jsstring :=
  match
    match after_h1_open html with
    | Some r => after_gt r
    | None => None
    end
  with
  | Some body => before_h1_close body
  | None =>
      match html with
      | [] => None
      | _ :: rest => first_h1_content rest
      end
  end.

(** "... the first <h1> content of the model response, or the fallback
    title if none present." *)
Definition title (html : jsstring) : jsstring :=
  match first_h1_content html with
  | Some content => content
  | None => lit "Untitled Analysis"
  end.

(** A character that is safe in a file name in the sense of "alphanumeric
    safe": a letter, a digit, or one of [_], [-], [.]. *)
Definition filename_safe (c : N) : bool :=
  ((48 <=? c)%N && (c <=? 57)%N) || ((65 <=? c)%N && (c <=? 90)%N)
  || ((97 <=? c)%N && (c <=? 122)%N)
  || (c =? 95)%N || (c =? 45)%N || (c =? 46)%N.

(** "A sanitized version of the title (non-alphanumeric-safe characters
    such as spaces replaced) with an .html extension". *)
Definition sanitized_name (name : jsstring) : Prop :=
  exists stem, name = stem ++ lit ".html" /\ forallb filename_safe stem = true.

End Spec.

(* ================================================================== *)
(** * The title pattern, piece by piece *)
(* ================================================================== *)

Module TitlePattern.

Import RegExp.

(** The pattern after the opening tag: the group and the closing tag. *)
Definition close_pattern : Pattern :=
  [Chr (only 60); Chr (only 47); Chr (letter_i 104 72); Chr (only 49); Chr (only 62)].

Definition content_pattern : Pattern :=
  Star false dot :: GroupClose :: close_pattern.

Definition tag_pattern : Pattern :=
  Star true (other_than 62) :: Chr (only 62) :: GroupOpen :: content_pattern.

(** What the lazy star and the closing tag take from [s]: the text before
    the first [</h1>], provided no line terminator stands before it. *)
Fixpoint line_before_close (s : jsstring) : option jsstring :=
  if Spec.is_h1_close s then Some []
  else
    match s with
    | [] => None
    | c :: r =>
        if dot c then
          match line_before_close r with
          | Some content => Some (c :: content)
          | None => None
          end
        else None
    end.

(** A closing tag stands somewhere in [s]. *)
Definition closes (s : jsstring) : Prop :=
  exists pre post, s = pre ++ post /\ Spec.is_h1_close post = true.

End TitlePattern.

(* ================================================================== *)
(** * Concrete records, worlds and sessions *)
(* ================================================================== *)

Module Sample.

Import App UI.

(** A browser whose storage is empty and takes anything. *)
Definition emptyStorage : Storage := mkStorage true None None.

(** A browser whose storage takes at most ten code units. *)
Definition tinyStorage : Storage := mkStorage true (Some 10%nat) None.

Definition shabbat : LibraryEntry.t :=
  LibraryEntry.mk (lit "2026-11-03T05:20:00.123Z") (lit "Shabbat")
    (lit "Sample lesson text") (lit "<h1>Shabbat</h1><p>Rest.</p>")
    (lit "General Summary") [] ModernScholar (lit "2026-11-03T05:20:00.124Z")
    [lit "fix typo"].

(** The infographic view on record [r], which is the whole library. *)
Definition viewing (r : LibraryEntry.t) : World :=
  mkWorld
    (mkState infographic false [] (Some r) (Some (LibraryEntry.sourceText r))
       (LibraryEntry.analysisLens r) (LibraryEntry.customDirectives r)
       (LibraryEntry.visualTheme r) [r] false false [])
    emptyStorage [] [] [] [].

(** The service answers with [html], at clock reading [ms]. *)
Definition answering (html : jsstring) (ms : Z) : GenEnv :=
  mkGenEnv 2 (Resolves (TextString html)) ms (ms + 1).

(** The service answers without text. *)
Definition blocked : GenEnv := mkGenEnv 0 (Resolves TextUndefined) 0 0.

(** The service is down. *)
Definition down : GenEnv :=
  mkGenEnv 1 (Rejects (Error (lit "503 Service Unavailable"))) 0 0.

Definition tableHtml : jsstring :=
  lit "<h1 contenteditable=true>Shabbat, with a table</h1><table></table>".

(** An edit saved by hand, then two refinements of which the second fails. *)
Definition editAndRefine : list Event :=
  [ SaveEdits (Some (lit "<h1>Shabbos</h1>"));
    OpenRefine;
    TypeRefineDirectives (lit "add a table");
    SubmitRefine (answering tableHtml 1793683260000);
    OpenRefine;
    TypeRefineDirectives (lit "shorter");
    SubmitRefine down ].

(** The welcome form with a pasted transcript. *)
Definition pasted (text : jsstring) : World :=
  mkWorld
    (mkState welcome false [] None (Some text) (lit "General Summary") []
       ModernScholar [] false false [])
    emptyStorage [] [] [] [].

(** The refine dialog on [shabbat], with a directive typed in. *)
Definition refining : World :=
  run [OpenRefine; TypeRefineDirectives (lit "add a table")] (viewing shabbat).

(** A browser whose stored library is not JSON. *)
Definition corruptStorage : Storage :=
  mkStorage true None (Some (lit "[{not json")).

Definition mp3 : File := mkFile (lit "audio/mp3").
Definition plainText : File := mkFile (lit "text/plain").

Definition upload : FileEnv :=
  mkFileEnv (ReadOk (lit "data:audio/mp3;base64,SUQz"))
    (Resolves (Some (lit "Sample lesson text")))
    (answering (lit "<h1>Shabbat</h1>") 1793683200123).

(** Two generations whose identifiers come from the same clock reading. *)
Definition sameInstant : list (jsstring * GenEnv) :=
  [ (lit "first lesson", answering (lit "<h1>First</h1>") 1793683200123);
    (lit "second lesson", mkGenEnv 0 (Resolves (TextString (lit "<h1>Second</h1>")))
                            1793683200123 1793683200125) ].

(** A heading written over two lines. *)
Definition two_line_heading : jsstring :=
  lit "<h1>Line one" ++ nl ++ lit "Line two</h1>".

(** A heading over two lines followed by a heading on one line. *)
Definition two_headings : jsstring :=
  lit "<h1>Part" ++ nl ++ lit "One</h1><h1>Two</h1>".

Definition questions : LibraryEntry.t :=
  LibraryEntry.mk (lit "2026-11-03T05:20:00.123Z") (lit "Q&A: a/b?") (lit "text")
    (lit "<h1>Q&A: a/b?</h1>") (lit "General Summary") [] ModernScholar
    (lit "2026-11-03T05:20:00.124Z") [].

End Sample.

(* ================================================================== *)
(** * Searching in strings *)
(* ================================================================== *)

(** [s.startsWith(search)] *)
Fixpoint startsWith (s search : jsstring) {struct search} : bool :=
  match search with
  | [] => true
  | c :: search' =>
      match s with
      | d :: s' => (d =? c)%N && startsWith s' search'
      | [] => false
      end
  end.

(** [s.includes(search)]: [search] stands at some position of [s]. *)
Fixpoint String_includes (s search : jsstring) : bool :=
  startsWith s search
  || match s with
     | [] => false
     | _ :: s' => String_includes s' search
     end.

(* ================================================================== *)
(** * What the component renders *)
(* ================================================================== *)

Module Render.

Import App.

(** The child of [<main>]: the welcome form when [view] is ['welcome'], the
    infographic screen when [view] is ['infographic'] and a record is in
    hand, and nothing when [view] is ['infographic'] without a record. *)
Inductive Screen : Type :=
| WelcomeScreen
| InfographicScreen (analysis : LibraryEntry.t)
| NoScreen.

Definition mainScreen (s : State) : Screen :=
  match view s with
  | welcome => WelcomeScreen
  | infographic =>
      match currentAnalysis s with
      | Some analysis => InfographicScreen analysis
      | None => NoScreen
      end
  end.

End Render.

(* ================================================================== *)
(** * The component [Sidebar] *)
(* ================================================================== *)

Module Sidebar.

Section Search.

(** [String.prototype.toLowerCase], which follows the Unicode case tables:
    the search is defined over it and proved for whatever it is. *)
Variable toLowerCase : jsstring -> jsstring.

(** The predicate given to [library.filter]. *)
Definition matches (searchTerm : jsstring) (item : LibraryEntry.t) : bool :=
  String_includes (toLowerCase (LibraryEntry.title item)) (toLowerCase searchTerm)
  || String_includes (toLowerCase (LibraryEntry.sourceText item))
       (toLowerCase searchTerm).

Definition filteredLibrary (searchTerm : jsstring) (library : list LibraryEntry.t)
  : list LibraryEntry.t :=
  if nonempty searchTerm then filter (matches searchTerm) library else library.

End Search.

(** Lower case of the letters A to Z, every other code unit kept: what
    [toLowerCase] does on ASCII text. *)
Definition asciiLower (s : jsstring) : jsstring :=
  map (fun c => if (65 <=? c)%N && (c <=? 90)%N then (c + 32)%N else c) s.

End Sidebar.

(* ================================================================== *)
(** * Sessions from the opening of the page *)
(* ================================================================== *)

Module Session.

Import App UI.

(** The world in which the page is once the component has mounted. *)
Definition opened (st : Storage) : World := snd (mount st).

(** A storage that can be read and takes any text. *)
Definition roomy (st : Storage) : Prop :=
  accessible st = true /\ quota st = None.

(** Opening the page again on the storage of [w] loads the library that
    [w] has in memory. *)
Definition reloads (w : World) : Prop :=
  fst (mount (storage w)) = Normal LoadDone
  /\ library (app (opened (storage w))) = library (app w).

(** The record in hand is one of the library, and the infographic view is
    on exactly when there is a record in hand. *)
Definition coherent (s : State) : Prop :=
  (forall r, currentAnalysis s = Some r -> In r (library s))
  /\ (view s = welcome -> currentAnalysis s = None)
  /\ (view s = infographic -> currentAnalysis s <> None).

(** The fields of a record that are set once, when it is created. *)
Definition sameOrigin (r r' : LibraryEntry.t) : Prop :=
  LibraryEntry.id r' = LibraryEntry.id r
  /\ LibraryEntry.createdAt r' = LibraryEntry.createdAt r
  /\ LibraryEntry.sourceText r' = LibraryEntry.sourceText r
  /\ LibraryEntry.analysisLens r' = LibraryEntry.analysisLens r
  /\ LibraryEntry.customDirectives r' = LibraryEntry.customDirectives r
  /\ LibraryEntry.visualTheme r' = LibraryEntry.visualTheme r.

(** A clock reading from the epoch to the end of the year 9999: the range
    in which [toISOString] writes the year with four digits. *)
Definition fourDigitYear (ms : Z) : Prop := (0 <= ms < 253402300800000)%Z.

End Session.

(* ================================================================== *)
(** * More concrete cases *)
(* ================================================================== *)

Module Cases.

Import App UI Sample.

(** An upload whose transcription is the empty string. *)
Definition silent : FileEnv :=
  mkFileEnv (ReadOk (lit "data:audio/mp3;base64,SUQz")) (Resolves (Some [])) blocked.

(** An upload whose transcription has no text. *)
Definition wordless : FileEnv :=
  mkFileEnv (ReadOk (lit "data:audio/mp3;base64,SUQz")) (Resolves None)
    (answering (lit "<h1>Shabbat</h1>") 1793683200123).

(** An upload while the service cannot be reached. *)
Definition offline : FileEnv :=
  mkFileEnv (ReadOk (lit "data:audio/mp3;base64,SUQz"))
    (Rejects (Error (lit "Failed to fetch"))) blocked.

(** An upload of a file that the reader cannot read: [onerror] hands over
    an event, which has no [message]. *)
Definition unreadable : FileEnv :=
  mkFileEnv (ReadError (mkError None)) (Resolves (Some (lit "Sample lesson text")))
    (answering (lit "<h1>Shabbat</h1>") 1793683200123).

(** A record whose HTML ends in the first half of an emoji: a high
    surrogate without its partner. *)
Definition halfEmoji : LibraryEntry.t :=
  LibraryEntry.mk (lit "2026-11-03T05:22:00.123Z") (lit "Smile")
    (lit "Sample lesson text") (lit "<h1>Smile</h1>" ++ [55357%N])
    (lit "General Summary") [] ModernScholar (lit "2026-11-03T05:22:00.124Z") [].

(** Two lessons analysed at the same clock reading, the first of them
    refined before the second is pasted. *)
Definition sameInstantSession : list Event :=
  [ TypeSourceText (lit "first lesson");
    Generate (answering (lit "<h1>First</h1>") 1793683200123);
    OpenRefine;
    TypeRefineDirectives (lit "add a table");
    SubmitRefine (answering tableHtml 1793683260000);
    NewAnalysis;
    TypeSourceText (lit "second lesson");
    Generate (mkGenEnv 0 (Resolves (TextString (lit "<h1>Second</h1>")))
                1793683200123 1793683200125) ].

(** Two refinements of the record in hand, the second submitted while the
    first is not yet answered. *)
Definition twoRefinements : list Async.Action :=
  [ Async.Do OpenRefine;
    Async.Do (TypeRefineDirectives (lit "add a table"));
    Async.Do (SubmitRefine (answering tableHtml 1793683260000));
    Async.Do (TypeRefineDirectives (lit "shorter"));
    Async.Do (SubmitRefine (answering (lit "<h1>Shabbat, in short</h1>")
                              1793683270000)) ].

(** The call to the service rejects with [undefined]; the complaint is the
    message of the TypeError that V8 raises when [message] is read. *)
Definition undefinedRejection : GenEnv :=
  mkGenEnv 0
    (Rejects (Nullish (lit "Cannot read properties of undefined (reading 'message')")))
    0 0.

(** An upload whose transcription rejects with [undefined]. *)
Definition lostInTranscription : FileEnv :=
  mkFileEnv (ReadOk (lit "data:audio/mp3;base64,SUQz"))
    (Rejects (Nullish (lit "Cannot read properties of undefined (reading 'message')")))
    blocked.

(** An upload whose transcription has text and whose generation rejects
    with [undefined]. *)
Definition lostInGeneration : FileEnv :=
  mkFileEnv (ReadOk (lit "data:audio/mp3;base64,SUQz"))
    (Resolves (Some (lit "Sample lesson text"))) undefinedRejection.

(** A first visit in which the user presses New Analysis while a
    refinement is in flight; its answer arrives afterwards. *)
Definition leftWhileRefining : list Async.Action :=
  [ Async.Do (TypeSourceText (lit "Sample lesson text"));
    Async.Do (Generate (answering (lit "<h1>Shabbat</h1>") 1793683200123));
    Async.Settle 0;
    Async.Do OpenRefine;
    Async.Do (TypeRefineDirectives (lit "add a table"));
    Async.Do (SubmitRefine (answering tableHtml 1793683260000));
    Async.Do NewAnalysis;
    Async.Settle 0 ].


(** A first visit: a transcript is pasted and analysed, and an edit saved. *)
Definition firstVisit : list Event :=
  [ TypeSourceText (lit "Sample lesson text");
    Generate (answering (lit "<h1>Shabbat</h1>") 1793683200123);
    SaveEdits (Some (lit "<h1>Shabbos</h1>")) ].

(** An edit saved and a refinement that the service does not answer. *)
Definition editOnly : list Event :=
  [ SaveEdits (Some (lit "<h1>Shabbos</h1>"));
    OpenRefine;
    TypeRefineDirectives (lit "shorter");
    SubmitRefine down;
    DownloadHtml ].

(** Two generations one minute apart. *)
Definition twoLessons : list (jsstring * GenEnv) :=
  [ (lit "first lesson", answering (lit "<h1>First</h1>") 1793683200123);
    (lit "second lesson", answering (lit "<h1>Second</h1>") 1793683260123) ].

(** A record with the identifier and the source text of [shabbat], and
    with another HTML, other directives and a longer history. *)
Definition shabbos : LibraryEntry.t :=
  LibraryEntry.mk (lit "2026-11-03T05:20:00.123Z") (lit "Shabbat")
    (lit "Sample lesson text") (lit "<h1>Shabbos</h1>")
    (lit "General Summary") (lit "focus on the sources") ModernScholar
    (lit "2026-11-03T05:20:00.124Z") [lit "fix typo"; lit "add a table"].

(** The record in hand at the end of [firstVisit]. *)
Definition visited : LibraryEntry.t :=
  LibraryEntry.mk (lit "2026-11-03T05:20:00.123Z") (lit "Shabbat")
    (lit "Sample lesson text") (lit "<h1>Shabbos</h1>")
    (lit "General Summary") [] ModernScholar (lit "2026-11-03T05:20:00.124Z") [].

(** The refine dialog on [shabbos], with the same directive typed in as in
    [refining]. *)
Definition refiningShabbos : World :=
  run [OpenRefine; TypeRefineDirectives (lit "add a table")] (viewing shabbos).

(** A second stored record, created a minute after [shabbat]. *)
Definition noach : LibraryEntry.t :=
  LibraryEntry.mk (lit "2026-11-03T05:21:00.123Z") (lit "Parashat Noach")
    (lit "The flood and the ark") (lit "<h1>Parashat Noach</h1>")
    (lit "Philosophical Deep Dive") [] Manuscript (lit "2026-11-03T05:21:00.124Z") [].

(** The welcome form with a pasted transcript, in a browser whose storage
    takes at most ten code units. *)
Definition crowded : World :=
  mkWorld (app (pasted (lit "first lesson"))) tinyStorage [] [] [] [].

(** The parts of a response: what stands before the heading, the
    attributes of its tag, its content, and what follows. *)
Definition pageHead : jsstring := lit "<!DOCTYPE html><html><head></head><body>".
Definition headingAttributes : jsstring :=
  lit " contenteditable=" ++ dq ++ lit "true" ++ dq.
Definition headingContent : jsstring := lit "Shabbat: <em>rest</em>".
Definition pageRest : jsstring := lit "<p>Rest.</p><h1>Second</h1></body></html>".

End Cases.

(* ================================================================== *)
(** * Facts about strings and JSON *)
(* ================================================================== *)

Lemma streq_refl (a : jsstring) : streq a a = true.
Proof. induction a as [|x a IH]; simpl; [reflexivity|]. now rewrite N.eqb_refl. Qed.

Lemma streq_eq (a b : jsstring) : streq a b = true <-> a = b.
Proof.
  split; [|intros ->; apply streq_refl].
  revert b; induction a as [|x a IH]; intros [|y b]; simpl; try discriminate; auto.
  intros H. apply andb_true_iff in H as [Hx Hr].
  apply N.eqb_eq in Hx. f_equal; auto.
Qed.

Lemma streq_neq (a b : jsstring) : streq a b = false <-> a <> b.
Proof.
  destruct (streq a b) eqn:E.
  - apply streq_eq in E. split; [discriminate | contradiction].
  - split; [|reflexivity]. intros _ H. apply streq_eq in H. congruence.
Qed.

Module JSONFacts.
Import JSON.

Lemma hexval_hexchar (d : N) : (d < 16)%N -> hexval (hexchar d) = Some d.
Proof.
  intros H. unfold hexval, hexchar.
  destruct (d <? 10)%N eqn:E.
  - apply N.ltb_lt in E.
    replace ((48 <=? 48 + d)%N && (48 + d <=? 57)%N) with true.
    + f_equal; lia.
    + symmetry; apply andb_true_iff; split; apply N.leb_le; lia.
  - apply N.ltb_ge in E.
    replace ((48 <=? 87 + d)%N && (87 + d <=? 57)%N) with false.
    + replace ((97 <=? 87 + d)%N && (87 + d <=? 102)%N) with true.
      * f_equal; lia.
      * symmetry; apply andb_true_iff; split; apply N.leb_le; lia.
    + symmetry; apply andb_false_iff; right; apply N.leb_gt; lia.
Qed.

Lemma hex4_digits (c : N) :
  (c < 65536)%N ->
  hex4 (hexchar (c / 4096 mod 16)) (hexchar (c / 256 mod 16))
       (hexchar (c / 16 mod 16)) (hexchar (c mod 16)) = Some c.
Proof.
  intros H. unfold hex4.
  rewrite !hexval_hexchar by (apply N.mod_lt; discriminate).
  f_equal. 
  zify. Z.to_euclidean_division_equations. lia.
Qed.

Lemma parse_chars_plain (c : N) (tail : jsstring) :
  c <> 34%N -> c <> 92%N -> (32 <= c)%N ->
  parse_chars (c :: tail) = consfst c (parse_chars tail).
Proof.
  intros H1 H2 H3. simpl.
  apply N.eqb_neq in H1, H2. rewrite H1, H2.
  replace (c <? 32)%N with false; [reflexivity|].
  symmetry; apply N.ltb_ge; assumption.
Qed.

Lemma parse_chars_uescape (c : N) (tail : jsstring) :
  (c < 65536)%N ->
  parse_chars (uescape c ++ tail) = consfst c (parse_chars tail).
Proof.
  intros H. unfold uescape.
  change (parse_chars ([92; 117; hexchar (c / 4096 mod 16); hexchar (c / 256 mod 16);
                        hexchar (c / 16 mod 16); hexchar (c mod 16)]%N ++ tail))
    with (match hex4 (hexchar (c / 4096 mod 16)) (hexchar (c / 256 mod 16))
                     (hexchar (c / 16 mod 16)) (hexchar (c mod 16)) with
          | Some u => consfst u (parse_chars tail)
          | None => None
          end).
  now rewrite hex4_digits.
Qed.

Lemma surrogate_range (c : N) :
  is_high_surrogate c || is_low_surrogate c = true -> (55296 <= c < 65536)%N.
Proof.
  unfold is_high_surrogate, is_low_surrogate. intros H.
  apply orb_true_iff in H as [H|H]; apply andb_true_iff in H as [H1 H2];
    apply N.leb_le in H1, H2; lia.
Qed.

Lemma parse_chars_quote_unit (c : N) (tail : jsstring) :
  parse_chars (quote_unit c ++ tail) = consfst c (parse_chars tail).
Proof.
  unfold quote_unit.
  destruct (c =? 8)%N eqn:E8; [apply N.eqb_eq in E8; subst; reflexivity|].
  destruct (c =? 9)%N eqn:E9; [apply N.eqb_eq in E9; subst; reflexivity|].
  destruct (c =? 10)%N eqn:E10; [apply N.eqb_eq in E10; subst; reflexivity|].
  destruct (c =? 12)%N eqn:E12; [apply N.eqb_eq in E12; subst; reflexivity|].
  destruct (c =? 13)%N eqn:E13; [apply N.eqb_eq in E13; subst; reflexivity|].
  destruct (c =? 34)%N eqn:E34; [apply N.eqb_eq in E34; subst; reflexivity|].
  destruct (c =? 92)%N eqn:E92; [apply N.eqb_eq in E92; subst; reflexivity|].
  destruct (c <? 32)%N eqn:Elt.
  - apply N.ltb_lt in Elt. apply parse_chars_uescape. lia.
  - destruct (is_high_surrogate c || is_low_surrogate c) eqn:Es.
    + apply parse_chars_uescape. apply surrogate_range in Es. lia.
    + apply N.eqb_neq in E34, E92. apply N.ltb_ge in Elt.
      now apply parse_chars_plain.
Qed.

Lemma parse_chars_quote_body_bounded (n : nat) :
  forall (s rest : jsstring), (List.length s <= n)%nat ->
  parse_chars (quote_body s ++ 34%N :: rest) = Some (s, rest).
Proof.
  induction n as [|n IH]; intros s rest Hlen.
  - destruct s; [reflexivity | simpl in Hlen; lia].
  - destruct s as [|c r]; [reflexivity|].
    simpl in Hlen. cbn [quote_body].
    destruct (is_high_surrogate c) eqn:Hh.
    + assert (Hc : (55296 <= c < 65536)%N)
        by (apply surrogate_range; rewrite Hh; reflexivity).
      destruct r as [|d r'].
      * rewrite parse_chars_uescape by lia. reflexivity.
      * destruct (is_low_surrogate d) eqn:Hl.
        -- assert (Hd : (55296 <= d < 65536)%N)
             by (apply surrogate_range; rewrite Hl; apply orb_true_r).
           cbn [app].
           rewrite parse_chars_plain by lia.
           rewrite parse_chars_plain by lia.
           rewrite IH by (simpl in Hlen; lia). reflexivity.
        -- rewrite <- app_assoc, parse_chars_uescape by lia.
           rewrite IH by lia. reflexivity.
    + rewrite <- app_assoc, parse_chars_quote_unit.
      rewrite IH by lia. reflexivity.
Qed.

Lemma parse_chars_quote_body (s rest : jsstring) :
  parse_chars (quote_body s ++ 34%N :: rest) = Some (s, rest).
Proof. apply (parse_chars_quote_body_bounded (List.length s)). lia. Qed.

(** *** Values *)

Lemma intercalate_cons (sep x : jsstring) (y : jsstring) (l : list jsstring) :
  intercalate sep (x :: y :: l) = x ++ sep ++ intercalate sep (y :: l).
Proof. reflexivity. Qed.

Lemma stringify_head (v : Js) :
  clean v = true ->
  exists c tl, stringify v = c :: tl /\ starts_value c.
Proof.
  destruct v as [|[|]|l|s|elems|props]; simpl; intros H; try discriminate;
    eexists; eexists; (split; [reflexivity | repeat split]).
Qed.

Lemma parse_value_enter (f : nat) (c : N) (r : jsstring) :
  is_ws c = false ->
  parse_value (S f) (c :: r)
  = if (c =? 34)%N then
      match parse_chars r with
      | Some (str, r') => Some (JsStr str, r')
      | None => None
      end
    else if (c =? 91)%N then
      match skip_ws r with
      | [] => None
      | c' :: r' =>
          if (c' =? 93)%N then Some (JsArr [], r')
          else
            match parse_elems f r with
            | Some (vs, r'') => Some (JsArr vs, r'')
            | None => None
            end
      end
    else if (c =? 123)%N then
      match skip_ws r with
      | [] => None
      | c' :: r' =>
          if (c' =? 125)%N then Some (JsObj [], r')
          else
            match parse_members f r with
            | Some (ms, r'') => Some (build_object ms, r'')
            | None => None
            end
      end
    else if (c =? 116)%N then
      match strip_prefix (lit "rue") r with
      | Some r' => Some (JsBool true, r')
      | None => None
      end
    else if (c =? 102)%N then
      match strip_prefix (lit "alse") r with
      | Some r' => Some (JsBool false, r')
      | None => None
      end
    else if (c =? 110)%N then
      match strip_prefix (lit "ull") r with
      | Some r' => Some (JsNull, r')
      | None => None
      end
    else
      match parse_number (c :: r) with
      | Some (l, r') => Some (JsNum l, r')
      | None => None
      end.
Proof. intros H. cbn [parse_value skip_ws]. rewrite H. reflexivity. Qed.

Lemma skip_ws_head (c : N) (r : jsstring) :
  is_ws c = false -> skip_ws (c :: r) = c :: r.
Proof. intros H. simpl. now rewrite H. Qed.

Lemma stringify_nonempty (v : Js) :
  clean v = true -> (1 <= List.length (stringify v))%nat.
Proof.
  intros H. destruct (stringify_head v H) as (c & tl & E & _).
  rewrite E. simpl. lia.
Qed.

Lemma parse_elems_reads_back (es : list Js) :
  Forall reads_back es ->
  forallb clean es = true ->
  forall (e : Js) (fuel : nat) (rest : jsstring),
    reads_back e -> clean e = true ->
    (List.length (intercalate [44%N] (map stringify (e :: es))) < fuel)%nat ->
    parse_elems fuel (intercalate [44%N] (map stringify (e :: es)) ++ 93%N :: rest)
    = Some (e :: es, rest).
Proof.
  induction 1 as [|e' es He' Hes IH]; intros Hclean e fuel rest He Hce Hfuel.
  - cbn [map intercalate] in *.
    destruct fuel as [|f]; [lia|].
    cbn [parse_elems]. rewrite He by (assumption || lia).
    reflexivity.
  - cbn [forallb] in Hclean. apply andb_true_iff in Hclean as [Hce' Hclean].
    cbn [map] in *. rewrite intercalate_cons in *.
    rewrite !length_app in Hfuel. cbn [List.length] in Hfuel.
    destruct fuel as [|f]; [lia|].
    cbn [parse_elems]. rewrite <- !app_assoc.
    rewrite He by (assumption || lia).
    cbn [app skip_ws is_ws N.eqb Pos.eqb orb].
    change (44 =? 44)%N with true. cbn iota.
    rewrite (IH Hclean e' f rest He' Hce') by lia.
    reflexivity.
Qed.

Lemma existsb_streq_false (k : jsstring) (keys : list jsstring) :
  existsb (streq k) keys = false -> ~ In k keys.
Proof.
  intros H Hin. 
  assert (existsb (streq k) keys = true); [|congruence].
  apply existsb_exists. exists k. split; [assumption | apply streq_refl].
Qed.

Lemma obj_set_fresh (k : jsstring) (v : Js) (acc : list (jsstring * Js)) :
  ~ In k (map fst acc) -> obj_set k v acc = acc ++ [(k, v)].
Proof.
  induction acc as [|[k' v'] acc IH]; intros Hn; [reflexivity|].
  cbn [obj_set]. destruct (streq k k') eqn:E.
  - apply streq_eq in E. subst. exfalso. apply Hn. now left.
  - rewrite IH; [reflexivity|]. intros Hin. apply Hn. now right.
Qed.

Lemma fold_obj_set_distinct (ms acc : list (jsstring * Js)) :
  distinct (map fst ms) = true ->
  (forall k, In k (map fst ms) -> ~ In k (map fst acc)) ->
  fold_left (fun a kv => obj_set (fst kv) (snd kv) a) ms acc = acc ++ ms.
Proof.
  revert acc. induction ms as [|[k v] ms IH]; intros acc Hd Hfresh.
  - now rewrite app_nil_r.
  - cbn [map fst distinct] in Hd. apply andb_true_iff in Hd as [Hk Hd].
    apply negb_true_iff in Hk. apply existsb_streq_false in Hk.
    cbn [fold_left fst snd].
    rewrite obj_set_fresh by (apply Hfresh; now left).
    rewrite IH; [now rewrite <- app_assoc | assumption |].
    intros k' Hin Hacc. rewrite map_app in Hacc. apply in_app_or in Hacc as [Hacc|Hacc].
    + apply (Hfresh k'); [now right | assumption].
    + cbn in Hacc. destruct Hacc as [<-|[]]. contradiction.
Qed.

Lemma build_object_distinct (ms : list (jsstring * Js)) :
  distinct (map fst ms) = true -> build_object ms = JsObj ms.
Proof.
  intros H. unfold build_object. rewrite fold_obj_set_distinct; auto.
Qed.

Lemma parse_members_reads_back (ms : list (jsstring * Js)) :
  Forall (fun kv => reads_back (snd kv)) ms ->
  forallb (fun kv => clean (snd kv)) ms = true ->
  forall (m : jsstring * Js) (fuel : nat) (rest : jsstring),
    reads_back (snd m) -> clean (snd m) = true ->
    (List.length (intercalate [44%N] (map member_text (m :: ms))) < fuel)%nat ->
    parse_members fuel (intercalate [44%N] (map member_text (m :: ms)) ++ 125%N :: rest)
    = Some (m :: ms, rest).
Proof.
  induction 1 as [|m' ms Hm' Hms IH]; intros Hclean [k v] fuel rest Hv Hcv Hfuel;
    cbn [snd fst] in *.
  - cbn [map intercalate] in *. unfold member_text in *. cbn [fst snd] in *.
    unfold quote in *. rewrite !length_app in Hfuel. cbn [List.length] in Hfuel.
    destruct fuel as [|f]; [lia|].
    cbn [parse_members app skip_ws]. change (is_ws 34) with false. cbn iota.
    change (34 =? 34)%N with true. cbn iota.
    rewrite <- !app_assoc. cbn [app].
    rewrite parse_chars_quote_body.
    cbn [skip_ws]. change (is_ws 58) with false. cbn iota.
    change (58 =? 58)%N with true. cbn iota.
    rewrite Hv by (assumption || lia).
    reflexivity.
  - cbn [forallb] in Hclean. apply andb_true_iff in Hclean as [Hcm' Hclean].
    cbn [map] in *. rewrite intercalate_cons in *.
    unfold member_text at 1 in Hfuel. unfold member_text at 1.
    cbn [fst snd] in *. unfold quote in *.
    rewrite !length_app in Hfuel. cbn [List.length] in Hfuel.
    rewrite !length_app in Hfuel. cbn [List.length] in Hfuel.
    destruct fuel as [|f]; [lia|].
    cbn [parse_members app skip_ws]. change (is_ws 34) with false. cbn iota.
    change (34 =? 34)%N with true. cbn iota.
    rewrite <- !app_assoc. cbn [app].
    rewrite parse_chars_quote_body.
    cbn [skip_ws]. change (is_ws 58) with false. cbn iota.
    change (58 =? 58)%N with true. cbn iota.
    rewrite Hv by (assumption || lia).
    cbn [skip_ws]. change (is_ws 44) with false. cbn iota.
    change (44 =? 44)%N with true. cbn iota.
    destruct m' as [k' v'].
    rewrite (IH Hclean (k', v') f rest Hm' Hcm') by lia.
    reflexivity.
Qed.

Lemma parse_value_reads_back : forall v, reads_back v.
Proof.
  induction v as [|b|l|s|elems IH|props IH] using Js_induction;
    intros Hclean fuel rest Hfuel;
    (destruct fuel as [|f]; [pose proof (stringify_nonempty _ Hclean); lia|]).
  - reflexivity.
  - destruct b; reflexivity.
  - discriminate.
  - cbn [stringify] in *. unfold quote. cbn [app].
    rewrite parse_value_enter by reflexivity. cbn [N.eqb Pos.eqb].
    rewrite <- app_assoc. cbn [app]. now rewrite parse_chars_quote_body.
  - cbn [stringify clean] in *.
    destruct elems as [|e es].
    + reflexivity.
    + inversion IH as [|? ? He Hes]; subst.
      cbn [forallb] in Hclean. apply andb_true_iff in Hclean as [Hce Hces].
      cbn [app]. rewrite parse_value_enter by reflexivity.
      change (91 =? 34)%N with false. change (91 =? 91)%N with true. cbn iota.
      rewrite <- app_assoc. cbn [app].
      rewrite ?length_app in Hfuel. cbn [List.length] in Hfuel.
      rewrite ?length_app in Hfuel. cbn [List.length] in Hfuel.
      rewrite (parse_elems_reads_back es Hes Hces) by (assumption || lia).
      destruct (stringify_head e Hce) as (c & tl & E & Hws & H93 & _).
      assert (Hhead : exists tl', intercalate [44%N] (map stringify (e :: es))
                                   ++ 93%N :: rest = c :: tl').
      { destruct es; cbn [map intercalate]; rewrite E; eexists; reflexivity. }
      destruct Hhead as [tl' ->].
      rewrite skip_ws_head by assumption. rewrite H93. reflexivity.
  - cbn [clean] in *.
    apply andb_true_iff in Hclean as [Hd Hclean].
    destruct props as [|m ms].
    + reflexivity.
    + inversion IH as [|? ? Hm Hms]; subst.
      cbn [forallb] in Hclean. apply andb_true_iff in Hclean as [Hcm Hcms].
      change (stringify (JsObj (m :: ms)))
        with ([123%N] ++ intercalate [44%N] (map member_text (m :: ms)) ++ [125%N]) in *.
      cbn [app]. rewrite parse_value_enter by reflexivity.
      change (123 =? 34)%N with false. change (123 =? 91)%N with false.
      change (123 =? 123)%N with true. cbn iota.
      rewrite <- app_assoc. cbn [app].
      rewrite ?length_app in Hfuel. cbn [List.length] in Hfuel.
      rewrite (parse_members_reads_back ms Hms Hcms) by (assumption || lia).
      assert (Hhead : exists tl', intercalate [44%N] (map member_text (m :: ms))
                                   ++ 125%N :: rest = 34%N :: tl').
      { destruct ms; cbn [map intercalate]; unfold member_text at 1, quote;
          cbn [app]; eexists; reflexivity. }
      destruct Hhead as [tl' ->].
      rewrite skip_ws_head by reflexivity.
      change (34 =? 125)%N with false. cbn iota.
      now rewrite build_object_distinct.
Qed.

(** [JSON.parse (JSON.stringify v)] is [v] for every clean value. *)
Lemma parse_stringify (v : Js) : clean v = true -> parse (stringify v) = Some v.
Proof.
  intros H. unfold parse.
  rewrite <- (app_nil_r (stringify v)) at 2.
  rewrite parse_value_reads_back by (assumption || lia).
  reflexivity.
Qed.

End JSONFacts.

(* ================================================================== *)
(** * Facts about library records as JSON *)
(* ================================================================== *)

Module EntryFacts.
Import JSON LibraryEntry JSONFacts.

Lemma strings_map (h : list jsstring) : strings (map JsStr h) = Some h.
Proof. induction h as [|s h IH]; simpl; [reflexivity | now rewrite IH]. Qed.

Lemma themeOf_string (t : VisualTheme) : themeOf (VisualTheme_string t) = Some t.
Proof. destruct t; reflexivity. Qed.

Lemma ofJs_toJs (e : t) : ofJs (toJs e) = Some e.
Proof.
  destruct e as [i ti st html lens cd th ca hist].
  unfold ofJs, toJs, getStr.
  cbn -[themeOf VisualTheme_string strings].
  rewrite themeOf_string, strings_map. reflexivity.
Qed.

Lemma entries_map_toJs (l : list t) : entries (map toJs l) = Some l.
Proof.
  induction l as [|e l IH]; [reflexivity|].
  cbn [map entries]. now rewrite ofJs_toJs, IH.
Qed.

Lemma listOfJs_listToJs (l : list t) : listOfJs (listToJs l) = Some l.
Proof. apply entries_map_toJs. Qed.

Lemma clean_strings (h : list jsstring) : forallb clean (map JsStr h) = true.
Proof. induction h; simpl; auto. Qed.

Lemma clean_toJs (e : t) : clean (toJs e) = true.
Proof.
  unfold toJs. cbn -[VisualTheme_string]. now rewrite clean_strings.
Qed.

Lemma clean_listToJs (l : list t) : clean (listToJs l) = true.
Proof.
  unfold listToJs. cbn [clean].
  induction l as [|e l IH]; [reflexivity|].
  cbn [map forallb]. now rewrite clean_toJs, IH.
Qed.

(** The stored text of a library is never empty. *)
Lemma stringify_list_nonempty (l : list t) :
  exists c text, stringify (listToJs l) = c :: text.
Proof. eexists; eexists; reflexivity. Qed.

End EntryFacts.

(* ================================================================== *)
(** * Facts about the title pattern *)
(* ================================================================== *)

Module TitleFacts.
Import RegExp TitlePattern.

Lemma match_here_lazy (cls : N -> bool) (p : Pattern) (s : jsstring) (g : Capture) :
  match_here (Star false cls :: p) s g
  = match match_here p s g with
    | Some r => Some r
    | None =>
        match s with
        | c :: s' =>
            if cls c then match_here (Star false cls :: p) s' (take c g) else None
        | [] => None
        end
    end.
Proof. destruct s; reflexivity. Qed.

Lemma match_here_greedy (cls : N -> bool) (p : Pattern) (s : jsstring) (g : Capture) :
  match_here (Star true cls :: p) s g
  = match s with
    | c :: s' =>
        if cls c then
          match match_here (Star true cls :: p) s' (take c g) with
          | Some r => Some r
          | None => match_here p s g
          end
        else match_here p s g
    | [] => match_here p s g
    end.
Proof. destruct s; reflexivity. Qed.

Lemma match_close (s : jsstring) (g : Capture) :
  recording g = false ->
  match_here close_pattern s g = if Spec.is_h1_close s then Some g else None.
Proof.
  intros Hg.
  assert (Htake : forall c, take c g = g) by (intros c; unfold take; now rewrite Hg).
  unfold close_pattern, only, letter_i.
  destruct s as [|a [|b [|c [|d [|e s]]]]]; cbn [match_here Spec.is_h1_close];
    rewrite ?Htake;
    repeat match goal with
           | |- context [(?x =? ?k)%N] => destruct (x =? k)%N; cbn [andb orb]
           end; reflexivity.
Qed.

Lemma match_content (s : jsstring) :
  forall acc,
    match_here content_pattern s (mkCapture true acc)
    = match line_before_close s with
      | Some content => Some (mkCapture false (rev content ++ acc))
      | None => None
      end.
Proof.
  unfold content_pattern.
  induction s as [|c s IH]; intros acc; rewrite match_here_lazy;
    change (match_here (GroupClose :: close_pattern) ?x ?g)
      with (match_here close_pattern x (mkCapture false (taken g)));
    rewrite match_close by reflexivity; cbn [line_before_close taken].
  - destruct (Spec.is_h1_close []); reflexivity.
  - destruct (Spec.is_h1_close (c :: s)); [reflexivity|].
    destruct (dot c); [|reflexivity].
    unfold take. cbn [recording taken].
    rewrite IH. destruct (line_before_close s) as [content|]; [|reflexivity].
    cbn [rev]. now rewrite <- app_assoc.
Qed.

Lemma match_tag (s : jsstring) (g : Capture) :
  recording g = false ->
  match_here tag_pattern s g
  = match Spec.after_gt s with
    | Some body => match_here content_pattern body (mkCapture true [])
    | None => None
    end.
Proof.
  intros Hg.
  assert (Htake : forall c, take c g = g) by (intros c; unfold take; now rewrite Hg).
  unfold tag_pattern.
  induction s as [|c s IH]; rewrite match_here_greedy.
  - reflexivity.
  - cbn [Spec.after_gt]. rewrite Htake, IH.
    change (match_here (Chr (only 62) :: GroupOpen :: content_pattern) (c :: s) g)
      with (if only 62 c
            then match_here content_pattern s (mkCapture true []) else None).
    unfold other_than, only.
    destruct (c =? 62)%N; cbn [negb]; [reflexivity|].
    destruct (Spec.after_gt s) as [body|]; [|reflexivity].
    destruct (match_here content_pattern body _); reflexivity.
Qed.

(** The whole pattern at one place. *)
Lemma match_h1 (s : jsstring) :
  match_here h1_pattern s no_capture
  = match
      match Spec.after_h1_open s with
      | Some r => Spec.after_gt r
      | None => None
      end
    with
    | Some body =>
        match line_before_close body with
        | Some content => Some (mkCapture false (rev content))
        | None => None
        end
    | None => None
    end.
Proof.
  change h1_pattern
    with (Chr (only 60) :: Chr (letter_i 104 72) :: Chr (only 49) :: tag_pattern).
  destruct s as [|a [|b [|c r]]]; try reflexivity.
  - cbn [match_here Spec.after_h1_open]. unfold only. destruct (a =? 60)%N; reflexivity.
  - cbn [match_here Spec.after_h1_open]. unfold only, letter_i.
    destruct (a =? 60)%N; [|reflexivity].
    destruct ((b =? 104)%N || (b =? 72)%N); reflexivity.
  - cbn [match_here Spec.after_h1_open]. unfold only, letter_i.
    change (take a no_capture) with no_capture.
    destruct (a =? 60)%N; [|reflexivity].
    change (take b no_capture) with no_capture.
    destruct ((b =? 104)%N || (b =? 72)%N); [|reflexivity].
    change (take c no_capture) with no_capture.
    destruct (c =? 49)%N; [|reflexivity].
    cbn [andb]. rewrite match_tag by reflexivity.
    destruct (Spec.after_gt r) as [body|]; [|reflexivity].
    rewrite match_content.
    destruct (line_before_close body); [rewrite app_nil_r|]; reflexivity.
Qed.

Lemma closes_later (pre s : jsstring) : closes s -> closes (pre ++ s).
Proof.
  intros (p & post & -> & H). exists (pre ++ p), post.
  now rewrite app_assoc.
Qed.

Lemma before_h1_close_none (s : jsstring) :
  Spec.before_h1_close s = None -> ~ closes s.
Proof.
  induction s as [|c s IH]; intros Hnone (pre & post & E & Hclose).
  - destruct pre; [|discriminate E]. cbn [app] in E. subst post. discriminate Hclose.
  - cbn [Spec.before_h1_close] in Hnone.
    destruct (Spec.is_h1_close (c :: s)) eqn:Hc; [discriminate Hnone|].
    destruct pre as [|x pre].
    + cbn [app] in E. subst post. congruence.
    + injection E as _ E.
      destruct (Spec.before_h1_close s); [discriminate Hnone|].
      apply IH; [reflexivity|]. now exists pre, post.
Qed.

Lemma line_before_close_some (s content : jsstring) :
  line_before_close s = Some content -> closes s.
Proof.
  revert content. induction s as [|c s IH]; intros content H;
    cbn [line_before_close] in H.
  - destruct (Spec.is_h1_close []) eqn:E; discriminate.
  - destruct (Spec.is_h1_close (c :: s)) eqn:E.
    + now exists [], (c :: s).
    + destruct (dot c); [|discriminate H].
      destruct (line_before_close s) as [content'|] eqn:E'; [|discriminate H].
      apply (closes_later [c]). now apply (IH content').
Qed.

Lemma line_before_close_agrees (s : jsstring) :
  Forall (fun c => is_line_terminator c = false) s ->
  line_before_close s = Spec.before_h1_close s.
Proof.
  induction 1 as [|c s Hc _ IH]; [reflexivity|].
  cbn [line_before_close Spec.before_h1_close].
  unfold dot. rewrite Hc, IH. reflexivity.
Qed.

Lemma after_gt_is_suffix (r body : jsstring) :
  Spec.after_gt r = Some body -> exists pre, r = pre ++ body.
Proof.
  induction r as [|c r IH]; cbn [Spec.after_gt]; [discriminate|].
  destruct (c =? 62)%N.
  - intros [= <-]. now exists [c].
  - intros H. destruct (IH H) as [pre ->]. now exists (c :: pre).
Qed.

Lemma after_gt_later (pre r body : jsstring) :
  Spec.after_gt r = Some body ->
  exists body0 pre0, Spec.after_gt (pre ++ r) = Some body0 /\ body0 = pre0 ++ body.
Proof.
  intros H. induction pre as [|c pre IH]; cbn [app Spec.after_gt].
  - now exists body, [].
  - destruct IH as (body0 & pre0 & H0 & ->).
    destruct (c =? 62)%N.
    + destruct (after_gt_is_suffix _ _ H0) as [x ->].
      exists (x ++ pre0 ++ body), (x ++ pre0). split; [reflexivity|].
      now rewrite app_assoc.
    + now exists (pre0 ++ body), pre0.
Qed.

Lemma after_h1_open_is_suffix (s r : jsstring) :
  Spec.after_h1_open s = Some r -> exists a b c, s = a :: b :: c :: r.
Proof.
  destruct s as [|a [|b [|c s]]]; cbn [Spec.after_h1_open]; try discriminate.
  destruct ((a =? 60)%N && ((b =? 104)%N || (b =? 72)%N) && (c =? 49)%N);
    [|discriminate].
  intros [= <-]. now exists a, b, c.
Qed.

(** Once an opening tag is found whose body holds no closing tag, the
    pattern matches nowhere further on. *)
Lemma no_later_match (s r body : jsstring) :
  Spec.after_h1_open s = Some r ->
  Spec.after_gt r = Some body ->
  ~ closes body ->
  forall pre t, tl s = pre ++ t -> match_here h1_pattern t no_capture = None.
Proof.
  intros Hopen Hgt Hnone pre t Hsplit.
  rewrite match_h1.
  destruct (Spec.after_h1_open t) as [rt|] eqn:Hopen_t; [|reflexivity].
  destruct (Spec.after_gt rt) as [body_t|] eqn:Hgt_t; [|reflexivity].
  destruct (line_before_close body_t) as [content|] eqn:Hline; [|reflexivity].
  exfalso. apply Hnone.
  destruct (after_h1_open_is_suffix _ _ Hopen) as (a0 & b0 & c0 & ->).
  destruct (after_h1_open_is_suffix _ _ Hopen_t) as (a & b & c & ->).
  cbn [tl] in Hsplit.
  assert (Hr : exists pre', r = pre' ++ rt).
  { destruct pre as [|x [|y pre2]]; cbn [app] in Hsplit.
    - injection Hsplit as _ _ ->. now exists [c].
    - injection Hsplit as _ _ ->. now exists [b; c].
    - injection Hsplit as _ _ ->. exists (pre2 ++ [a; b; c]).
      now rewrite <- app_assoc. }
  destruct Hr as [pre' ->].
  destruct (after_gt_later pre' rt body_t Hgt_t) as (body0 & pre0 & H0 & ->).
  rewrite H0 in Hgt. injection Hgt as <-.
  apply closes_later. now apply (line_before_close_some _ content).
Qed.

Lemma exec_none (s : jsstring) :
  (forall pre t, s = pre ++ t -> match_here h1_pattern t no_capture = None) ->
  exec h1_pattern s = None.
Proof.
  induction s as [|c s IH]; intros H; cbn [exec].
  - now rewrite (H [] []).
  - rewrite (H [] (c :: s)) by reflexivity.
    apply IH. intros pre t ->. now apply (H (c :: pre) t).
Qed.

(** On text without line terminators the pattern finds what the
    specification describes. *)
Lemma exec_h1_agrees (html : jsstring) :
  Forall (fun c => is_line_terminator c = false) html ->
  exec h1_pattern html = Spec.first_h1_content html.
Proof.
  intros Hall.
  assert (Hsuffix : forall pre t, html = pre ++ t ->
                                  exec h1_pattern t = Spec.first_h1_content t).
  { intros pre t.
    revert pre. induction t as [|c t IH]; intros pre E.
    - reflexivity.
    - cbn [exec Spec.first_h1_content]. rewrite match_h1.
      destruct (Spec.after_h1_open (c :: t)) as [r|] eqn:Hopen.
      + destruct (Spec.after_gt r) as [body|] eqn:Hgt.
        * assert (Hbody : Forall (fun c => is_line_terminator c = false) body).
          { destruct (after_h1_open_is_suffix _ _ Hopen) as (a0 & b0 & c0 & Et).
            destruct (after_gt_is_suffix _ _ Hgt) as [x ->].
            rewrite E, Et in Hall.
            apply Forall_app in Hall as [_ Hall].
            change (a0 :: b0 :: c0 :: x ++ body) with ([a0; b0; c0] ++ x ++ body) in Hall.
            apply Forall_app in Hall as [_ Hall].
            now apply Forall_app in Hall as [_ Hall]. }
          rewrite (line_before_close_agrees body Hbody).
          destruct (Spec.before_h1_close body) as [content|] eqn:Hclose.
          -- cbn [taken]. now rewrite rev_involutive.
          -- apply exec_none.
             apply (no_later_match (c :: t) r body Hopen Hgt).
             now apply before_h1_close_none.
        * apply (IH (pre ++ [c])). now rewrite <- app_assoc.
      + apply (IH (pre ++ [c])). now rewrite <- app_assoc. }
  exact (Hsuffix [] html eq_refl).
Qed.

(** The title of the code is the title of the specification on every
    response that has no line terminator in it. *)
Lemma extractTitle_single_line (html : jsstring) :
  Forall (fun c => is_line_terminator c = false) html ->
  App.extractTitle html = Spec.title html.
Proof.
  intros H. unfold App.extractTitle, Spec.title. now rewrite exec_h1_agrees.
Qed.

End TitleFacts.

(* ================================================================== *)
(** * Facts about blobs *)
(* ================================================================== *)

Module BlobFacts.

Import Blob.

(** Quotient and remainder by a constant as unknowns of linear facts. *)
Ltac by_division :=
  zify; Z.div_mod_to_equations; Z.quot_rem_to_equations; lia.

Ltac to_Prop :=
  repeat match goal with
         | H : (_ <? _)%N = true |- _ => apply N.ltb_lt in H
         | H : (_ <? _)%N = false |- _ => apply N.ltb_ge in H
         | H : (_ <=? _)%N = true |- _ => apply N.leb_le in H
         | H : (_ <=? _)%N = false |- _ => apply N.leb_gt in H
         | H : _ && _ = true |- _ => apply andb_prop in H; destruct H
         end.

Lemma ltb_true (a b : N) : (a < b)%N -> (a <? b)%N = true.
Proof. apply N.ltb_lt. Qed.

Lemma ltb_false (a b : N) : (b <= a)%N -> (a <? b)%N = false.
Proof. apply N.ltb_ge. Qed.

Lemma leb_true (a b : N) : (a <= b)%N -> (a <=? b)%N = true.
Proof. apply N.leb_le. Qed.

Lemma leb_false (a b : N) : (b < a)%N -> (a <=? b)%N = false.
Proof. apply N.leb_gt. Qed.

(** The decoder reads back what the encoder wrote. *)
Lemma decode_utf8 (c : N) (rest : list N) :
  scalar c ->
  decode (utf8 c ++ rest) = option_map (cons c) (decode rest).
Proof.
  intros [Hmax Hsur]. unfold utf8.
  destruct (c <? 128)%N eqn:H1.
  { cbn [List.app decode]. now rewrite H1. }
  destruct (c <? 2048)%N eqn:H2.
  { to_Prop. cbn [List.app decode].
    rewrite (ltb_false (192 + c / 64) 128) by by_division.
    rewrite (leb_true 192 (192 + c / 64)) by by_division.
    rewrite (ltb_true (192 + c / 64) 224) by by_division.
    cbn [andb]. unfold continuation.
    rewrite (leb_true 128 (128 + c mod 64)) by by_division.
    rewrite (ltb_true (128 + c mod 64) 192) by by_division.
    replace ((192 + c / 64 - 192) * 64 + (128 + c mod 64 - 128))%N with c
      by by_division.
    rewrite (leb_true 128 c) by lia. reflexivity. }
  destruct (c <? 65536)%N eqn:H3.
  { to_Prop. cbn [List.app decode].
    rewrite (ltb_false (224 + c / 4096) 128) by by_division.
    rewrite (leb_true 192 (224 + c / 4096)) by by_division.
    rewrite (ltb_false (224 + c / 4096) 224) by by_division.
    cbn [andb].
    rewrite (leb_true 224 (224 + c / 4096)) by by_division.
    rewrite (ltb_true (224 + c / 4096) 240) by by_division.
    cbn [andb]. unfold continuation.
    rewrite (leb_true 128 (128 + (c / 64) mod 64)) by by_division.
    rewrite (ltb_true (128 + (c / 64) mod 64) 192) by by_division.
    rewrite (leb_true 128 (128 + c mod 64)) by by_division.
    rewrite (ltb_true (128 + c mod 64) 192) by by_division.
    replace ((224 + c / 4096 - 224) * 4096 + (128 + (c / 64) mod 64 - 128) * 64
             + (128 + c mod 64 - 128))%N with c by by_division.
    rewrite (leb_true 2048 c) by lia. rewrite Hsur. reflexivity. }
  to_Prop. cbn [List.app decode].
  rewrite (ltb_false (240 + c / 262144) 128) by by_division.
  rewrite (leb_true 192 (240 + c / 262144)) by by_division.
  rewrite (ltb_false (240 + c / 262144) 224) by by_division.
  cbn [andb].
  rewrite (leb_true 224 (240 + c / 262144)) by by_division.
  rewrite (ltb_false (240 + c / 262144) 240) by by_division.
  cbn [andb].
  rewrite (leb_true 240 (240 + c / 262144)) by by_division.
  rewrite (ltb_true (240 + c / 262144) 248) by by_division.
  cbn [andb]. unfold continuation.
  rewrite (leb_true 128 (128 + (c / 4096) mod 64)) by by_division.
  rewrite (ltb_true (128 + (c / 4096) mod 64) 192) by by_division.
  rewrite (leb_true 128 (128 + (c / 64) mod 64)) by by_division.
  rewrite (ltb_true (128 + (c / 64) mod 64) 192) by by_division.
  rewrite (leb_true 128 (128 + c mod 64)) by by_division.
  rewrite (ltb_true (128 + c mod 64) 192) by by_division.
  replace ((240 + c / 262144 - 240) * 262144
           + (128 + (c / 4096) mod 64 - 128) * 4096
           + (128 + (c / 64) mod 64 - 128) * 64 + (128 + c mod 64 - 128))%N
    with c by by_division.
  rewrite (leb_true 65536 c) by lia. rewrite (ltb_true c 1114112) by lia.
  reflexivity.
Qed.

Lemma decode_flat_map (l : list N) :
  Forall scalar l -> decode (flat_map utf8 l) = Some l.
Proof.
  induction 1 as [|c l Hc _ IH]; [reflexivity|].
  cbn [flat_map]. rewrite decode_utf8 by assumption. now rewrite IH.
Qed.

Lemma surrogate_split (c : N) :
  surrogate c = JSON.is_high_surrogate c || JSON.is_low_surrogate c.
Proof.
  unfold surrogate, JSON.is_high_surrogate, JSON.is_low_surrogate.
  destruct (55296 <=? c)%N eqn:A, (c <? 57344)%N eqn:B,
           (c <=? 56319)%N eqn:C, (56320 <=? c)%N eqn:D, (c <=? 57343)%N eqn:E;
    try reflexivity; to_Prop; lia.
Qed.

(** The conversion of a string gives scalar values. *)
Lemma scalarValues_scalar (s : jsstring) :
  codeUnits s -> Forall scalar (scalarValues s).
Proof.
  assert (Hfffd : scalar 65533) by (split; reflexivity).
  assert (Hgen : forall n s, (List.length s <= n)%nat -> codeUnits s ->
                             Forall scalar (scalarValues s)).
  { induction n as [|n IH]; intros [|c r] Hlen Hs; cbn [List.length] in Hlen;
      try (constructor; fail); try lia.
    inversion Hs as [|? ? Hc Hr]; subst.
    cbn [scalarValues].
    destruct (JSON.is_high_surrogate c) eqn:Hh.
    - destruct r as [|d r']; [constructor; [exact Hfffd | constructor]|].
      destruct (JSON.is_low_surrogate d) eqn:Hl.
      + inversion Hr as [|? ? Hd Hr']; subst. constructor.
        * unfold JSON.is_high_surrogate, JSON.is_low_surrogate in *. to_Prop.
          split; [lia|]. unfold surrogate.
          rewrite (ltb_false _ 57344) by lia. apply andb_false_r.
        * apply IH; [cbn [List.length] in Hlen; lia | assumption].
      + constructor; [exact Hfffd|]. apply IH; [lia | assumption].
    - destruct (JSON.is_low_surrogate c) eqn:Hl.
      + constructor; [exact Hfffd|]. apply IH; [lia | assumption].
      + constructor; [|apply IH; [lia | assumption]].
        split; [lia|]. now rewrite surrogate_split, Hh, Hl. }
  intros Hs. now apply (Hgen (List.length s) s).
Qed.

(** What [blob.text()] reads back from [new Blob([s])]. *)
Lemma text_bytes (s : jsstring) :
  codeUnits s -> text (bytes s) = Some (flat_map utf16 (scalarValues s)).
Proof.
  intros Hs. unfold text, bytes.
  now rewrite decode_flat_map by now apply scalarValues_scalar.
Qed.

(** A well-formed string comes back as it was. *)
Lemma wellFormed_back (s : jsstring) :
  codeUnits s -> isWellFormed s = true -> flat_map utf16 (scalarValues s) = s.
Proof.
  assert (Hgen : forall n s, (List.length s <= n)%nat -> codeUnits s ->
                             isWellFormed s = true ->
                             flat_map utf16 (scalarValues s) = s).
  { induction n as [|n IH]; intros [|c r] Hlen Hs Hwf; cbn [List.length] in Hlen;
      try reflexivity; try lia.
    inversion Hs as [|? ? Hc Hr]; subst.
    cbn [scalarValues isWellFormed] in *.
    destruct (JSON.is_high_surrogate c) eqn:Hh.
    - destruct r as [|d r']; [discriminate Hwf|].
      apply andb_prop in Hwf as [Hl Hwf]. rewrite Hl.
      inversion Hr as [|? ? Hd Hr']; subst.
      cbn [flat_map]. rewrite IH; [|cbn [List.length] in Hlen; lia|assumption..].
      unfold utf16.
      unfold JSON.is_high_surrogate, JSON.is_low_surrogate in *. to_Prop.
      rewrite (ltb_false _ 65536) by lia.
      cbn [List.app]. f_equal; [|f_equal]; by_division.
    - apply andb_prop in Hwf as [Hl Hwf]. apply negb_true_iff in Hl. rewrite Hl.
      cbn [flat_map]. rewrite IH; [|lia|assumption..].
      unfold utf16. now rewrite (ltb_true c 65536) by lia. }
  intros Hs. now apply (Hgen (List.length s) s).
Qed.

(** What comes back is well formed, whatever the string was. *)
Lemma back_wellFormed (s : jsstring) :
  codeUnits s -> isWellFormed (flat_map utf16 (scalarValues s)) = true.
Proof.
  assert (Hfffd : forall t, isWellFormed (utf16 65533 ++ t) = isWellFormed t)
    by reflexivity.
  assert (Hgen : forall n s, (List.length s <= n)%nat -> codeUnits s ->
                             isWellFormed (flat_map utf16 (scalarValues s)) = true).
  { induction n as [|n IH]; intros [|c r] Hlen Hs; cbn [List.length] in Hlen;
      try reflexivity; try lia.
    inversion Hs as [|? ? Hc Hr]; subst.
    cbn [scalarValues].
    destruct (JSON.is_high_surrogate c) eqn:Hh.
    - destruct r as [|d r']; [reflexivity|].
      destruct (JSON.is_low_surrogate d) eqn:Hl.
      + inversion Hr as [|? ? Hd Hr']; subst.
        cbn [flat_map]. unfold utf16 at 1.
        unfold JSON.is_high_surrogate, JSON.is_low_surrogate in Hh, Hl. to_Prop.
        rewrite (ltb_false _ 65536) by lia.
        cbn [List.app isWellFormed].
        replace (55296 + (65536 + (c - 55296) * 1024 + (d - 56320) - 65536) / 1024)%N
          with c by by_division.
        replace (56320 + (65536 + (c - 55296) * 1024 + (d - 56320) - 65536) mod 1024)%N
          with d by by_division.
        unfold JSON.is_high_surrogate, JSON.is_low_surrogate.
        rewrite (leb_true 55296 c), (leb_true c 56319),
                (leb_true 56320 d), (leb_true d 57343) by lia.
        cbn [andb]. apply IH; [cbn [List.length] in Hlen; lia | assumption].
      + cbn [flat_map]. rewrite Hfffd. apply IH; [lia | assumption].
    - destruct (JSON.is_low_surrogate c) eqn:Hl.
      + cbn [flat_map]. rewrite Hfffd. apply IH; [lia | assumption].
      + cbn [flat_map]. unfold utf16 at 1. rewrite (ltb_true c 65536) by lia.
        cbn [List.app isWellFormed]. rewrite Hh, Hl. cbn [negb andb].
        apply IH; [lia | assumption]. }
  intros Hs. now apply (Hgen (List.length s) s).
Qed.

(** The blob gives the string back exactly when the string is well formed. *)
Lemma text_bytes_back (s : jsstring) :
  codeUnits s -> (text (bytes s) = Some s <-> isWellFormed s = true).
Proof.
  intros Hs. rewrite text_bytes by assumption. split.
  - intros E. injection E as E. rewrite <- E. now apply back_wellFormed.
  - intros Hwf. now rewrite wellFormed_back.
Qed.

End BlobFacts.

(* ================================================================== *)
(** * Facts about the handlers *)
(* ================================================================== *)

Import App UI Sample.

(** Runs a handler on a world: unfolds the computation and the record
    projections and nothing else, so texts and requests stay as they are. *)
Ltac run_monad :=
  lazy beta iota zeta delta
    [exec dispatch try_finally try_catch bind ret throw saveLibrary
     send await generated generationFailed generationOver transcriptionFailed
     message_of
     setView setIsLoading setLoadingQuote setCurrentAnalysis setSourceText
     setAnalysisLens setCustomDirectives setVisualTheme setLibrary
     setIsSidebarOpen setIsRefineModalOpen setRefineDirectives modify
     alert console_error generateContent click_download
     localStorage_setItem localStorage_getItem
     fst snd
     App.app storage alerts console requests downloads
     view isLoading loadingQuote currentAnalysis sourceText analysisLens
     customDirectives visualTheme library isSidebarOpen isRefineModalOpen
     refineDirectives].

(** The two ways [setItem] can go. *)
Ltac case_storage st :=
  destruct (accessible st); [destruct (fits _ (quota st))|]; run_monad.

(** A world and its state as their fields. *)
Ltac open_world w :=
  let a := fresh "st" in
  destruct w as [a storage0 alerts0 console0 requests0 downloads0]; destruct a.

Lemma answers_reply (env : GenEnv) (html : jsstring) :
  answers env = Some html ->
  exists c rest, html = c :: rest /\ reply env = Resolves (TextString (c :: rest)).
Proof.
  unfold answers. destruct (reply env) as [e|[|[|c rest]|]]; try discriminate.
  intros [= <-]. eauto.
Qed.

Lemma handleGenerate_refined (snap : State) (env : GenEnv) (w : World)
    (r : LibraryEntry.t) (html : jsstring) :
  currentAnalysis snap = Some r ->
  LibraryEntry.sourceText r <> [] ->
  answers env = Some html ->
  let r' := refined r (refineDirectives snap) html in
  let lib' := replaceById r r' (library snap) in
  let w' := exec (handleGenerate snap env true None) w in
  app w' = mkState (view (app w)) false (quoteOf env) (Some r')
             (sourceText (app w)) (analysisLens (app w)) (customDirectives (app w))
             (visualTheme (app w)) lib' (isSidebarOpen (app w)) false []
  /\ requests w' = requests w ++ [generationRequest snap true (LibraryEntry.sourceText r)]
  /\ alerts w' = alerts w
  /\ downloads w' = downloads w
  /\ storage w' = stored lib' (storage w).
Proof.
  intros Hcur Hsrc Hans r' lib' w'. subst r' lib' w'.
  destruct (answers_reply _ _ Hans) as (c & rest & -> & Hreply).
  unfold handleGenerate, generated, textToAnalyze, stored, quoteOf, refined.
  rewrite Hcur, Hreply. cbn [option_map].
  destruct (LibraryEntry.sourceText r) as [|c0 text] eqn:Esrc; [contradiction|].
  open_world w. run_monad.
  case_storage storage0; repeat split; reflexivity.
Qed.

Lemma handleGenerate_created (snap : State) (env : GenEnv) (isRefinement : bool)
    (textOverride : option jsstring) (w : World) (text html : jsstring) :
  textToAnalyze snap isRefinement textOverride = Some text ->
  text <> [] ->
  answers env = Some html ->
  isRefinement = false \/ currentAnalysis snap = None ->
  let e := created snap text env html in
  let w' := exec (handleGenerate snap env isRefinement textOverride) w in
  app w' = mkState infographic false (quoteOf env) (Some e)
             (sourceText (app w)) (analysisLens (app w)) (customDirectives (app w))
             (visualTheme (app w)) (e :: library snap) (isSidebarOpen (app w)) false []
  /\ requests w' = requests w ++ [generationRequest snap isRefinement text]
  /\ alerts w' = alerts w
  /\ downloads w' = downloads w
  /\ storage w' = stored (e :: library snap) (storage w).
Proof.
  intros Htext Hne Hans Hnew e w'. subst e w'.
  destruct (answers_reply _ _ Hans) as (c & rest & -> & Hreply).
  unfold handleGenerate, generated, stored, quoteOf, created.
  rewrite Htext, Hreply.
  destruct text as [|c0 text]; [contradiction|].
  assert (Hbranch : match isRefinement, currentAnalysis snap with
                    | true, Some _ => False
                    | _, _ => True
                    end).
  { destruct Hnew as [-> | ->]; [exact I | destruct isRefinement; exact I]. }
  open_world w.
  destruct isRefinement; [destruct (currentAnalysis snap); [contradiction|]|];
    run_monad;
    (case_storage storage0; repeat split; reflexivity).
Qed.

Lemma handleGenerate_failed (snap : State) (env : GenEnv) (isRefinement : bool)
    (textOverride : option jsstring) (w : World) (text : jsstring) :
  textToAnalyze snap isRefinement textOverride = Some text ->
  text <> [] ->
  answers env = None ->
  let w' := exec (handleGenerate snap env isRefinement textOverride) w in
  app w' = settled (app w) (quoteOf env)
  /\ requests w' = requests w ++ [generationRequest snap isRefinement text]
  /\ alerts w'
     = alerts w
         ++ match reply env with
            | Rejects (Nullish _) => []
            | Rejects (Value e) =>
                [message_or e
                   (lit "An error occurred while analyzing the text. Please try again.")]
            | Resolves _ => [emptyResponseMessage]
            end
  /\ downloads w' = downloads w
  /\ storage w' = storage w
  /\ console w'
     = console w
         ++ match reply env with
            | Rejects _ => [lit "Error generating analysis:"]
            | Resolves _ =>
                [lit "Analysis generation returned an empty or invalid response:";
                 lit "Error generating analysis:"]
            end.
Proof.
  intros Htext Hne Hans w'. subst w'.
  unfold handleGenerate, generated, settled, quoteOf. rewrite Htext.
  destruct text as [|c0 text]; [contradiction|].
  unfold answers in Hans.
  open_world w.
  destruct (reply env) as [[complaint|err]|[|[|c rest]|]]; try discriminate;
    run_monad; rewrite ?app_nil_r, <- ?app_assoc; repeat split; reflexivity.
Qed.

Lemma handleGenerate_no_text (snap : State) (env : GenEnv) (isRefinement : bool)
    (textOverride : option jsstring) (w : World) :
  textToAnalyze snap isRefinement textOverride = None
  \/ textToAnalyze snap isRefinement textOverride = Some [] ->
  handleGenerate snap env isRefinement textOverride w
  = (Normal tt,
     mkWorld (app w) (storage w)
       (alerts w ++ [lit "Please provide some text to analyze."])
       (console w) (requests w) (downloads w)).
Proof.
  intros [H|H]; unfold handleGenerate, generated; rewrite H; reflexivity.
Qed.

(** How [handleGenerate] completes: normally, unless the call rejects with
    [undefined] or [null]; then the TypeError of its [catch] block leaves
    it. *)
Lemma handleGenerate_completion (snap : State) (env : GenEnv) (isRefinement : bool)
    (textOverride : option jsstring) (w : World) :
  fst (handleGenerate snap env isRefinement textOverride w)
  = match textToAnalyze snap isRefinement textOverride, reply env with
    | Some (_ :: _), Rejects (Nullish complaint) => Throw (TypeError complaint)
    | _, _ => Normal tt
    end.
Proof.
  unfold handleGenerate, generated.
  destruct (textToAnalyze snap isRefinement textOverride) as [[|c text]|];
    try (destruct (reply env) as [[|]|]; reflexivity).
  open_world w.
  destruct (reply env) as [[complaint|err]|[|[|h tml]|]];
    try (run_monad; reflexivity).
  destruct isRefinement; [destruct (currentAnalysis snap)|];
    run_monad; (case_storage storage0; reflexivity).
Qed.

(** No exception leaves [handleGenerate] when its call settles otherwise
    than by a rejection with [undefined] or [null]. *)
Lemma handleGenerate_returns (snap : State) (env : GenEnv) (isRefinement : bool)
    (textOverride : option jsstring) (w : World) :
  (forall complaint, reply env <> Rejects (Nullish complaint)) ->
  fst (handleGenerate snap env isRefinement textOverride w) = Normal tt.
Proof.
  intros Hsound. rewrite handleGenerate_completion.
  destruct (textToAnalyze snap isRefinement textOverride) as [[|c text]|];
    try reflexivity.
  destruct (reply env) as [[complaint|err]|]; try reflexivity.
  now contradiction (Hsound complaint).
Qed.

Lemma handleSaveChanges_edited (snap : State) (w : World) (r : LibraryEntry.t)
    (html : jsstring) :
  currentAnalysis snap = Some r ->
  let r' := edited r html in
  let lib' := replaceById r r' (library snap) in
  let w' := exec (handleSaveChanges snap (Some html)) w in
  app w' = mkState (view (app w)) (isLoading (app w)) (loadingQuote (app w)) (Some r')
             (sourceText (app w)) (analysisLens (app w)) (customDirectives (app w))
             (visualTheme (app w)) lib' (isSidebarOpen (app w))
             (isRefineModalOpen (app w)) (refineDirectives (app w))
  /\ requests w' = requests w
  /\ alerts w' = alerts w ++ [lit "Changes saved to library."]
  /\ downloads w' = downloads w
  /\ storage w' = stored lib' (storage w).
Proof.
  intros Hcur r' lib' w'. subst r' lib' w'.
  unfold handleSaveChanges, stored, edited. rewrite Hcur.
  open_world w. run_monad.
  case_storage storage0; repeat split; reflexivity.
Qed.

Lemma exec_dispatch {A : Type} (h : State -> M A) (w : World) :
  exec (dispatch h) w = exec (h (app w)) w.
Proof. reflexivity. Qed.

Lemma textToAnalyze_refine (s : State) (r : LibraryEntry.t) :
  currentAnalysis s = Some r ->
  textToAnalyze s true None = Some (LibraryEntry.sourceText r).
Proof. intros H. unfold textToAnalyze. now rewrite H. Qed.

(** What one event does to the record in hand, when it is not an event that
    changes which record that is. *)
Lemma step_on_record (ev : Event) (w : World) (r : LibraryEntry.t) :
  keepsRecord ev = true ->
  currentAnalysis (app w) = Some r ->
  let w' := exec (step ev) w in
  exists r',
    currentAnalysis (app w') = Some r'
    /\ requests w'
       = requests w
           ++ (if isSubmitRefine ev && nonempty (LibraryEntry.sourceText r)
               then [generationRequest (app w) true (LibraryEntry.sourceText r)]
               else [])
    /\ ((r' = r /\ library (app w') = library (app w)
         /\ (LibraryEntry.sourceText r <> [] -> answers_of ev = None))
        \/ (library (app w') = replaceById r r' (library (app w))
            /\ ((exists html, isSubmitRefine ev = true
                              /\ LibraryEntry.sourceText r <> []
                              /\ answers_of ev = Some html
                              /\ r' = refined r (refineDirectives (app w)) html)
                \/ (exists html, ev = SaveEdits (Some html)
                                 /\ r' = edited r html)))).
Proof.
  intros Hkeep Hcur w'. subst w'.
  destruct ev; try discriminate Hkeep; cbn [step isSubmitRefine andb answers_of].
  (* the events that only set a field of the form or of the layout *)
  1-6, 9-11:
    (exists r; rewrite app_nil_r;
     open_world w; cbn [app currentAnalysis] in Hcur; subst;
     run_monad; repeat split; left; repeat split; reflexivity).
  - (* SaveEdits *)
    rewrite exec_dispatch, app_nil_r.
    destruct innerHTML as [html|].
    + destruct (handleSaveChanges_edited (app w) w r html Hcur)
        as (Happ & Hreq & _).
      exists (edited r html). rewrite Happ, Hreq. cbn [currentAnalysis library].
      repeat split. right. split; [reflexivity|]. right. now exists html.
    + exists r. unfold handleSaveChanges. rewrite Hcur.
      repeat split; try assumption. left. repeat split.
  - (* DownloadHtml *)
    rewrite exec_dispatch, app_nil_r. exists r.
    unfold handleDownloadHtml. rewrite Hcur.
    open_world w. cbn [app currentAnalysis] in Hcur. subst.
    run_monad. repeat split. left; repeat split; reflexivity.
  - (* SubmitRefine *)
    rewrite exec_dispatch.
    destruct (LibraryEntry.sourceText r) as [|c text] eqn:Esrc.
    + cbn [nonempty]. rewrite app_nil_r. exists r.
      unfold exec. rewrite handleGenerate_no_text
        by (right; rewrite (textToAnalyze_refine _ r Hcur); now rewrite Esrc).
      cbn [snd app requests]. repeat split; try assumption.
      left. repeat split. intros Hne. exfalso. now apply Hne.
    + cbn [nonempty]. rewrite <- Esrc.
      assert (Hne : LibraryEntry.sourceText r <> []) by (rewrite Esrc; discriminate).
      destruct (answers env) as [html|] eqn:Hans.
      * destruct (handleGenerate_refined (app w) env w r html Hcur Hne Hans)
          as (Happ & Hreq & _).
        exists (refined r (refineDirectives (app w)) html).
        rewrite Happ, Hreq. cbn [currentAnalysis library].
        repeat split. right. split; [reflexivity|]. left.
        exists html. repeat split; assumption.
      * destruct (handleGenerate_failed (app w) env true None w
                    (LibraryEntry.sourceText r)
                    (textToAnalyze_refine _ r Hcur) Hne Hans)
          as (Happ & Hreq & _).
        exists r. rewrite Happ, Hreq. unfold settled. cbn [currentAnalysis library].
        repeat split; try assumption. left. repeat split.
Qed.

Lemma Forall2_single {A B : Type} (R : A -> B -> Prop) (a : A) (l : list B) :
  Forall2 R [a] l -> exists b, l = [b] /\ R a b.
Proof.
  intros H. inversion H as [|x b xs l' Hab Hrest]; subst.
  inversion Hrest; subst. now exists b.
Qed.

Lemma Forall2_same {A : Type} (R : A -> A -> Prop) (l : list A) :
  (forall a, R a a) -> Forall2 R l l.
Proof. intros H. induction l; constructor; auto. Qed.

Lemma Forall2_chain {A : Type} (R S T : A -> A -> Prop) (l1 l2 l3 : list A) :
  (forall a b c, R a b -> S b c -> T a c) ->
  Forall2 R l1 l2 -> Forall2 S l2 l3 -> Forall2 T l1 l3.
Proof.
  intros H H12. revert l3.
  induction H12 as [|a b l1 l2 Hab _ IH]; intros l3 H23; inversion H23; subst;
    constructor; eauto.
Qed.

(** Position by position: an entry whose id is that of [current] becomes
    [updated], any other entry stays. *)
Lemma replaceById_Forall2 (current updated : LibraryEntry.t)
    (lib : list LibraryEntry.t) :
  Forall2 (fun old new =>
             (LibraryEntry.id old = LibraryEntry.id current /\ new = updated)
             \/ (LibraryEntry.id old <> LibraryEntry.id current /\ new = old))
    lib (replaceById current updated lib).
Proof.
  unfold replaceById. induction lib as [|e lib IH]; cbn [map]; constructor; auto.
  destruct (streq (LibraryEntry.id e) (LibraryEntry.id current)) eqn:E.
  - left. split; [now apply streq_eq | reflexivity].
  - right. split; [now apply streq_neq | reflexivity].
Qed.

Lemma wellFormed_same_id (s : State) (r e : LibraryEntry.t) :
  wellFormed s -> currentAnalysis s = Some r -> In e (library s) ->
  LibraryEntry.id e = LibraryEntry.id r -> e = r.
Proof.
  intros [Hnd Hin] Hcur He Hid. specialize (Hin r Hcur).
  revert Hnd He Hin. generalize (library s) as lib.
  induction lib as [|x lib IH]; intros Hnd He Hin; [contradiction|].
  cbn [map] in Hnd. inversion Hnd as [|? ? Hx Hnd']; subst.
  destruct He as [-> | He], Hin as [-> | Hin]; auto.
  - exfalso. apply Hx. rewrite Hid. now apply in_map.
  - exfalso. apply Hx. rewrite <- Hid. now apply in_map.
Qed.

(** Over events that keep the record [r] in hand: the record in hand, the
    requests sent and the stored records. *)
Lemma session_keeps_source (evs : list Event) :
  forall (w : World) (r : LibraryEntry.t),
    currentAnalysis (app w) = Some r ->
    forallb keepsRecord evs = true ->
    (exists r', currentAnalysis (app (run evs w)) = Some r'
                /\ LibraryEntry.id r' = LibraryEntry.id r
                /\ LibraryEntry.sourceText r' = LibraryEntry.sourceText r)
    /\ (exists sent,
          requests (run evs w) = requests w ++ sent
          /\ Forall (carries (LibraryEntry.sourceText r)) sent
          /\ (LibraryEntry.sourceText r <> [] ->
              List.length sent = List.length (filter isSubmitRefine evs)))
    /\ Forall2 (sourceKept r) (library (app w)) (library (app (run evs w))).
Proof.
  induction evs as [|ev evs IH]; intros w r Hcur Hkeep; cbn [run].
  - split; [now exists r|]. split.
    + exists []. rewrite app_nil_r. repeat split; auto.
    + apply Forall2_same. intros a. split; auto.
  - cbn [forallb] in Hkeep. apply andb_true_iff in Hkeep as [Hk Hkeep].
    destruct (step_on_record ev w r Hk Hcur) as (r1 & Hcur1 & Hreq1 & Hlib1).
    assert (Hsame : LibraryEntry.id r1 = LibraryEntry.id r
                    /\ LibraryEntry.sourceText r1 = LibraryEntry.sourceText r).
    { destruct Hlib1 as [[-> _] | [_ [(html & _ & _ & _ & ->) | (html & _ & ->)]]];
        split; reflexivity. }
    destruct Hsame as [Hid1 Hsrc1].
    destruct (IH _ r1 Hcur1 Hkeep) as ((r' & Hcur' & Hid' & Hsrc') & (sent & Hreq' & Hall & Hlen) & Hlib').
    split; [|split].
    + exists r'. repeat split; congruence.
    + rewrite Hreq', Hreq1, <- app_assoc.
      eexists. split; [reflexivity|]. split.
      * apply Forall_app. split.
        -- destruct (isSubmitRefine ev && nonempty (LibraryEntry.sourceText r));
             constructor; [|constructor].
           eexists. reflexivity.
        -- now rewrite <- Hsrc1.
      * intros Hne. rewrite length_app, Hlen by congruence.
        cbn [filter]. destruct (isSubmitRefine ev); cbn [andb].
        -- destruct (LibraryEntry.sourceText r); [contradiction | reflexivity].
        -- reflexivity.
    + apply Forall2_chain with (R := sourceKept r) (S := sourceKept r1)
                               (l2 := library (app (exec (step ev) w)));
        [| |exact Hlib'].
      * intros a b c [Hab1 Hab2] [Hbc1 Hbc2]. split; [congruence|].
        destruct Hbc2 as [Hbc2 | [Hbc2 Hbc3]].
        -- destruct Hab2 as [Hab2 | [Hab2 Hab3]]; [left | right; split]; congruence.
        -- right. split; congruence.
      * destruct Hlib1 as [[_ [-> _]] | [-> _]].
        -- apply Forall2_same. intros a. split; auto.
        -- eapply Forall2_impl; [|apply replaceById_Forall2].
           intros old new [[Ho ->] | [Ho ->]]; split; auto; congruence.
Qed.

(** Claim C1.  Take a record [r] in hand and any sequence of events that
    keeps it in hand: refinements that succeed or fail, manual edits, typing
    in the form or in the refine dialog, downloads.  Then (1) the record in
    hand at the end has the identifier and the [sourceText] of [r];
    (2) every request sent to the model during the sequence carries
    [sourceText r] as its transcript, whatever the edited HTML or the form
    holds, and when [sourceText r] is not empty there is exactly one such
    request per submitted refinement; (3) every stored record keeps its
    identifier and its [sourceText], except that a stored record sharing
    the identifier of [r] may take the [sourceText] of [r]; (4) when the
    identifiers of the library are distinct and [r] is in the library,
    every stored record keeps its [sourceText], without exception. *)
Theorem refinement_uses_original_sourceText :
  forall (evs : list Event) (w : World) (r : LibraryEntry.t),
    currentAnalysis (app w) = Some r ->
    forallb keepsRecord evs = true ->
    let w' := run evs w in
    (exists r', currentAnalysis (app w') = Some r'
                /\ LibraryEntry.id r' = LibraryEntry.id r
                /\ LibraryEntry.sourceText r' = LibraryEntry.sourceText r)
    /\ (exists sent,
          requests w' = requests w ++ sent
          /\ Forall (carries (LibraryEntry.sourceText r)) sent
          /\ (LibraryEntry.sourceText r <> [] ->
              List.length sent = List.length (filter isSubmitRefine evs)))
    /\ Forall2 (sourceKept r) (library (app w)) (library (app w'))
    /\ (wellFormed (app w) ->
        Forall2 (fun old new =>
                   LibraryEntry.id new = LibraryEntry.id old
                   /\ LibraryEntry.sourceText new = LibraryEntry.sourceText old)
          (library (app w)) (library (app w'))).
Proof.
  intros evs w r Hcur Hkeep w'. subst w'.
  destruct (session_keeps_source evs w r Hcur Hkeep) as (Hhand & Hsent & Hkept).
  repeat split; try assumption.
  intros Hwf.
  assert (Hmem : forall old, In old (library (app w)) ->
                             LibraryEntry.id old = LibraryEntry.id r -> old = r)
    by (intros old Hin Hid; now apply (wellFormed_same_id (app w))).
  revert Hmem Hkept.
  generalize (library (app w)) (library (app (run evs w))).
  intros lib lib' Hmem Hkept.
  induction Hkept as [|old new lib lib' [Hid Hsrc] _ IH]; constructor.
  - split; [exact Hid|].
    destruct Hsrc as [Hsrc | [Hr Hsrc]]; [exact Hsrc|].
    rewrite (Hmem old (or_introl eq_refl) Hr). exact Hsrc.
  - apply IH. intros x Hx. apply Hmem. now right.
Qed.

(** [handleFileSelect] once the file is read and the transcription has
    resolved: [handleGenerate] runs inside its [try]. *)
Lemma handleFileSelect_read (snap : State) (env : FileEnv) (file : File)
    (w : World) (dataURL : jsstring) (transcription : option jsstring) :
  includes supportedTypes (type file) = true ->
  read env = ReadOk dataURL ->
  transcription_reply env = Resolves transcription ->
  handleFileSelect snap env (Some file) w
  = try_catch (handleGenerate snap (generation env) false transcription)
      transcriptionFailed (transcribed w file dataURL transcription).
Proof.
  intros Hsup Hread Hreply.
  unfold handleFileSelect, fileToBase64, transcribed. rewrite Hsup, Hread, Hreply.
  cbn [negb].
  open_world w. run_monad. reflexivity.
Qed.

Lemma handleFileSelect_transcribed (snap : State) (env : FileEnv) (file : File)
    (w : World) (dataURL : jsstring) (transcription : option jsstring) :
  includes supportedTypes (type file) = true ->
  read env = ReadOk dataURL ->
  transcription_reply env = Resolves transcription ->
  fst (handleGenerate snap (generation env) false transcription
         (transcribed w file dataURL transcription)) = Normal tt ->
  handleFileSelect snap env (Some file) w
  = handleGenerate snap (generation env) false transcription
      (transcribed w file dataURL transcription).
Proof.
  intros Hsup Hread Hreply Hret.
  rewrite (handleFileSelect_read snap env file w dataURL transcription)
    by assumption.
  unfold try_catch.
  destruct (handleGenerate snap (generation env) false transcription
              (transcribed w file dataURL transcription)) as [[[]|err] wx];
    [reflexivity | discriminate Hret].
Qed.

(** An upload whose generation rejects with [undefined] or [null]: the
    TypeError that leaves [handleGenerate] is caught by [handleFileSelect],
    which reports it. *)
Lemma handleFileSelect_generation_threw (snap : State) (env : FileEnv)
    (file : File) (w : World) (dataURL : jsstring)
    (transcription : option jsstring) (c : N) (text complaint : jsstring) :
  includes supportedTypes (type file) = true ->
  read env = ReadOk dataURL ->
  transcription_reply env = Resolves transcription ->
  textToAnalyze snap false transcription = Some (c :: text) ->
  reply (generation env) = Rejects (Nullish complaint) ->
  handleFileSelect snap env (Some file) w
  = (Normal tt,
     mkWorld
       (settled (app (transcribed w file dataURL transcription))
          (quoteOf (generation env)))
       (storage w)
       (alerts w ++ [lit "An error occurred during transcription or analysis: "
                       ++ message_or (TypeError complaint) (lit "Please try again.")])
       (console w ++ [lit "Error generating analysis:";
                      lit "Error transcribing audio:"])
       (requests w ++ [transcriptionRequest file (split_comma_1 dataURL);
                       generationRequest snap false (c :: text)])
       (downloads w)).
Proof.
  intros Hsup Hread Hreply Htext Hrej.
  rewrite (handleFileSelect_read snap env file w dataURL transcription)
    by assumption.
  unfold handleGenerate, generated, transcribed, settled, quoteOf.
  rewrite Htext, Hrej.
  open_world w. run_monad. rewrite <- !app_assoc. reflexivity.
Qed.

(** What [handleFileSelect] leaves when the file cannot be read or the
    transcription call rejects: the original state, with loading off again
    unless the call rejected with [undefined] or [null]. *)
Lemma handleFileSelect_failed (snap : State) (env : FileEnv) (file : File)
    (w : World) :
  includes supportedTypes (type file) = true ->
  (exists e, read env = ReadError e)
  \/ (exists url e, read env = ReadOk url /\ transcription_reply env = Rejects e) ->
  let w' := exec (handleFileSelect snap env (Some file)) w in
  library (app w') = library (app w)
  /\ currentAnalysis (app w') = currentAnalysis (app w)
  /\ isLoading (app w')
     = match read env, transcription_reply env with
       | ReadOk _, Rejects (Nullish _) => true
       | _, _ => false
       end
  /\ storage w' = storage w.
Proof.
  intros Hsup Hfail w'. subst w'.
  unfold handleFileSelect, fileToBase64. rewrite Hsup. cbn [negb].
  open_world w.
  destruct Hfail as [(e & ->) | (url & [complaint|e] & -> & ->)];
    run_monad; repeat split; reflexivity.
Qed.

Lemma handleFileSelect_rejected (snap : State) (env : FileEnv) (file : File)
    (w : World) :
  includes supportedTypes (type file) = false ->
  handleFileSelect snap env (Some file) w
  = (Normal tt,
     mkWorld (app w) (storage w)
       (alerts w ++ [lit "Unsupported file type: " ++ type file
                       ++ lit ". Please upload an MP3 or M4A file."])
       (console w) (requests w) (downloads w)).
Proof.
  intros H. unfold handleFileSelect. rewrite H. reflexivity.
Qed.

Lemma handleGenerate_elsewhere (env : GenEnv) (isRefinement : bool)
    (textOverride : option jsstring) (w0 w : World) :
  isRefinement = false \/ currentAnalysis (app w0) = None ->
  library (app w) = library (app w0) ->
  currentAnalysis (app w) = currentAnalysis (app w0) ->
  elsewhere w0 (exec (handleGenerate (app w0) env isRefinement textOverride) w).
Proof.
  intros Hnew Hlib Hcur. unfold elsewhere.
  destruct (textToAnalyze (app w0) isRefinement textOverride) as [[|c text]|] eqn:Ht.
  - unfold exec. rewrite handleGenerate_no_text by auto. cbn [snd app]. auto.
  - assert (Hne : c :: text <> []) by discriminate.
    destruct (answers env) as [html|] eqn:Hans.
    + destruct (handleGenerate_created (app w0) env isRefinement textOverride w
                  (c :: text) html Ht Hne Hans Hnew) as (Happ & _).
      rewrite Happ. right. eexists. split; reflexivity.
    + destruct (handleGenerate_failed (app w0) env isRefinement textOverride w
                  (c :: text) Ht Hne Hans) as (Happ & _).
      rewrite Happ. unfold settled. cbn [library currentAnalysis]. auto.
  - unfold exec. rewrite handleGenerate_no_text by auto. cbn [snd app]. auto.
Qed.

(** The same for the [handleGenerate] that an upload runs inside its [try]. *)
Lemma caught_elsewhere (env : GenEnv) (textOverride : option jsstring)
    (w0 w : World) :
  library (app w) = library (app w0) ->
  currentAnalysis (app w) = currentAnalysis (app w0) ->
  elsewhere w0
    (exec (try_catch (handleGenerate (app w0) env false textOverride)
             transcriptionFailed) w).
Proof.
  intros Hlib Hcur.
  pose proof (handleGenerate_elsewhere env false textOverride w0 w
                (or_introl eq_refl) Hlib Hcur) as Hgen.
  pose proof (handleGenerate_completion (app w0) env false textOverride w) as Hc.
  unfold exec, try_catch in *.
  destruct (handleGenerate (app w0) env false textOverride w) as [[[]|err] wx];
    cbn [fst snd] in *; [exact Hgen|].
  unfold elsewhere in *.
  assert (Happ : library (app (snd (transcriptionFailed err wx))) = library (app wx)
                 /\ currentAnalysis (app (snd (transcriptionFailed err wx)))
                    = currentAnalysis (app wx)).
  { open_world wx. destruct err as [complaint|e]; run_monad; split; reflexivity. }
  destruct Happ as [-> ->]. exact Hgen.
Qed.

Lemma handleFileSelect_elsewhere (env : FileEnv) (file : File) (w : World) :
  elsewhere w (exec (handleFileSelect (app w) env (Some file)) w).
Proof.
  destruct (includes supportedTypes (type file)) eqn:Hsup.
  - assert (Hfail : (exists e, read env = ReadError e)
                    \/ (exists url e, read env = ReadOk url
                                      /\ transcription_reply env = Rejects e) ->
                    elsewhere w (exec (handleFileSelect (app w) env (Some file)) w)).
    { intros Hfail.
      destruct (handleFileSelect_failed (app w) env file w Hsup Hfail)
        as (Hlib & Hcur & _).
      left. auto. }
    destruct (read env) as [url|e] eqn:Hread; [|apply Hfail; left; now exists e].
    destruct (transcription_reply env) as [e|t] eqn:Hreply;
      [apply Hfail; right; now exists url, e|].
    unfold exec. rewrite (handleFileSelect_read _ _ _ _ url t) by assumption.
    apply (caught_elsewhere (generation env) t w (transcribed w file url t));
      reflexivity.
  - unfold exec. rewrite handleFileSelect_rejected by assumption.
    left. cbn [snd app]. auto.
Qed.

(** ** Handlers cut at their [await]s *)

Lemma after_normal (m : M (list Async.Call)) (w w' : World)
    (calls others : list Async.Call) :
  m w = (Normal calls, w') ->
  Async.after m w others = Async.mkPage w' (others ++ calls).
Proof. intros H. unfold Async.after. now rewrite H. Qed.

Lemma after_throw (m : M (list Async.Call)) (w w' : World) (e : Thrown)
    (others : list Async.Call) :
  m w = (Throw e, w') ->
  Async.after m w others = Async.mkPage w' others.
Proof. intros H. unfold Async.after. now rewrite H. Qed.

Lemma after_dispatch (h : State -> M (list Async.Call)) (w : World)
    (others : list Async.Call) :
  Async.after (dispatch h) w others = Async.after (h (app w)) w others.
Proof. reflexivity. Qed.

(** A piece that makes no call. *)
Lemma after_last (m : M unit) (w : World) (others : list Async.Call) :
  Async.after (m ;; ret []) w others = Async.mkPage (exec m w) others.
Proof.
  unfold Async.after, exec, bind, ret.
  destruct (m w) as [[[]|e] w']; cbn [snd]; [now rewrite app_nil_r | reflexivity].
Qed.

Lemma nth_error_last {A : Type} (l : list A) (x : A) :
  nth_error (l ++ [x]) (List.length l) = Some x.
Proof. induction l as [|y l IH]; [reflexivity | exact IH]. Qed.

Lemma without_last (calls : list Async.Call) (c : Async.Call) :
  Async.without (List.length calls) (calls ++ [c]) = calls.
Proof.
  induction calls as [|d calls IH]; [reflexivity|].
  cbn [List.length List.app Async.without]. now rewrite IH.
Qed.

(** The call made last settles. *)
Lemma step_settle_last (calls : list Async.Call) (c : Async.Call) (w : World) :
  Async.step (Async.Settle (List.length calls)) (Async.mkPage w (calls ++ [c]))
  = Async.after (Async.resume c) w calls.
Proof.
  cbn [Async.step Async.inFlight Async.world].
  now rewrite nth_error_last, without_last.
Qed.

Lemma startGenerate_text (snap : State) (env : GenEnv) (isRefinement : bool)
    (textOverride : option jsstring) (fromUpload : bool) (w : World)
    (c : N) (text : jsstring) :
  textToAnalyze snap isRefinement textOverride = Some (c :: text) ->
  Async.startGenerate snap env isRefinement textOverride fromUpload w
  = (Normal [Async.GenerationCall snap env isRefinement (c :: text) fromUpload],
     waiting w (quoteOf env) (generationRequest snap isRefinement (c :: text))).
Proof.
  intros Ht. unfold Async.startGenerate, waiting, quoteOf. rewrite Ht.
  open_world w. run_monad. reflexivity.
Qed.

Lemma startGenerate_no_text (snap : State) (env : GenEnv) (isRefinement : bool)
    (textOverride : option jsstring) (fromUpload : bool) (w : World) :
  textToAnalyze snap isRefinement textOverride = None
  \/ textToAnalyze snap isRefinement textOverride = Some [] ->
  Async.startGenerate snap env isRefinement textOverride fromUpload w
  = (Normal [], alerted w (lit "Please provide some text to analyze.")).
Proof.
  intros [Ht|Ht]; unfold Async.startGenerate, alerted; rewrite Ht;
    open_world w; run_monad; reflexivity.
Qed.

(** [handleGenerate] is its piece up to the [await] followed by the piece
    from the [await] on. *)
Lemma handleGenerate_split (snap : State) (env : GenEnv) (isRefinement : bool)
    (textOverride : option jsstring) (w : World) (c : N) (text : jsstring) :
  textToAnalyze snap isRefinement textOverride = Some (c :: text) ->
  handleGenerate snap env isRefinement textOverride w
  = Async.resumeGenerate snap env isRefinement (c :: text)
      (waiting w (quoteOf env) (generationRequest snap isRefinement (c :: text))).
Proof.
  intros Ht. unfold handleGenerate, Async.resumeGenerate, waiting, quoteOf.
  rewrite Ht. open_world w.
  lazy beta iota zeta delta
    [try_finally try_catch bind ret throw send generateContent
     setIsLoading setLoadingQuote modify
     App.app storage alerts console requests downloads
     view isLoading loadingQuote currentAnalysis sourceText analysisLens
     customDirectives visualTheme library isSidebarOpen isRefineModalOpen
     refineDirectives].
  reflexivity.
Qed.

Lemma startFileSelect_supported (snap : State) (env : FileEnv) (file : File)
    (w : World) :
  includes supportedTypes (type file) = true ->
  Async.startFileSelect snap env (Some file) w
  = (Normal [Async.FileRead snap env file], reading w).
Proof.
  intros Hsup. unfold Async.startFileSelect, reading. rewrite Hsup. cbn [negb].
  open_world w. run_monad. reflexivity.
Qed.

Lemma resumeFileRead_read (snap : State) (env : FileEnv) (file : File)
    (w : World) (dataURL : jsstring) :
  read env = ReadOk dataURL ->
  Async.resumeFileRead snap env file w
  = (Normal [Async.TranscriptionCall snap env],
     mkWorld (app w) (storage w) (alerts w) (console w)
       (requests w ++ [transcriptionRequest file (split_comma_1 dataURL)])
       (downloads w)).
Proof.
  intros Hread. unfold Async.resumeFileRead, fileToBase64. rewrite Hread.
  open_world w. run_monad. reflexivity.
Qed.

(** A piece inside the [try] of [handleFileSelect] that makes no call. *)
Lemma after_caught (m : M unit) (w : World) (others : list Async.Call) :
  Async.after (try_catch (m ;; ret [])
                 (fun error => transcriptionFailed error ;; ret [])) w others
  = Async.mkPage (exec (try_catch m transcriptionFailed) w) others.
Proof.
  unfold Async.after, exec, try_catch, bind, ret.
  destruct (m w) as [[[]|e] w']; cbn [snd]; [now rewrite app_nil_r|].
  destruct (transcriptionFailed e w') as [[[]|e'] w'']; cbn [snd];
    [now rewrite app_nil_r | reflexivity].
Qed.

Lemma step_settle_none (k : nat) (w : World) :
  Async.step (Async.Settle k) (Async.mkPage w []) = Async.mkPage w [].
Proof. now destruct k. Qed.

(** An event whose calls settle one after the other before anything else
    happens: what the handler run in one go leaves. *)
Lemma one_at_a_time_step (ev : Event) (w : World) :
  Async.run [Async.Do ev; Async.Settle 0; Async.Settle 0; Async.Settle 0]
    (Async.mkPage w [])
  = Async.mkPage (exec (step ev) w) [].
Proof.
  assert (Hquiet : forall m : M unit,
             Async.run [Async.Settle 0; Async.Settle 0; Async.Settle 0]
               (Async.after (m ;; ret []) w [])
             = Async.mkPage (exec m w) []).
  { intros m. rewrite after_last. reflexivity. }
  assert (Hgen : forall env isRefinement,
             Async.run [Async.Settle 0; Async.Settle 0; Async.Settle 0]
               (Async.after
                  (Async.startGenerate (app w) env isRefinement None false) w [])
             = Async.mkPage (exec (handleGenerate (app w) env isRefinement None) w) []).
  { intros env isRefinement.
    destruct (textToAnalyze (app w) isRefinement None) as [[|c text]|] eqn:Ht.
    - rewrite (after_normal _ _ _ _ _
                 (startGenerate_no_text (app w) env isRefinement None false w
                    (or_intror Ht))).
      unfold exec. rewrite handleGenerate_no_text by auto. reflexivity.
    - rewrite (after_normal _ _ _ _ _
                 (startGenerate_text (app w) env isRefinement None false w c text Ht)).
      cbn [List.app Async.run Async.step Async.inFlight Async.world nth_error
           Async.without Async.resume].
      rewrite after_last. unfold exec.
      rewrite (handleGenerate_split (app w) env isRefinement None w c text Ht).
      reflexivity.
    - rewrite (after_normal _ _ _ _ _
                 (startGenerate_no_text (app w) env isRefinement None false w
                    (or_introl Ht))).
      unfold exec. rewrite handleGenerate_no_text by auto. reflexivity. }
  destruct ev;
    try (cbn [Async.run]; unfold Async.step at 4;
         cbn [Async.begin Async.world Async.inFlight step]; apply Hquiet).
  - (* Generate *)
    cbn [Async.run]. unfold Async.step at 4.
    cbn [Async.begin Async.world Async.inFlight step].
    rewrite after_dispatch, exec_dispatch. apply Hgen.
  - (* SelectFile *)
    cbn [Async.run]. unfold Async.step at 4.
    cbn [Async.begin Async.world Async.inFlight step].
    rewrite after_dispatch, exec_dispatch.
    destruct (includes supportedTypes (type file)) eqn:Hsup.
    2: { unfold exec. rewrite handleFileSelect_rejected by assumption.
         unfold Async.after, Async.startFileSelect. rewrite Hsup. cbn [negb].
         open_world w. reflexivity. }
    rewrite (after_normal _ _ _ _ _
               (startFileSelect_supported (app w) env file w Hsup)).
    cbn [List.app]. unfold Async.step at 3.
    cbn [Async.inFlight Async.world nth_error Async.without Async.resume].
    destruct (read env) as [url|e] eqn:Hread.
    2: { unfold Async.after, Async.resumeFileRead, handleFileSelect, fileToBase64,
           reading.
         rewrite Hsup, Hread. cbn [negb]. open_world w. run_monad. reflexivity. }
    rewrite (after_normal _ _ _ _ _
               (resumeFileRead_read (app w) env file (reading w) url Hread)).
    cbn [List.app]. unfold Async.step at 2.
    cbn [Async.inFlight Async.world nth_error Async.without Async.resume].
    destruct (transcription_reply env) as [[complaint|e]|t] eqn:Hreply.
    1, 2: unfold Async.after, Async.resumeTranscription, handleFileSelect,
            fileToBase64, reading;
          rewrite Hsup, Hread, Hreply; cbn [negb]; open_world w; run_monad;
          reflexivity.
    unfold exec. rewrite (handleFileSelect_read (app w) env file w url t)
      by assumption.
    destruct (textToAnalyze (app w) false t) as [[|c text]|] eqn:Ht.
    + unfold try_catch. rewrite handleGenerate_no_text by auto.
      unfold Async.after, Async.resumeTranscription. rewrite Hreply.
      unfold try_catch, bind, await, ret at 1.
      unfold setSourceText, modify.
      rewrite (startGenerate_no_text (app w) (generation env) false t true _
                 (or_intror Ht)).
      unfold transcribed, reading, alerted. open_world w. reflexivity.
    + assert (Hstart :
                Async.resumeTranscription (app w) env
                  (mkWorld (app (reading w)) (storage (reading w))
                     (alerts (reading w)) (console (reading w))
                     (requests (reading w)
                        ++ [transcriptionRequest file (split_comma_1 url)])
                     (downloads (reading w)))
                = (Normal [Async.GenerationCall (app w) (generation env) false
                             (c :: text) true],
                   waiting (transcribed w file url t) (quoteOf (generation env))
                     (generationRequest (app w) false (c :: text)))).
      { unfold Async.resumeTranscription. rewrite Hreply.
        unfold try_catch, bind, await, ret at 1.
        unfold setSourceText, modify.
        rewrite (startGenerate_text (app w) (generation env) false t true _ c text Ht).
        unfold transcribed, reading, waiting. open_world w. reflexivity. }
      rewrite (after_normal _ _ _ _ _ Hstart).
      cbn [List.app Async.run Async.step Async.inFlight Async.world nth_error
           Async.without Async.resume].
      rewrite after_caught. unfold exec, try_catch.
      now rewrite (handleGenerate_split (app w) (generation env) false t
                     (transcribed w file url t) c text Ht).
    + unfold try_catch. rewrite handleGenerate_no_text by auto.
      unfold Async.after, Async.resumeTranscription. rewrite Hreply.
      unfold try_catch, bind, await, ret at 1.
      unfold setSourceText, modify.
      rewrite (startGenerate_no_text (app w) (generation env) false t true _
                 (or_introl Ht)).
      unfold transcribed, reading, alerted. open_world w. reflexivity.
  - (* SubmitRefine *)
    cbn [Async.run]. unfold Async.step at 4.
    cbn [Async.begin Async.world Async.inFlight step].
    rewrite after_dispatch, exec_dispatch. apply Hgen.
Qed.

Lemma async_run_app (l1 l2 : list Async.Action) (p : Async.Page) :
  Async.run (l1 ++ l2) p = Async.run l2 (Async.run l1 p).
Proof. revert p. induction l1 as [|a l1 IH]; intros p; cbn; auto. Qed.

(** A session in which every call settles before the next event is the
    session of [UI.run]. *)
Lemma one_at_a_time_run (evs : list Event) (w : World) :
  Async.run (Async.oneAtATime evs) (Async.mkPage w [])
  = Async.mkPage (run evs w) [].
Proof.
  revert w. induction evs as [|ev evs IH]; intros w; [reflexivity|].
  unfold Async.oneAtATime. cbn [flat_map].
  change (flat_map _ evs) with (Async.oneAtATime evs).
  rewrite async_run_app, one_at_a_time_step. cbn [run]. apply IH.
Qed.

(** Events that may create a record or change which record is in hand, and
    any event when no record is in hand. *)
Lemma step_elsewhere (ev : Event) (w : World) :
  keepsRecord ev = false \/ currentAnalysis (app w) = None ->
  elsewhere w (exec (step ev) w).
Proof.
  intros Hcase.
  destruct ev; cbn [step]; rewrite ?exec_dispatch;
    try solve [left; open_world w; run_monad; auto].
  - (* Generate *)
    apply (handleGenerate_elsewhere env false None w w); [now left | | ]; reflexivity.
  - (* SelectFile *)
    apply handleFileSelect_elsewhere.
  - (* LoadFromLibrary *)
    left. destruct (nth_error (library (app w)) index) as [entry|] eqn:Hnth.
    + apply nth_error_In in Hnth.
      open_world w. run_monad. split; [reflexivity|].
      right. right. exists entry. split; [exact Hnth | reflexivity].
    + open_world w. run_monad. auto.
  - (* SaveEdits *)
    destruct Hcase as [Hcase | Hcur]; [discriminate|].
    left. unfold handleSaveChanges. rewrite Hcur.
    change (exec (ret tt) w) with w. split; [reflexivity | left; exact Hcur].
  - (* DownloadHtml *)
    left. unfold handleDownloadHtml.
    open_world w. cbn [app currentAnalysis].
    destruct currentAnalysis0; run_monad; auto.
  - (* SubmitRefine *)
    destruct Hcase as [Hcase | Hcur]; [discriminate|].
    apply (handleGenerate_elsewhere env true None w w); [now right | | ]; reflexivity.
Qed.

Lemma historyGrows_refl (e : LibraryEntry.t) : historyGrows e e.
Proof. split; [reflexivity|]. exists []. now rewrite app_nil_r. Qed.



Lemma replaceById_ids (current updated : LibraryEntry.t)
    (lib : list LibraryEntry.t) :
  LibraryEntry.id updated = LibraryEntry.id current ->
  map LibraryEntry.id (replaceById current updated lib) = map LibraryEntry.id lib.
Proof.
  intros Hid. unfold replaceById. rewrite map_map. apply map_ext_in.
  intros e _. destruct (streq (LibraryEntry.id e) (LibraryEntry.id current)) eqn:E;
    [|reflexivity].
  apply streq_eq in E. congruence.
Qed.

Lemma replaceById_In (current updated : LibraryEntry.t)
    (lib : list LibraryEntry.t) :
  In current lib -> In updated (replaceById current updated lib).
Proof.
  intros Hin. unfold replaceById. apply in_map_iff. exists current.
  now rewrite streq_refl.
Qed.

(** The invariant of the data model holds after an event when it held
    before, as long as a record that the event creates has an identifier
    that no stored record has. *)
Lemma wellFormed_preserved (ev : Event) (w : World) :
  wellFormed (app w) ->
  (forall e, library (app (exec (step ev) w)) = e :: library (app w) ->
             ~ In (LibraryEntry.id e) (map LibraryEntry.id (library (app w)))) ->
  wellFormed (app (exec (step ev) w)).
Proof.
  intros [Hnd Hin] Hfresh.
  assert (Hcases :
            (exists r r', currentAnalysis (app w) = Some r
                          /\ currentAnalysis (app (exec (step ev) w)) = Some r'
                          /\ ((r' = r /\ library (app (exec (step ev) w))
                                         = library (app w))
                              \/ (LibraryEntry.id r' = LibraryEntry.id r
                                  /\ library (app (exec (step ev) w))
                                     = replaceById r r' (library (app w)))))
            \/ elsewhere w (exec (step ev) w)).
  { destruct (keepsRecord ev) eqn:Hk; [|right; apply step_elsewhere; now left].
    destruct (currentAnalysis (app w)) as [r|] eqn:Hcur;
      [|right; apply step_elsewhere; now right].
    left. destruct (step_on_record ev w r Hk Hcur) as (r' & Hcur' & _ & Hcase).
    exists r, r'. split; [reflexivity|]. split; [exact Hcur'|].
    destruct Hcase as [(-> & -> & _)
                      | (-> & [(html & _ & _ & _ & ->) | (html & _ & ->)])];
      [left | right | right]; split; reflexivity. }
  destruct Hcases as [(r & r' & Hcur & Hcur' & [[-> Hlib] | [Hid Hlib]])
                     | [[Hlib Hcur'] | (e & Hlib & Hcur')]];
    split; rewrite ?Hlib.
  - exact Hnd.
  - intros x Hx. rewrite Hcur' in Hx. injection Hx as <-. now apply Hin.
  - now rewrite replaceById_ids.
  - intros x Hx. rewrite Hcur' in Hx. injection Hx as <-.
    apply replaceById_In. now apply Hin.
  - exact Hnd.
  - intros x Hx.
    destruct Hcur' as [Hsame | [Hnone | (e & He & Hsome)]].
    + apply Hin. now rewrite <- Hsame.
    + rewrite Hnone in Hx. discriminate Hx.
    + rewrite Hsome in Hx. now injection Hx as <-.
  - cbn [map]. constructor; [now apply Hfresh | exact Hnd].
  - intros x Hx. rewrite Hcur' in Hx. injection Hx as <-. now left.
Qed.

(** Over events that keep the record in hand, its history is the old one
    with one directive added per refinement that the service answered. *)
Lemma session_history (evs : list Event) :
  forall (w : World) (r : LibraryEntry.t),
    currentAnalysis (app w) = Some r ->
    forallb keepsRecord evs = true ->
    exists r' suffix,
      currentAnalysis (app (run evs w)) = Some r'
      /\ LibraryEntry.sourceText r' = LibraryEntry.sourceText r
      /\ LibraryEntry.refinementHistory r'
         = LibraryEntry.refinementHistory r ++ suffix
      /\ (LibraryEntry.sourceText r <> [] ->
          List.length suffix = List.length (filter answered_event evs)).
Proof.
  induction evs as [|ev evs IH]; intros w r Hcur Hkeep; cbn [run].
  - exists r, []. rewrite app_nil_r. repeat split; auto.
  - cbn [forallb] in Hkeep. apply andb_true_iff in Hkeep as [Hk Hkeep].
    destruct (step_on_record ev w r Hk Hcur) as (r1 & Hcur1 & _ & Hcase).
    destruct (IH _ r1 Hcur1 Hkeep) as (r' & suffix & Hcur' & Hsrc' & Hhist & Hlen).
    cbn [filter]. unfold answered_event at 1.
    destruct Hcase as [(-> & _ & Hnone)
                      | (_ & [(html & _ & Hne & Hans & ->) | (html & -> & ->)])].
    + exists r', suffix. repeat split; try assumption.
      intros Hne. rewrite (Hnone Hne). now apply Hlen.
    + exists r', (refineDirectives (app w) :: suffix).
      cbn [refined LibraryEntry.refinementHistory LibraryEntry.sourceText] in *.
      rewrite Hans. repeat split; try assumption.
      * rewrite Hhist, <- app_assoc. reflexivity.
      * intros _. cbn [List.length]. now rewrite Hlen.
    + exists r', suffix. cbn [answers_of].
      cbn [edited LibraryEntry.refinementHistory LibraryEntry.sourceText] in *.
      repeat split; assumption.
Qed.

(** The answer to a refinement arrives, in whatever state the component
    is by then: the record of the closure, with the directive of the
    closure added, goes in the place of the entries of its identifier in
    the library of the closure. *)
Lemma resumeGenerate_refined (snap : State) (env : GenEnv) (w : World)
    (r : LibraryEntry.t) (html : jsstring) :
  currentAnalysis snap = Some r ->
  answers env = Some html ->
  let r' := refined r (refineDirectives snap) html in
  let lib' := replaceById r r' (library snap) in
  let w' := exec (Async.resumeGenerate snap env true (LibraryEntry.sourceText r)) w in
  currentAnalysis (app w') = Some r'
  /\ library (app w') = lib'
  /\ storage w' = stored lib' (storage w).
Proof.
  intros Hcur Hans r' lib' w'. subst r' lib' w'.
  destruct (answers_reply _ _ Hans) as (c & rest & -> & Hreply).
  unfold Async.resumeGenerate, generated, stored, refined.
  rewrite Hcur, Hreply.
  open_world w. run_monad.
  case_storage storage0; repeat split; reflexivity.
Qed.

(** Claim C2 as stated fails: operations do remove directives.  In a
    session from the first visit, two lessons are analysed at the same
    clock reading and so share their identifier; Save Edits on the second
    then puts its record, whose history is empty, in the place of the
    first, whose history held a directive.  And of two refinements of one
    record submitted one after the other before either is answered, the
    one answered last puts its own directive after the old history: the
    directive that the first had added is gone, from the record in hand
    and from the library. *)
Lemma stored_directive_is_lost :
  (let w := run Cases.sameInstantSession (boot emptyStorage) in
   map LibraryEntry.refinementHistory (library (app w))
   = [[]; [lit "add a table"]]
   /\ map LibraryEntry.refinementHistory
        (library (app (exec (step (SaveEdits (Some (lit "<h1>Second lesson</h1>")))) w)))
      = [[]; []])
  /\ (let p := Async.run Cases.twoRefinements (Async.mkPage (viewing shabbat) []) in
      let p1 := Async.step (Async.Settle 0) p in
      let p2 := Async.step (Async.Settle 0) p1 in
      List.length (Async.inFlight p) = 2%nat
      /\ map LibraryEntry.refinementHistory (library (app (Async.world p1)))
         = [[lit "fix typo"; lit "add a table"]]
      /\ map LibraryEntry.refinementHistory (library (app (Async.world p2)))
         = [[lit "fix typo"; lit "shorter"]]
      /\ option_map LibraryEntry.refinementHistory
           (currentAnalysis (app (Async.world p2)))
         = Some [lit "fix typo"; lit "shorter"]).
Proof.
  split; [split | repeat split]; vm_compute; reflexivity.
Qed.

(** Claim C2, amended.  (1) A refinement that succeeds (the record in
    hand has source text and the service answers with a non-empty string)
    puts in hand a record [r'] that has the identifier and the source text
    of the record [r] of the handler's render, the HTML of the answer, and
    as [refinementHistory] that of [r] followed by the directive of that
    render; the new library is the library of that render in which,
    position by position, the entries with the identifier of [r] are [r']
    and the others are what they were; and the text of that library is
    what is stored, when the storage takes it.  This holds for the button
    handled in one go, and for an answer that arrives in any later state.
    (2) In a session in which every call settles before the next event, over
    events that keep the record in hand, its history at the end is its
    history at the start followed by as many directives as refinements were
    answered: nothing is removed, and the order is kept.  (3) An event
    handled in one go, in a state where identifiers are distinct and the
    record in hand is in the library, leaves the old library, position by
    position, behind at most one new record; each record keeps its
    identifier and its history, to which directives are only added at the
    end. *)
Theorem refinementHistory_append_only :
  (forall (snap : State) (w : World) (env : GenEnv) (r : LibraryEntry.t)
          (html : jsstring),
      currentAnalysis snap = Some r ->
      LibraryEntry.sourceText r <> [] ->
      answers env = Some html ->
      forall w',
        (snap = app w /\ w' = exec (step (SubmitRefine env)) w)
        \/ w' = exec (Async.resumeGenerate snap env true (LibraryEntry.sourceText r)) w ->
        exists r',
          currentAnalysis (app w') = Some r'
          /\ LibraryEntry.refinementHistory r'
             = LibraryEntry.refinementHistory r ++ [refineDirectives snap]
          /\ LibraryEntry.id r' = LibraryEntry.id r
          /\ LibraryEntry.sourceText r' = LibraryEntry.sourceText r
          /\ LibraryEntry.infographicHtml r' = html
          /\ Forall2 (fun old new =>
                        (LibraryEntry.id old = LibraryEntry.id r /\ new = r')
                        \/ (LibraryEntry.id old <> LibraryEntry.id r /\ new = old))
                (library snap) (library (app w'))
          /\ (accessible (storage w) = true ->
              fits (JSON.stringify (LibraryEntry.listToJs (library (app w'))))
                (quota (storage w)) = true ->
              item (storage w')
              = Some (JSON.stringify (LibraryEntry.listToJs (library (app w'))))))
  /\ (forall (evs : list Event) (w : World) (r : LibraryEntry.t),
         currentAnalysis (app w) = Some r ->
         LibraryEntry.sourceText r <> [] ->
         forallb keepsRecord evs = true ->
         let p := Async.run (Async.oneAtATime evs) (Async.mkPage w []) in
         exists r' suffix,
           currentAnalysis (app (Async.world p)) = Some r'
           /\ LibraryEntry.refinementHistory r'
              = LibraryEntry.refinementHistory r ++ suffix
           /\ List.length suffix = List.length (filter answered_event evs))
  /\ (forall (ev : Event) (w : World),
         wellFormed (app w) ->
         exists fresh kept,
           library (app (exec (step ev) w)) = fresh ++ kept
           /\ (List.length fresh <= 1)%nat
           /\ Forall2 historyGrows (library (app w)) kept).
Proof.
  split; [|split].
  - intros snap w env r html Hcur Hne Hans w' Hw'.
    assert (Hall : currentAnalysis (app w')
                   = Some (refined r (refineDirectives snap) html)
                   /\ library (app w')
                      = replaceById r (refined r (refineDirectives snap) html)
                          (library snap)
                   /\ storage w'
                      = stored (replaceById r (refined r (refineDirectives snap) html)
                                  (library snap)) (storage w)).
    { destruct Hw' as [[-> ->] | ->].
      - cbn [step]. rewrite exec_dispatch.
        destruct (handleGenerate_refined (app w) env w r html Hcur Hne Hans)
          as (Happ & _ & _ & _ & Hst).
        rewrite Happ, Hst. repeat split.
      - apply (resumeGenerate_refined snap env w r html Hcur Hans). }
    destruct Hall as (Hcur' & Hlib & Hst).
    exists (refined r (refineDirectives snap) html).
    split; [exact Hcur'|]. repeat (split; [reflexivity|]).
    split; [rewrite Hlib; apply replaceById_Forall2|].
    intros Hacc Hfits. rewrite Hst, Hlib in *. unfold stored.
    now rewrite Hacc, Hfits.
  - intros evs w r Hcur Hne Hkeep p. subst p.
    rewrite one_at_a_time_run. cbn [Async.world].
    destruct (session_history evs w r Hcur Hkeep)
      as (r' & suffix & Hcur' & _ & Hhist & Hlen).
    exists r', suffix. repeat split; auto.
  - intros ev w Hwf.
    destruct (keepsRecord ev) eqn:Hk.
    + destruct (currentAnalysis (app w)) as [r|] eqn:Hcur.
      * destruct (step_on_record ev w r Hk Hcur) as (r' & _ & _ & Hlib).
        exists [], (library (app (exec (step ev) w))).
        split; [reflexivity|]. split; [cbn; lia|].
        destruct Hlib as [[_ [-> _]] | [-> Hr']].
        -- apply Forall2_same, historyGrows_refl.
        -- assert (Hgrow : historyGrows r r').
           { destruct Hr' as [(html & _ & _ & _ & ->) | (html & _ & ->)].
             - split; [reflexivity|]. eexists. reflexivity.
             - apply (historyGrows_refl r). }
           assert (Hall : Forall (fun e => In e (library (app w))) (library (app w)))
             by (apply Forall_forall; auto).
           revert Hall. generalize (library (app w)) at 2 3 4 as lib.
           induction lib as [|e lib IH]; intros Hall; cbn [replaceById map];
             constructor.
           ++ inversion Hall; subst.
              destruct (streq (LibraryEntry.id e) (LibraryEntry.id r)) eqn:E.
              ** apply streq_eq in E.
                 rewrite (wellFormed_same_id (app w) r e Hwf Hcur) by assumption.
                 exact Hgrow.
              ** apply historyGrows_refl.
           ++ apply IH. now inversion Hall.
      * destruct (step_elsewhere ev w (or_intror Hcur)) as [[-> _] | (e & -> & _)].
        -- exists [], (library (app w)). split; [reflexivity|]. split; [cbn; lia|].
           apply Forall2_same, historyGrows_refl.
        -- exists [e], (library (app w)). split; [reflexivity|]. split; [cbn; lia|].
           apply Forall2_same, historyGrows_refl.
    + destruct (step_elsewhere ev w (or_introl Hk)) as [[-> _] | (e & -> & _)].
      * exists [], (library (app w)). split; [reflexivity|]. split; [cbn; lia|].
        apply Forall2_same, historyGrows_refl.
      * exists [e], (library (app w)). split; [reflexivity|]. split; [cbn; lia|].
        apply Forall2_same, historyGrows_refl.
Qed.

(** Claim C3.  When [handleGenerate] has text to analyse and the service
    resolves with a text that is [undefined], the empty string or not a
    string, no exception leaves the handler, the user is shown the message
    about an empty response, the library, the record in hand and the
    storage are what they were, and loading is off ([settled] also says
    that the refine dialog is closed and its directive cleared). *)
Theorem malformed_response_changes_nothing :
  forall (snap : State) (env : GenEnv) (isRefinement : bool)
         (textOverride : option jsstring) (w : World)
         (text : jsstring) (t : ResponseText),
    textToAnalyze snap isRefinement textOverride = Some text ->
    text <> [] ->
    reply env = Resolves t ->
    malformed t = true ->
    let result := handleGenerate snap env isRefinement textOverride w in
    let w' := snd result in
    fst result = Normal tt
    /\ alerts w' = alerts w ++ [emptyResponseMessage]
    /\ library (app w') = library (app w)
    /\ currentAnalysis (app w') = currentAnalysis (app w)
    /\ storage w' = storage w
    /\ isLoading (app w') = false
    /\ app w' = settled (app w) (quoteOf env).
Proof.
  intros snap env isRefinement textOverride w text t Ht Hne Hr Hbad result w'.
  subst w' result.
  unfold handleGenerate, generated, settled, quoteOf. rewrite Ht, Hr.
  destruct text as [|c0 text]; [contradiction|].
  open_world w.
  destruct t as [|[|c rest]|]; try discriminate Hbad;
    run_monad; repeat split; reflexivity.
Qed.

Lemma includes_In (l : list jsstring) (x : jsstring) :
  includes l x = true <-> In x l.
Proof.
  unfold includes. rewrite existsb_exists. split.
  - intros (y & Hin & E). apply streq_eq in E. now subst.
  - intros H. exists x. split; [assumption | apply streq_refl].
Qed.

Lemma handleGenerate_requests (snap : State) (env : GenEnv) (isRefinement : bool)
    (textOverride : option jsstring) (w : World) :
  exists more,
    requests (exec (handleGenerate snap env isRefinement textOverride) w)
    = requests w ++ more.
Proof.
  unfold exec, handleGenerate, generated.
  destruct (textToAnalyze snap isRefinement textOverride) as [[|c text]|];
    try (exists []; cbn; now rewrite app_nil_r).
  open_world w.
  destruct (reply env) as [[complaint|err]|[|[|h tml]|]];
    try (run_monad; eexists; reflexivity).
  destruct isRefinement; [destruct (currentAnalysis snap)|];
    run_monad;
    (case_storage storage0; eexists; reflexivity).
Qed.

Lemma until_comma_app (payload rest : jsstring) :
  ~ In 44%N payload ->
  until_comma payload = payload
  /\ until_comma (payload ++ 44%N :: rest) = payload.
Proof.
  induction payload as [|c payload IH]; intros Hno; cbn [until_comma List.app].
  - split; reflexivity.
  - destruct (c =? 44)%N eqn:E.
    + apply N.eqb_eq in E. subst c. exfalso. apply Hno. now left.
    + destruct IH as [IH1 IH2]; [intros H; apply Hno; now right|].
      now rewrite IH1, IH2.
Qed.

Lemma split_comma_1_app (header s : jsstring) :
  ~ In 44%N header ->
  split_comma_1 header = None
  /\ split_comma_1 (header ++ 44%N :: s) = Some (until_comma s).
Proof.
  induction header as [|c header IH]; intros Hno; cbn [split_comma_1 List.app].
  - split; reflexivity.
  - destruct (c =? 44)%N eqn:E.
    + apply N.eqb_eq in E. subst c. exfalso. apply Hno. now left.
    + apply IH. intros H. apply Hno. now right.
Qed.

(** Claim C4 as stated fails: a file of a supported type that the reader
    cannot read is not sent for transcription; no call is made at all. *)
Lemma unread_file_is_not_transcribed :
  In (type mp3) supportedTypes
  /\ requests (exec (handleFileSelect initialState Cases.unreadable (Some mp3))
                 (boot emptyStorage))
     = [].
Proof.
  split; [right; left; reflexivity | reflexivity].
Qed.

(** Claim C4, amended.  (1) For a file of a supported type, once the
    reader has delivered its content, [handleFileSelect] calls the
    transcription before anything else it may send: one message of role
    [user] to [gemini-2.5-pro] whose parts are the transcription prompt and
    the audio, with the MIME type of the file and, as data, what stands
    after the first comma of the data URL.  (2) For a data URL
    [header,payload] the data is [payload]; the call is made as soon as the
    read has settled, whatever else is in flight, and it is then the
    handler's call in flight, whether or not it ever settles.  (3) For a
    file of any other type [handleFileSelect] returns after one message
    box: no request, state and storage untouched.  (4) [handleGenerate]
    with no text, or with the empty text, returns after one message box in
    the same way.  (5) When the read of a file of a supported type fails,
    nothing is sent, the user is told, and loading is off again. *)
Theorem input_validation :
  forall (snap : State) (w : World),
    (forall (env : FileEnv) (file : File) (dataURL : jsstring),
        In (type file) supportedTypes ->
        read env = ReadOk dataURL ->
        exists more,
          requests (exec (handleFileSelect snap env (Some file)) w)
          = requests w
              ++ mkRequest (lit "gemini-2.5-pro") (lit "user")
                   [ TextPart (lit "Please transcribe the following audio recording into clean, coherent text. Remove any filler words, stutters, or false starts. The output should be a single block of text representing the spoken content.");
                     InlineDataPart (type file) (split_comma_1 dataURL) ]
                 :: more)
    /\ (forall (env : FileEnv) (file : File) (header payload : jsstring)
               (calls : list Async.Call),
           In (type file) supportedTypes ->
           ~ In 44%N header ->
           ~ In 44%N payload ->
           read env = ReadOk (header ++ [44%N] ++ payload) ->
           let p := Async.run [ Async.Do (SelectFile env file);
                                Async.Settle (List.length calls) ]
                      (Async.mkPage w calls) in
           requests (Async.world p)
           = requests w
               ++ [ mkRequest (lit "gemini-2.5-pro") (lit "user")
                      [ TextPart (lit "Please transcribe the following audio recording into clean, coherent text. Remove any filler words, stutters, or false starts. The output should be a single block of text representing the spoken content.");
                        InlineDataPart (type file) (Some payload) ] ]
           /\ Async.inFlight p = calls ++ [Async.TranscriptionCall (app w) env])
    /\ (forall (env : FileEnv) (file : File),
           ~ In (type file) supportedTypes ->
           handleFileSelect snap env (Some file) w
           = (Normal tt,
              alerted w (lit "Unsupported file type: " ++ type file
                           ++ lit ". Please upload an MP3 or M4A file.")))
    /\ (forall (env : GenEnv) (isRefinement : bool) (textOverride : option jsstring),
           textToAnalyze snap isRefinement textOverride = None
           \/ textToAnalyze snap isRefinement textOverride = Some [] ->
           handleGenerate snap env isRefinement textOverride w
           = (Normal tt, alerted w (lit "Please provide some text to analyze.")))
    /\ (forall (env : FileEnv) (file : File) (e : JsError),
           In (type file) supportedTypes ->
           read env = ReadError e ->
           let w' := exec (handleFileSelect snap env (Some file)) w in
           requests w' = requests w
           /\ alerts w'
              = alerts w
                  ++ [lit "An error occurred during transcription or analysis: "
                        ++ message_or e (lit "Please try again.")]
           /\ isLoading (app w') = false
           /\ library (app w') = library (app w)
           /\ currentAnalysis (app w') = currentAnalysis (app w)
           /\ storage w' = storage w).
Proof.
  intros snap w. split; [|split; [|split; [|split]]].
  - intros env file dataURL Hin Hread. apply includes_In in Hin.
    change (mkRequest (lit "gemini-2.5-pro") (lit "user")
              [TextPart (lit "Please transcribe the following audio recording into clean, coherent text. Remove any filler words, stutters, or false starts. The output should be a single block of text representing the spoken content.");
               InlineDataPart (type file) (split_comma_1 dataURL)])
      with (transcriptionRequest file (split_comma_1 dataURL)).
    destruct (transcription_reply env) as [[complaint|e]|t] eqn:Hreply.
    + exists []. unfold handleFileSelect, fileToBase64.
      rewrite Hin, Hread, Hreply. cbn [negb].
      open_world w. run_monad. reflexivity.
    + exists []. unfold handleFileSelect, fileToBase64.
      rewrite Hin, Hread, Hreply. cbn [negb].
      open_world w. run_monad. reflexivity.
    + unfold exec.
      rewrite (handleFileSelect_read snap env file w dataURL t) by assumption.
      destruct (handleGenerate_requests snap (generation env) false t
                  (transcribed w file dataURL t)) as [more Hmore].
      unfold exec, try_catch in *.
      destruct (handleGenerate snap (generation env) false t
                  (transcribed w file dataURL t)) as [[[]|err] wx];
        cbn [snd] in *.
      * exists more. rewrite Hmore. cbn [transcribed requests].
        now rewrite <- app_assoc.
      * exists more.
        assert (Hreq : requests (snd (transcriptionFailed err wx)) = requests wx).
        { open_world wx. destruct err as [complaint|e]; run_monad; reflexivity. }
        rewrite Hreq, Hmore. cbn [transcribed requests].
        now rewrite <- app_assoc.
  - intros env file header payload calls Hin Hh Hp Hread p. subst p.
    apply includes_In in Hin.
    destruct (split_comma_1_app header payload Hh) as [_ Hsplit].
    destruct (until_comma_app payload [] Hp) as [Huntil _].
    change (header ++ [44%N] ++ payload) with (header ++ 44%N :: payload) in Hread.
    assert (Hpage :
              Async.run [Async.Do (SelectFile env file);
                         Async.Settle (List.length calls)] (Async.mkPage w calls)
              = Async.mkPage
                  (mkWorld (app (reading w)) (storage w) (alerts w) (console w)
                     (requests w ++ [transcriptionRequest file (Some payload)])
                     (downloads w))
                  (calls ++ [Async.TranscriptionCall (app w) env])).
    { cbn [Async.run].
      assert (Hdo : Async.step (Async.Do (SelectFile env file)) (Async.mkPage w calls)
                    = Async.mkPage (reading w)
                        (calls ++ [Async.FileRead (app w) env file])).
      { cbn [Async.step Async.begin Async.world Async.inFlight].
        rewrite after_dispatch.
        apply after_normal, startFileSelect_supported, Hin. }
      rewrite Hdo, step_settle_last. cbn [Async.resume].
      rewrite (after_normal _ _ _ _ _
                 (resumeFileRead_read (app w) env file (reading w) _ Hread)).
      rewrite Hsplit, Huntil. reflexivity. }
    rewrite Hpage. cbn [Async.world Async.inFlight requests]. split; reflexivity.
  - intros env file Hnot. apply handleFileSelect_rejected.
    destruct (includes supportedTypes (type file)) eqn:E; [|reflexivity].
    apply includes_In in E. contradiction.
  - intros env isRefinement textOverride Hempty.
    now apply handleGenerate_no_text.
  - intros env file e Hin Hread w'. subst w'. apply includes_In in Hin.
    unfold handleFileSelect, fileToBase64. rewrite Hin, Hread. cbn [negb].
    open_world w. run_monad. repeat split; reflexivity.
Qed.

Lemma createdBy_sameForm (s1 s2 : State) (i : jsstring * GenEnv) :
  sameForm s1 s2 -> createdBy s1 i = createdBy s2 i.
Proof.
  intros (H1 & H2). unfold createdBy. now rewrite H1, H2.
Qed.

Lemma run_app (evs1 evs2 : list Event) (w : World) :
  run (evs1 ++ evs2) w = run evs2 (run evs1 w).
Proof. revert w. induction evs1 as [|ev evs1 IH]; intros w; cbn; auto. Qed.

Lemma generate_once (w : World) (i : jsstring * GenEnv) :
  answered i ->
  let w' := run [NewAnalysis; TypeSourceText (fst i); Generate (snd i)] w in
  library (app w') = createdBy (app w) i :: library (app w)
  /\ currentAnalysis (app w') = Some (createdBy (app w) i)
  /\ sameForm (app w') (app w).
Proof.
  intros [Htext Hans] w'. subst w'. destruct i as [text env]. cbn [fst snd] in *.
  destruct (answers env) as [html|] eqn:Ha; [clear Hans | contradiction].
  cbn [run step]. rewrite exec_dispatch.
  set (w1 := exec (setSourceText (Some text)) (exec startNewAnalysis w)).
  assert (Hsnap : textToAnalyze (app w1) false None = Some text)
    by (subst w1; open_world w; reflexivity).
  destruct (handleGenerate_created (app w1) env false None w1 text html
              Hsnap Htext Ha (or_introl eq_refl)) as (Happ & _).
  rewrite Happ. unfold createdBy, created. cbn [fst snd]. rewrite Ha.
  subst w1. open_world w. repeat split.
Qed.

Lemma generateEach_library (inputs : list (jsstring * GenEnv)) :
  forall (w : World) (s0 : State),
    sameForm (app w) s0 ->
    Forall answered inputs ->
    let w' := run (generateEach inputs) w in
    library (app w') = rev (map (createdBy s0) inputs) ++ library (app w)
    /\ sameForm (app w') s0
    /\ (forall earlier latest, inputs = earlier ++ [latest] ->
        currentAnalysis (app w') = Some (createdBy s0 latest)).
Proof.
  induction inputs as [|i inputs IH]; intros w s0 Hform Hall w'; subst w'.
  - cbn. repeat split; try apply Hform.
    intros [|? ?] latest H; discriminate H.
  - inversion Hall as [|? ? Hi Hrest]; subst.
    change (generateEach (i :: inputs))
      with ([NewAnalysis; TypeSourceText (fst i); Generate (snd i)]
              ++ generateEach inputs).
    rewrite run_app.
    destruct (generate_once w i Hi) as (Hlib & Hcur & Hf).
    set (w1 := run [NewAnalysis; TypeSourceText (fst i); Generate (snd i)] w) in *.
    assert (Hform1 : sameForm (app w1) s0).
    { destruct Hf as (A & B), Hform as (A' & B'). split; congruence. }
    destruct (IH w1 s0 Hform1 Hrest) as (Hlib' & Hf' & Hlast).
    split; [|split].
    + rewrite Hlib', Hlib. cbn [map rev]. rewrite <- app_assoc. cbn [app].
      now rewrite (createdBy_sameForm (app w) s0).
    + assumption.
    + intros earlier latest E.
      destruct inputs as [|i' inputs'].
      * destruct earlier as [|? [|? ?]]; try discriminate E.
        injection E as ->. change (generateEach []) with (@nil Event). cbn [run].
        rewrite Hcur. now rewrite (createdBy_sameForm (app w) s0).
      * destruct earlier as [|e0 earlier]; [discriminate E|].
        injection E as -> E. apply (Hlast earlier latest E).
Qed.

(** Claim C5.  (1) Every run of [handleGenerate] for a new analysis that
    succeeds, from the Generate button or after a transcription, puts the
    record it creates in front of the library of its render and in hand.
    (2) So does an upload whose transcription and generation succeed.
    (3) After generations that all succeed, run one after the other, the
    library is the created records, latest first, in front of the library
    as it was; the first record of the library is the one created last,
    and it is the record in hand. *)
Theorem newest_record_first :
  (forall (snap : State) (env : GenEnv) (textOverride : option jsstring)
          (w : World) (text html : jsstring),
      textToAnalyze snap false textOverride = Some text ->
      text <> [] ->
      answers env = Some html ->
      let w' := exec (handleGenerate snap env false textOverride) w in
      library (app w') = created snap text env html :: library snap
      /\ currentAnalysis (app w') = Some (created snap text env html))
  /\ (forall (w : World) (env : FileEnv) (file : File)
             (dataURL text html : jsstring),
         In (type file) supportedTypes ->
         read env = ReadOk dataURL ->
         transcription_reply env = Resolves (Some text) ->
         text <> [] ->
         answers (generation env) = Some html ->
         let w' := exec (step (SelectFile env file)) w in
         library (app w')
         = created (app w) text (generation env) html :: library (app w)
         /\ currentAnalysis (app w')
            = Some (created (app w) text (generation env) html))
  /\ (forall (inputs : list (jsstring * GenEnv)) (w : World),
         Forall answered inputs ->
         let w' := run (generateEach inputs) w in
         library (app w') = rev (map (createdBy (app w)) inputs) ++ library (app w)
         /\ (forall earlier latest, inputs = earlier ++ [latest] ->
             hd_error (library (app w')) = Some (createdBy (app w) latest)
             /\ currentAnalysis (app w') = Some (createdBy (app w) latest))).
Proof.
  split; [|split].
  - intros snap env textOverride w text html Htext Hne Hans w'. subst w'.
    destruct (handleGenerate_created snap env false textOverride w text html
                Htext Hne Hans (or_introl eq_refl)) as (Happ & _).
    rewrite Happ. split; reflexivity.
  - intros w env file dataURL text html Hin Hread Hreply Hne Hans w'. subst w'.
    apply includes_In in Hin.
    cbn [step]. rewrite exec_dispatch. unfold exec.
    rewrite (handleFileSelect_transcribed (app w) env file w dataURL (Some text));
      try assumption.
    2: { rewrite handleGenerate_completion.
         destruct (answers_reply _ _ Hans) as (c & rest & _ & ->).
         now destruct (textToAnalyze (app w) false (Some text)) as [[|]|]. }
    destruct (handleGenerate_created (app w) (generation env) false (Some text)
                (transcribed w file dataURL (Some text)) text html
                eq_refl Hne Hans (or_introl eq_refl)) as (Happ & _).
    unfold exec in Happ. rewrite Happ. split; reflexivity.
  - intros inputs w Hall w'. subst w'.
    destruct (generateEach_library inputs w (app w)) as (Hlib & _ & Hlast);
      [repeat split | assumption |].
    split; [assumption|].
    intros earlier latest E. split; [|now apply (Hlast earlier latest)].
    rewrite Hlib, E, map_app, rev_app_distr. reflexivity.
Qed.

Ltac run_mount := run_monad; cbn [accessible item quota]; run_monad.

(** Claim C6.  For every list [l] of records: (1) [JSON.parse] of
    [JSON.stringify l] is [l] again, field by field; (2) in a browser whose
    storage takes the text, mounting the component after [saveLibrary l]
    loads a library equal to [l]; (3) when the storage does not take the
    text, [saveLibrary l] still sets the library of the component to [l],
    writes one line to the console and leaves the storage as it was. *)
Theorem save_then_load_round_trip :
  forall (l : list LibraryEntry.t),
    (JSON.parse (JSON.stringify (LibraryEntry.listToJs l))
     = Some (LibraryEntry.listToJs l)
     /\ LibraryEntry.listOfJs (LibraryEntry.listToJs l) = Some l)
    /\ (forall (w : World),
           accessible (storage w) = true ->
           fits (JSON.stringify (LibraryEntry.listToJs l)) (quota (storage w)) = true ->
           let saved := exec (saveLibrary l) w in
           library (app saved) = l
           /\ exists w2,
                mount (storage saved) = (Normal LoadDone, w2)
                /\ library (app w2) = l)
    /\ (forall (w : World),
           accessible (storage w) = false
           \/ fits (JSON.stringify (LibraryEntry.listToJs l)) (quota (storage w))
              = false ->
           let saved := exec (saveLibrary l) w in
           library (app saved) = l
           /\ storage saved = storage w
           /\ console saved
              = console w ++ [lit "Failed to save library to localStorage"]).
Proof.
  intros l.
  pose proof (JSONFacts.parse_stringify _ (EntryFacts.clean_listToJs l)) as Hparse.
  pose proof (EntryFacts.listOfJs_listToJs l) as Hdec.
  split; [split; assumption|]. split.
  - intros w Hacc Hfits saved. subst saved.
    destruct (EntryFacts.stringify_list_nonempty l) as (c & text & Htext).
    rewrite Htext in *.
    assert (Hsaved : exec (saveLibrary l) w
                     = mkWorld
                         (mkState (view (app w)) (isLoading (app w))
                            (loadingQuote (app w)) (currentAnalysis (app w))
                            (sourceText (app w)) (analysisLens (app w))
                            (customDirectives (app w)) (visualTheme (app w)) l
                            (isSidebarOpen (app w)) (isRefineModalOpen (app w))
                            (refineDirectives (app w)))
                         (mkStorage true (quota (storage w)) (Some (c :: text)))
                         (alerts w) (console w) (requests w) (downloads w)).
    { unfold exec, saveLibrary, localStorage_setItem. rewrite Htext.
      open_world w. cbn [storage] in Hacc, Hfits. run_monad.
      rewrite Hacc, Hfits. reflexivity. }
    rewrite Hsaved. cbn [app library storage].
    split; [reflexivity|].
    unfold mount, loadLibraryEffect, boot. run_mount.
    rewrite Hparse, Hdec. run_mount.
    eexists. split; reflexivity.
  - intros w Hfail saved. subst saved.
    unfold saveLibrary, localStorage_setItem.
    open_world w. cbn [storage] in Hfail. run_monad.
    destruct (accessible storage0); [|repeat split].
    destruct Hfail as [Hacc | Hfits]; [discriminate Hacc|].
    rewrite Hfits. repeat split.
Qed.

(** Claim C7.  The load at mount never lets an exception out.  When the
    item is absent, or holds text that [JSON.parse] rejects, the component
    starts in its initial state, library empty, nothing shown to the user
    and the storage as it was; the failure, if there is one (text that does
    not parse, or storage that cannot be read), is one line in the
    console. *)
Theorem unreadable_library_loads_empty :
  forall (st : Storage),
    (exists r w', mount st = (Normal r, w'))
    /\ (item st = None
        \/ (exists text, item st = Some text /\ JSON.parse text = None) ->
        exists w',
          mount st = (Normal LoadDone, w')
          /\ library (app w') = []
          /\ app w' = initialState
          /\ storage w' = st
          /\ alerts w' = []
          /\ console w'
             = if accessible st then
                 match item st with
                 | Some (_ :: _) => [lit "Failed to load library from localStorage"]
                 | _ => []
                 end
               else [lit "Failed to load library from localStorage"]).
Proof.
  intros [acc q it]. split.
  - unfold mount, loadLibraryEffect, boot.
    destruct acc; [|run_mount; eexists; eexists; reflexivity].
    destruct it as [[|c text]|]; try (run_mount; eexists; eexists; reflexivity).
    run_mount.
    destruct (JSON.parse (c :: text)) as [v|];
      [|run_mount; eexists; eexists; reflexivity].
    destruct (LibraryEntry.listOfJs v); run_mount; eexists; eexists; reflexivity.
  - cbn [item accessible]. intros Hbad.
    unfold mount, loadLibraryEffect, boot.
    destruct acc;
      [|run_mount; eexists; repeat split; reflexivity].
    destruct Hbad as [-> | (text & -> & Hparse)].
    + run_mount. eexists. repeat split.
    + destruct text as [|c text].
      * run_mount. eexists. repeat split.
      * run_mount. rewrite Hparse. run_mount.
        eexists. repeat split.
Qed.

(** Claim C8, at the inputs where the code departs from it.  A response
    whose only heading is written over two lines has that heading as the
    content of its first [<h1>], yet gets the fallback title, and so does
    the record that Generate creates from it; when a one-line heading
    follows, the title is the content of that second heading.  (On
    responses without line terminators the code and the claim agree:
    [TitleFacts.extractTitle_single_line].) *)
Theorem title_of_heading_with_line_break :
  Spec.first_h1_content two_line_heading
  = Some (lit "Line one" ++ nl ++ lit "Line two")
  /\ extractTitle two_line_heading = lit "Untitled Analysis"
  /\ option_map LibraryEntry.title
       (currentAnalysis
          (app (exec (step (Generate (answering two_line_heading 1793683200123)))
                  (pasted (lit "Sample lesson text")))))
     = Some (lit "Untitled Analysis")
  /\ Spec.first_h1_content two_headings = Some (lit "Part" ++ nl ++ lit "One")
  /\ extractTitle two_headings = lit "Two".
Proof. repeat split; vm_compute; reflexivity. Qed.

(** Claim C9 as stated fails, in each of its two parts.  The name offered
    for the record titled [Q&A: a/b?] is [Q&A:_a/b?.html], which keeps [&],
    [:], [/] and [?].  The content offered for a record whose HTML ends in
    a surrogate without its partner does not read back as that HTML: the
    blob holds U+FFFD in the place of the surrogate. *)
Lemma download_name_not_sanitized :
  ~ (forall (w : World) (r : LibraryEntry.t),
        currentAnalysis (app w) = Some r ->
        exists d,
          downloads (exec (step DownloadHtml) w) = downloads w ++ [d]
          /\ Spec.sanitized_name (download_name d))
  /\ ~ (forall (w : World) (r : LibraryEntry.t),
           currentAnalysis (app w) = Some r ->
           exists d,
             downloads (exec (step DownloadHtml) w) = downloads w ++ [d]
             /\ Blob.text (blob_content d) = Some (LibraryEntry.infographicHtml r)).
Proof.
  split.
  - intros H.
    destruct (H (viewing questions) questions eq_refl)
      as (d & Hd & stem & Hname & Hsafe).
    vm_compute in Hd. injection Hd as <-.
    cbn [download_name] in Hname.
    change [81; 38; 65; 58; 95; 97; 47; 98; 63; 46; 104; 116; 109; 108]%N
      with ([81; 38; 65; 58; 95; 97; 47; 98; 63]%N ++ lit ".html") in Hname.
    apply app_inv_tail in Hname. subst stem. discriminate Hsafe.
  - intros H.
    destruct (H (viewing Cases.halfEmoji) Cases.halfEmoji eq_refl)
      as (d & Hd & Htext).
    vm_compute in Hd. injection Hd as <-.
    vm_compute in Htext. discriminate Htext.
Qed.

Lemma replace_spaces_nth (s : jsstring) (i : nat) :
  nth_error (RegExp.replace_spaces s) i
  = option_map (fun c => if (c =? 32)%N then 95%N else c) (nth_error s i).
Proof. unfold RegExp.replace_spaces. apply nth_error_map. Qed.

Lemma replace_spaces_no_space (s : jsstring) : ~ In 32%N (RegExp.replace_spaces s).
Proof.
  unfold RegExp.replace_spaces. intros H. apply in_map_iff in H as (c & Hc & _).
  destruct (c =? 32)%N eqn:E; [discriminate Hc|].
  apply N.eqb_neq in E. congruence.
Qed.

Lemma handleDownloadHtml_offers (w : World) (r : LibraryEntry.t) :
  currentAnalysis (app w) = Some r ->
  exec (step DownloadHtml) w
  = mkWorld (app w) (storage w) (alerts w) (console w) (requests w)
      (downloads w
         ++ [mkDownload (RegExp.replace_spaces (LibraryEntry.title r) ++ lit ".html")
               (lit "text/html")
               (flat_map Blob.utf8
                  (Blob.scalarValues (LibraryEntry.infographicHtml r)))]).
Proof.
  intros Hcur. cbn [step]. rewrite exec_dispatch.
  unfold handleDownloadHtml, downloadName. rewrite Hcur.
  open_world w. reflexivity.
Qed.

(** Claim C9, amended.  The download offers a blob of type [text/html]
    that holds the [infographicHtml] of the record in hand as UTF-8, with
    U+FFFD in the place of every surrogate that stands without its partner:
    read back, the content is exactly the HTML when the HTML is well
    formed, and only then.  The name that the anchor suggests to the
    browser (its [download] attribute; the name of the file saved is the
    browser's choice) is the title in which every space is replaced by [_]
    and every other character is kept, followed by [.html].  Nothing else
    changes. *)
Theorem download_replaces_spaces :
  forall (w : World) (r : LibraryEntry.t),
    currentAnalysis (app w) = Some r ->
    Blob.codeUnits (LibraryEntry.infographicHtml r) ->
    let w' := exec (step DownloadHtml) w in
    (exists d,
        downloads w' = downloads w ++ [d]
        /\ blob_type d = lit "text/html"
        /\ blob_content d
           = flat_map Blob.utf8 (Blob.scalarValues (LibraryEntry.infographicHtml r))
        /\ Blob.text (blob_content d)
           = Some (flat_map Blob.utf16
                     (Blob.scalarValues (LibraryEntry.infographicHtml r)))
        /\ (Blob.text (blob_content d) = Some (LibraryEntry.infographicHtml r)
            <-> Blob.isWellFormed (LibraryEntry.infographicHtml r) = true)
        /\ download_name d
           = RegExp.replace_spaces (LibraryEntry.title r) ++ lit ".html")
    /\ app w' = app w
    /\ storage w' = storage w
    /\ alerts w' = alerts w
    /\ requests w' = requests w
    /\ List.length (RegExp.replace_spaces (LibraryEntry.title r))
       = List.length (LibraryEntry.title r)
    /\ (forall i,
           nth_error (RegExp.replace_spaces (LibraryEntry.title r)) i
           = option_map (fun c => if (c =? 32)%N then 95%N else c)
               (nth_error (LibraryEntry.title r) i))
    /\ ~ In 32%N (RegExp.replace_spaces (LibraryEntry.title r)).
Proof.
  intros w r Hcur Hunits w'. subst w'.
  rewrite (handleDownloadHtml_offers w r Hcur).
  cbn [downloads App.app storage alerts requests].
  split.
  { eexists. split; [reflexivity|]. cbn [blob_type blob_content download_name].
    split; [reflexivity|]. split; [reflexivity|].
    change (flat_map Blob.utf8 (Blob.scalarValues (LibraryEntry.infographicHtml r)))
      with (Blob.bytes (LibraryEntry.infographicHtml r)).
    split; [now apply BlobFacts.text_bytes|].
    split; [now apply BlobFacts.text_bytes_back | reflexivity]. }
  repeat (split; [reflexivity|]).
  split; [apply length_map|].
  split; [intros i; apply replace_spaces_nth | apply replace_spaces_no_space].
Qed.

(** Claim C10.  (1) A generation that succeeds creates a record whose
    [id] is the ISO text of one clock reading and whose [createdAt] is
    the ISO text of another.  (2) Two successful generations whose first
    clock readings coincide leave two records with the same [id] at the
    head of the library, which then has a repeated identifier.
    (3) Refinement and manual edit replace every library entry whose [id]
    is that of the record in hand, and no other.  (4) Such a library
    arises from the initial state, and one refinement on it replaces two
    entries. *)
Theorem identifiers_are_clock_readings :
  (forall (w : World) (text : jsstring) (env : GenEnv) (html : jsstring),
      sourceText (app w) = Some text ->
      text <> [] ->
      answers env = Some html ->
      let w' := exec (step (Generate env)) w in
      exists e,
        currentAnalysis (app w') = Some e
        /\ library (app w') = e :: library (app w)
        /\ LibraryEntry.id e = JsDate.toISOString (now_id env)
        /\ LibraryEntry.createdAt e = JsDate.toISOString (now_createdAt env))
  /\ (forall (w : World) (i1 i2 : jsstring * GenEnv),
         answered i1 -> answered i2 ->
         now_id (snd i1) = now_id (snd i2) ->
         let w' := run (generateEach [i1; i2]) w in
         exists e1 e2,
           library (app w') = e2 :: e1 :: library (app w)
           /\ LibraryEntry.id e2 = LibraryEntry.id e1
           /\ ~ NoDup (map LibraryEntry.id (library (app w'))))
  /\ (forall (w : World) (r : LibraryEntry.t) (ev : Event) (r' : LibraryEntry.t),
         currentAnalysis (app w) = Some r ->
         (exists env html,
             ev = SubmitRefine env /\ LibraryEntry.sourceText r <> []
             /\ answers env = Some html
             /\ r' = refined r (refineDirectives (app w)) html)
         \/ (exists html, ev = SaveEdits (Some html) /\ r' = edited r html) ->
         Forall2 (fun old new =>
                    (LibraryEntry.id old = LibraryEntry.id r /\ new = r')
                    \/ (LibraryEntry.id old <> LibraryEntry.id r /\ new = old))
           (library (app w)) (library (app (exec (step ev) w))))
  /\ (exists (w : World) (e1 e2 r' : LibraryEntry.t),
         w = run (generateEach sameInstant) (boot emptyStorage)
         /\ library (app w) = [e2; e1]
         /\ LibraryEntry.sourceText e1 <> LibraryEntry.sourceText e2
         /\ library (app (run [OpenRefine;
                               TypeRefineDirectives (lit "add a table");
                               SubmitRefine (answering tableHtml 1793683260000)] w))
            = [r'; r']).
Proof.
  split; [|split; [|split]].
  - intros w text env html Hsrc Hne Hans w'. subst w'.
    cbn [step]. rewrite exec_dispatch.
    destruct (handleGenerate_created (app w) env false None w text html
                Hsrc Hne Hans (or_introl eq_refl)) as (Happ & _).
    rewrite Happ. cbn [currentAnalysis library].
    eexists. repeat split.
  - intros w i1 i2 H1 H2 Hsame w'. subst w'.
    destruct (generateEach_library [i1; i2] w (app w)) as (Hlib & _);
      [repeat split | constructor; [assumption | constructor; [assumption | constructor]]|].
    cbn [map rev app] in Hlib.
    exists (createdBy (app w) i1), (createdBy (app w) i2).
    split; [exact Hlib|].
    assert (Hid : LibraryEntry.id (createdBy (app w) i2)
                  = LibraryEntry.id (createdBy (app w) i1))
      by (unfold createdBy; cbn [LibraryEntry.id]; now rewrite Hsame).
    split; [exact Hid|].
    rewrite Hlib. cbn [map]. intros Hnd.
    inversion Hnd as [|? ? Hnot _]; subst. apply Hnot. left. now symmetry.
  - intros w r ev r' Hcur Hev.
    assert (Hlib : library (app (exec (step ev) w))
                   = replaceById r r' (library (app w))).
    { destruct Hev as [(env & html & -> & Hne & Hans & ->) | (html & -> & ->)];
        cbn [step]; rewrite exec_dispatch.
      - destruct (handleGenerate_refined (app w) env w r html Hcur Hne Hans)
          as (Happ & _).
        now rewrite Happ.
      - destruct (handleSaveChanges_edited (app w) w r html Hcur) as (Happ & _).
        now rewrite Happ. }
    rewrite Hlib. apply replaceById_Forall2.
  - eexists. eexists. eexists. eexists.
    split; [reflexivity|]. split; [vm_compute; reflexivity|].
    split; [vm_compute; discriminate|]. vm_compute. reflexivity.
Qed.

Lemma refinement_uses_original_sourceText_witness :
  currentAnalysis (app (viewing shabbat)) = Some shabbat
  /\ forallb keepsRecord editAndRefine = true
  /\ wellFormed (app (viewing shabbat))
  /\ (let w' := run editAndRefine (viewing shabbat) in
      (exists r', currentAnalysis (app w') = Some r'
                  /\ LibraryEntry.id r' = LibraryEntry.id shabbat
                  /\ LibraryEntry.sourceText r' = lit "Sample lesson text")
      /\ (exists sent,
            requests w' = requests (viewing shabbat) ++ sent
            /\ Forall (carries (lit "Sample lesson text")) sent
            /\ (LibraryEntry.sourceText shabbat <> [] ->
                List.length sent = List.length (filter isSubmitRefine editAndRefine)))
      /\ Forall2 (sourceKept shabbat) (library (app (viewing shabbat)))
           (library (app w'))
      /\ Forall2 (fun old new =>
                    LibraryEntry.id new = LibraryEntry.id old
                    /\ LibraryEntry.sourceText new = LibraryEntry.sourceText old)
           (library (app (viewing shabbat))) (library (app w'))).
Proof.
  assert (Hwf : wellFormed (app (viewing shabbat))).
  { split.
    - vm_compute. constructor; [intros [] | constructor].
    - intros r Hr. vm_compute in Hr. injection Hr as <-. left. reflexivity. }
  split; [reflexivity|]. split; [reflexivity|]. split; [exact Hwf|].
  destruct (refinement_uses_original_sourceText editAndRefine (viewing shabbat)
              shabbat eq_refl eq_refl) as (H1 & H2 & H3 & H4).
  split; [exact H1|]. split; [exact H2|]. split; [exact H3 | exact (H4 Hwf)].
Defined.

Lemma refinementHistory_append_only_witness :
  currentAnalysis (app refining) = Some shabbat
  /\ LibraryEntry.sourceText shabbat <> []
  /\ answers (answering tableHtml 1793683260000) = Some tableHtml
  /\ currentAnalysis (app (viewing shabbat)) = Some shabbat
  /\ forallb keepsRecord editAndRefine = true
  /\ wellFormed (app refining)
  /\ (exists r',
         currentAnalysis
           (app (exec (step (SubmitRefine (answering tableHtml 1793683260000)))
                   refining)) = Some r'
         /\ LibraryEntry.refinementHistory r' = [lit "fix typo"; lit "add a table"]
         /\ LibraryEntry.sourceText r' = lit "Sample lesson text"
         /\ LibraryEntry.infographicHtml r' = tableHtml
         /\ library (app (exec (step (SubmitRefine (answering tableHtml 1793683260000)))
                            refining))
            = [r']
         /\ item (storage (exec (step (SubmitRefine (answering tableHtml 1793683260000)))
                             refining))
            = Some (JSON.stringify (LibraryEntry.listToJs [r'])))
  /\ (exists r' suffix,
         currentAnalysis
           (app (Async.world (Async.run (Async.oneAtATime editAndRefine)
                                (Async.mkPage (viewing shabbat) [])))) = Some r'
         /\ LibraryEntry.refinementHistory r' = [lit "fix typo"] ++ suffix
         /\ List.length suffix = 1%nat)
  /\ (exists fresh kept,
         library (app (exec (step (SubmitRefine (answering tableHtml 1793683260000)))
                         refining)) = fresh ++ kept
         /\ (List.length fresh <= 1)%nat
         /\ Forall2 historyGrows (library (app refining)) kept).
Proof.
  assert (Hne : LibraryEntry.sourceText shabbat <> []) by discriminate.
  assert (Hwf : wellFormed (app refining)).
  { split.
    - vm_compute. constructor; [intros [] | constructor].
    - intros r Hr. vm_compute in Hr. injection Hr as <-. left. reflexivity. }
  destruct refinementHistory_append_only as (Hone & Hmany & Hany).
  split; [reflexivity|]. split; [exact Hne|]. split; [reflexivity|].
  split; [reflexivity|]. split; [reflexivity|]. split; [exact Hwf|].
  split; [|split].
  - destruct (Hone (app refining) refining (answering tableHtml 1793683260000)
                shabbat tableHtml eq_refl Hne eq_refl _
                (or_introl (conj eq_refl eq_refl)))
      as (r' & Hcur & Hhist & _ & Hsrc & Hhtml & Hlib & Hitem).
    exists r'. split; [exact Hcur|]. split; [exact Hhist|].
    split; [exact Hsrc|]. split; [exact Hhtml|].
    assert (Hlib' : library (app (exec (step (SubmitRefine (answering tableHtml 1793683260000)))
                                    refining)) = [r']).
    { change (library (app refining)) with [shabbat] in Hlib.
      destruct (Forall2_single _ _ _ Hlib) as (b & Hb & [[_ Hnew] | [Hid _]]).
      - now rewrite <- Hnew.
      - exfalso. apply Hid. reflexivity. }
    split; [exact Hlib'|].
    rewrite Hlib' in Hitem. apply Hitem; reflexivity.
  - exact (Hmany editAndRefine (viewing shabbat) shabbat eq_refl Hne eq_refl).
  - exact (Hany (SubmitRefine (answering tableHtml 1793683260000)) refining Hwf).
Defined.

Lemma malformed_response_changes_nothing_witness :
  textToAnalyze (app (pasted (lit "Sample lesson text"))) false None
  = Some (lit "Sample lesson text")
  /\ lit "Sample lesson text" <> []
  /\ reply blocked = Resolves TextUndefined
  /\ malformed TextUndefined = true
  /\ (let result :=
        handleGenerate (app (pasted (lit "Sample lesson text"))) blocked false None
          (pasted (lit "Sample lesson text")) in
      fst result = Normal tt
      /\ alerts (snd result) = [emptyResponseMessage]
      /\ library (app (snd result)) = []
      /\ currentAnalysis (app (snd result)) = None
      /\ storage (snd result) = emptyStorage
      /\ isLoading (app (snd result)) = false).
Proof.
  split; [reflexivity|]. split; [discriminate|]. split; [reflexivity|].
  split; [reflexivity|].
  destruct (malformed_response_changes_nothing
              (app (pasted (lit "Sample lesson text"))) blocked false None
              (pasted (lit "Sample lesson text")) (lit "Sample lesson text")
              TextUndefined)
    as (H1 & H2 & H3 & H4 & H5 & H6 & _);
    [reflexivity | discriminate | reflexivity | reflexivity |].
  repeat split; assumption.
Defined.

Lemma input_validation_witness :
  In (type mp3) supportedTypes
  /\ read upload = ReadOk (lit "data:audio/mp3;base64" ++ [44%N] ++ lit "SUQz")
  /\ ~ In (type plainText) supportedTypes
  /\ textToAnalyze initialState false None = Some []
  /\ read Cases.unreadable = ReadError (mkError None)
  /\ (exists more,
         requests (exec (handleFileSelect initialState upload (Some mp3))
                     (boot emptyStorage))
         = mkRequest (lit "gemini-2.5-pro") (lit "user")
             [ TextPart (lit "Please transcribe the following audio recording into clean, coherent text. Remove any filler words, stutters, or false starts. The output should be a single block of text representing the spoken content.");
               InlineDataPart (lit "audio/mp3") (Some (lit "SUQz")) ]
           :: more)
  /\ (let p := Async.run [Async.Do (SelectFile upload mp3); Async.Settle 0]
                 (Async.mkPage (boot emptyStorage) []) in
      requests (Async.world p)
      = [ mkRequest (lit "gemini-2.5-pro") (lit "user")
            [ TextPart (lit "Please transcribe the following audio recording into clean, coherent text. Remove any filler words, stutters, or false starts. The output should be a single block of text representing the spoken content.");
              InlineDataPart (lit "audio/mp3") (Some (lit "SUQz")) ] ]
      /\ Async.inFlight p = [Async.TranscriptionCall initialState upload])
  /\ handleFileSelect initialState upload (Some plainText) (boot emptyStorage)
     = (Normal tt,
        alerted (boot emptyStorage)
          (lit "Unsupported file type: text/plain. Please upload an MP3 or M4A file."))
  /\ handleGenerate initialState blocked false None (boot emptyStorage)
     = (Normal tt,
        alerted (boot emptyStorage) (lit "Please provide some text to analyze."))
  /\ alerts (exec (handleFileSelect initialState Cases.unreadable (Some mp3))
               (boot emptyStorage))
     = [lit "An error occurred during transcription or analysis: Please try again."].
Proof.
  assert (Hin : In (type mp3) supportedTypes) by (right; left; reflexivity).
  assert (Hout : ~ In (type plainText) supportedTypes)
    by (intros [H|[H|[H|[H|[]]]]]; discriminate H).
  assert (Hh : ~ In 44%N (lit "data:audio/mp3;base64"))
    by (cbv; intuition discriminate).
  assert (Hp : ~ In 44%N (lit "SUQz")) by (cbv; intuition discriminate).
  destruct (input_validation initialState (boot emptyStorage))
    as (Ha & Hb & Hc & Hd & He).
  split; [exact Hin|]. split; [reflexivity|]. split; [exact Hout|].
  split; [reflexivity|]. split; [reflexivity|].
  split; [exact (Ha upload mp3 (lit "data:audio/mp3;base64,SUQz") Hin eq_refl)|].
  split; [exact (Hb upload mp3 (lit "data:audio/mp3;base64") (lit "SUQz") []
                   Hin Hh Hp eq_refl)|].
  split; [exact (Hc upload plainText Hout)|].
  split; [exact (Hd blocked false None (or_intror eq_refl))|].
  destruct (He Cases.unreadable mp3 (mkError None) Hin eq_refl) as (_ & H & _).
  exact H.
Defined.

Lemma newest_record_first_witness :
  textToAnalyze (app (pasted (lit "first lesson"))) false None
  = Some (lit "first lesson")
  /\ lit "first lesson" <> []
  /\ answers (answering (lit "<h1>First</h1>") 1793683200123)
     = Some (lit "<h1>First</h1>")
  /\ In (type mp3) supportedTypes
  /\ read upload = ReadOk (lit "data:audio/mp3;base64,SUQz")
  /\ transcription_reply upload = Resolves (Some (lit "Sample lesson text"))
  /\ lit "Sample lesson text" <> []
  /\ answers (generation upload) = Some (lit "<h1>Shabbat</h1>")
  /\ Forall answered sameInstant
  /\ (exists e,
         library (app (exec (handleGenerate (app (pasted (lit "first lesson")))
                               (answering (lit "<h1>First</h1>") 1793683200123)
                               false None)
                         (pasted (lit "first lesson")))) = [e]
         /\ LibraryEntry.title e = lit "First"
         /\ LibraryEntry.sourceText e = lit "first lesson"
         /\ LibraryEntry.refinementHistory e = [])
  /\ (exists e,
         library (app (exec (step (SelectFile upload mp3)) (viewing shabbat)))
         = [e; shabbat]
         /\ LibraryEntry.sourceText e = lit "Sample lesson text")
  /\ (let w' := run (generateEach sameInstant) (boot emptyStorage) in
      library (app w')
      = rev (map (createdBy (app (boot emptyStorage))) sameInstant)
          ++ library (app (boot emptyStorage))
      /\ (forall earlier latest, sameInstant = earlier ++ [latest] ->
          hd_error (library (app w')) = Some (createdBy (app (boot emptyStorage)) latest)
          /\ currentAnalysis (app w') = Some (createdBy (app (boot emptyStorage)) latest))).
Proof.
  assert (Hne1 : lit "first lesson" <> []) by discriminate.
  assert (Hne2 : lit "Sample lesson text" <> []) by discriminate.
  assert (Hin : In (type mp3) supportedTypes) by (right; left; reflexivity).
  assert (H : Forall answered sameInstant).
  { constructor; [|constructor; [|constructor]]; split; discriminate. }
  destruct newest_record_first as (Hrun & Hupload & Hmany).
  split; [reflexivity|]. split; [exact Hne1|]. split; [reflexivity|].
  split; [exact Hin|]. split; [reflexivity|]. split; [reflexivity|].
  split; [exact Hne2|]. split; [reflexivity|]. split; [exact H|].
  split; [|split].
  - destruct (Hrun (app (pasted (lit "first lesson")))
                (answering (lit "<h1>First</h1>") 1793683200123) None
                (pasted (lit "first lesson")) (lit "first lesson")
                (lit "<h1>First</h1>") eq_refl Hne1 eq_refl) as (Hlib & _).
    eexists. split; [exact Hlib|]. repeat split.
  - destruct (Hupload (viewing shabbat) upload mp3
                (lit "data:audio/mp3;base64,SUQz") (lit "Sample lesson text")
                (lit "<h1>Shabbat</h1>") Hin eq_refl eq_refl Hne2 eq_refl)
      as (Hlib & _).
    eexists. split; [exact Hlib|]. reflexivity.
  - exact (Hmany sameInstant (boot emptyStorage) H).
Defined.

Lemma save_then_load_round_trip_witness :
  accessible (storage (viewing shabbat)) = true
  /\ fits (JSON.stringify (LibraryEntry.listToJs [shabbat; questions]))
       (quota (storage (viewing shabbat))) = true
  /\ fits (JSON.stringify (LibraryEntry.listToJs [shabbat; questions]))
       (quota (storage (boot tinyStorage))) = false
  /\ (let saved := exec (saveLibrary [shabbat; questions]) (viewing shabbat) in
      library (app saved) = [shabbat; questions]
      /\ exists w2,
           mount (storage saved) = (Normal LoadDone, w2)
           /\ library (app w2) = [shabbat; questions])
  /\ (let saved := exec (saveLibrary [shabbat; questions]) (boot tinyStorage) in
      library (app saved) = [shabbat; questions]
      /\ storage saved = tinyStorage
      /\ console saved = [lit "Failed to save library to localStorage"]).
Proof.
  split; [reflexivity|]. split; [reflexivity|]. split; [reflexivity|].
  destruct (save_then_load_round_trip [shabbat; questions]) as (_ & Hok & Hfail).
  split.
  - exact (Hok (viewing shabbat) eq_refl eq_refl).
  - exact (Hfail (boot tinyStorage) (or_intror eq_refl)).
Defined.

Lemma unreadable_library_loads_empty_witness :
  (exists text, item corruptStorage = Some text /\ JSON.parse text = None)
  /\ (exists w',
         mount corruptStorage = (Normal LoadDone, w')
         /\ library (app w') = []
         /\ app w' = initialState
         /\ storage w' = corruptStorage
         /\ alerts w' = []
         /\ console w' = [lit "Failed to load library from localStorage"]).
Proof.
  assert (H : exists text, item corruptStorage = Some text /\ JSON.parse text = None).
  { eexists. split; [reflexivity | vm_compute; reflexivity]. }
  split; [exact H|].
  destruct (unreadable_library_loads_empty corruptStorage) as [_ Hbad].
  exact (Hbad (or_intror H)).
Defined.

Lemma download_replaces_spaces_witness :
  currentAnalysis (app (viewing Cases.halfEmoji)) = Some Cases.halfEmoji
  /\ Blob.codeUnits (LibraryEntry.infographicHtml Cases.halfEmoji)
  /\ (exists d,
         downloads (exec (step DownloadHtml) (viewing Cases.halfEmoji)) = [d]
         /\ blob_content d
            = [60; 104; 49; 62; 83; 109; 105; 108; 101; 60; 47; 104; 49; 62;
               239; 191; 189]%N
         /\ Blob.text (blob_content d) = Some (lit "<h1>Smile</h1>" ++ [65533%N])
         /\ download_name d = lit "Smile.html")
  /\ currentAnalysis (app (viewing questions)) = Some questions
  /\ Blob.codeUnits (LibraryEntry.infographicHtml questions)
  /\ (exists d,
         downloads (exec (step DownloadHtml) (viewing questions)) = [d]
         /\ blob_content d = lit "<h1>Q&A: a/b?</h1>"
         /\ Blob.text (blob_content d) = Some (lit "<h1>Q&A: a/b?</h1>")
         /\ download_name d = lit "Q&A:_a/b?.html").
Proof.
  assert (U1 : Blob.codeUnits (LibraryEntry.infographicHtml Cases.halfEmoji))
    by (repeat constructor).
  assert (U2 : Blob.codeUnits (LibraryEntry.infographicHtml questions))
    by (repeat constructor).
  split; [reflexivity|]. split; [exact U1|].
  split.
  { destruct (download_replaces_spaces (viewing Cases.halfEmoji)
                Cases.halfEmoji eq_refl U1)
      as ((d & Hd & _ & Hc & Ht & _ & Hn) & _).
    exists d. repeat split; assumption. }
  split; [reflexivity|]. split; [exact U2|].
  destruct (download_replaces_spaces (viewing questions) questions eq_refl U2)
    as ((d & Hd & _ & Hc & Ht & _ & Hn) & _).
  exists d. repeat split; assumption.
Defined.

Lemma identifiers_are_clock_readings_witness :
  sourceText (app (pasted (lit "first lesson"))) = Some (lit "first lesson")
  /\ lit "first lesson" <> []
  /\ answers (answering (lit "<h1>First</h1>") 1793683200123)
     = Some (lit "<h1>First</h1>")
  /\ (exists e,
         currentAnalysis
           (app (exec (step (Generate (answering (lit "<h1>First</h1>") 1793683200123)))
                   (pasted (lit "first lesson")))) = Some e
         /\ LibraryEntry.id e = lit "2026-11-03T05:20:00.123Z"
         /\ LibraryEntry.createdAt e = lit "2026-11-03T05:20:00.124Z").
Proof.
  split; [reflexivity|]. split; [discriminate|]. split; [reflexivity|].
  destruct identifiers_are_clock_readings as (Hcreate & _).
  destruct (Hcreate (pasted (lit "first lesson")) (lit "first lesson")
              (answering (lit "<h1>First</h1>") 1793683200123) (lit "<h1>First</h1>"))
    as (e & Hcur & _ & Hid & Hat);
    [reflexivity | discriminate | reflexivity |].
  exists e. split; [exact Hcur|]. split; [exact Hid | exact Hat].
Defined.

(* ================================================================== *)
(** * More facts about the handlers *)
(* ================================================================== *)

(** The four ways in which [handleGenerate] can end. *)
Lemma handleGenerate_outcome (snap : State) (env : GenEnv) (isRefinement : bool)
    (textOverride : option jsstring) (w : World) :
  (app (exec (handleGenerate snap env isRefinement textOverride) w) = app w
   /\ storage (exec (handleGenerate snap env isRefinement textOverride) w) = storage w)
  \/ (app (exec (handleGenerate snap env isRefinement textOverride) w)
      = settled (app w) (quoteOf env)
      /\ storage (exec (handleGenerate snap env isRefinement textOverride) w)
         = storage w)
  \/ (exists r html,
        isRefinement = true /\ currentAnalysis snap = Some r
        /\ app (exec (handleGenerate snap env isRefinement textOverride) w)
           = mkState (view (app w)) false (quoteOf env)
               (Some (refined r (refineDirectives snap) html))
               (sourceText (app w)) (analysisLens (app w)) (customDirectives (app w))
               (visualTheme (app w))
               (replaceById r (refined r (refineDirectives snap) html) (library snap))
               (isSidebarOpen (app w)) false []
        /\ storage (exec (handleGenerate snap env isRefinement textOverride) w)
           = stored (replaceById r (refined r (refineDirectives snap) html)
                       (library snap)) (storage w))
  \/ (exists e,
        app (exec (handleGenerate snap env isRefinement textOverride) w)
        = mkState infographic false (quoteOf env) (Some e)
            (sourceText (app w)) (analysisLens (app w)) (customDirectives (app w))
            (visualTheme (app w)) (e :: library snap) (isSidebarOpen (app w)) false []
        /\ storage (exec (handleGenerate snap env isRefinement textOverride) w)
           = stored (e :: library snap) (storage w)).
Proof.
  unfold handleGenerate, generated, stored, settled, quoteOf, refined.
  destruct (textToAnalyze snap isRefinement textOverride) as [[|c text]|];
    try (left; split; reflexivity).
  open_world w.
  destruct (reply env) as [[complaint|err]|[|[|h tml]|]];
    try (right; left; run_monad; split; reflexivity).
  destruct isRefinement; [destruct (currentAnalysis snap) as [r|]|].
  - right. right. left. exists r, (h :: tml). run_monad.
    case_storage storage0; repeat split; reflexivity.
  - right. right. right. exists (created snap (c :: text) env (h :: tml)).
    unfold created. run_monad.
    case_storage storage0; split; reflexivity.
  - right. right. right. exists (created snap (c :: text) env (h :: tml)).
    unfold created. run_monad.
    case_storage storage0; split; reflexivity.
Qed.

(** What [handleFileSelect] leaves when the file cannot be read or the
    transcription call rejects. *)
Lemma handleFileSelect_caught (snap : State) (env : FileEnv) (file : File)
    (w : World) (e : JsError) :
  includes supportedTypes (type file) = true ->
  read env = ReadError e
  \/ (exists url, read env = ReadOk url /\ transcription_reply env = Rejects e) ->
  handleFileSelect snap env (Some file) w
  = (Normal tt,
     mkWorld
       (mkState (view (app w)) false (lit "Transcribing your audio, one moment...")
          (currentAnalysis (app w)) (sourceText (app w)) (analysisLens (app w))
          (customDirectives (app w)) (visualTheme (app w)) (library (app w))
          (isSidebarOpen (app w)) (isRefineModalOpen (app w))
          (refineDirectives (app w)))
       (storage w)
       (alerts w ++ [lit "An error occurred during transcription or analysis: "
                       ++ message_or e (lit "Please try again.")])
       (console w ++ [lit "Error transcribing audio:"])
       (requests w
          ++ match read env with
             | ReadOk url => [transcriptionRequest file (split_comma_1 url)]
             | ReadError _ => []
             end)
       (downloads w)).
Proof.
  intros Hsup Hfail.
  unfold handleFileSelect, fileToBase64. rewrite Hsup. cbn [negb].
  open_world w.
  destruct Hfail as [-> | (url & -> & ->)]; run_monad; rewrite ?app_nil_r; reflexivity.
Qed.

(** What [handleFileSelect] leaves when the transcription call rejects with
    [undefined] or [null]: reading [error.message] in the [catch] block
    throws, so no message box is shown and loading stays on. *)
Lemma handleFileSelect_threw (snap : State) (env : FileEnv) (file : File)
    (w : World) (url complaint : jsstring) :
  includes supportedTypes (type file) = true ->
  read env = ReadOk url ->
  transcription_reply env = Rejects (Nullish complaint) ->
  handleFileSelect snap env (Some file) w
  = (Throw (TypeError complaint),
     mkWorld (app (reading w)) (storage w) (alerts w)
       (console w ++ [lit "Error transcribing audio:"])
       (requests w ++ [transcriptionRequest file (split_comma_1 url)])
       (downloads w)).
Proof.
  intros Hsup Hread Hreply.
  unfold handleFileSelect, fileToBase64, reading. rewrite Hsup, Hread, Hreply.
  cbn [negb]. open_world w. run_monad. reflexivity.
Qed.

(** The [handleGenerate] that an upload runs inside its [try]: it ends as
    it does on its own, unless the generation rejects with [undefined] or
    [null]; then the TypeError that leaves it is caught and reported. *)
Lemma caught_generation (snap : State) (env : GenEnv)
    (textOverride : option jsstring) (w : World) :
  (fst (handleGenerate snap env false textOverride w) = Normal tt
   /\ try_catch (handleGenerate snap env false textOverride) transcriptionFailed w
      = handleGenerate snap env false textOverride w)
  \/ (exists c text complaint,
         textToAnalyze snap false textOverride = Some (c :: text)
         /\ reply env = Rejects (Nullish complaint)
         /\ try_catch (handleGenerate snap env false textOverride)
              transcriptionFailed w
            = (Normal tt,
               mkWorld (settled (app w) (quoteOf env)) (storage w)
                 (alerts w
                    ++ [lit "An error occurred during transcription or analysis: "
                          ++ message_or (TypeError complaint) (lit "Please try again.")])
                 (console w ++ [lit "Error generating analysis:";
                                lit "Error transcribing audio:"])
                 (requests w ++ [generationRequest snap false (c :: text)])
                 (downloads w))).
Proof.
  pose proof (handleGenerate_completion snap env false textOverride w) as Hc.
  destruct (textToAnalyze snap false textOverride) as [[|c text]|] eqn:Ht;
    try (left; split; [exact Hc|]; unfold try_catch;
         destruct (handleGenerate snap env false textOverride w) as [[[]|e] w'];
         [reflexivity | discriminate Hc]).
  destruct (reply env) as [[complaint|e]|t] eqn:Hreply;
    try (left; split; [exact Hc|]; unfold try_catch;
         destruct (handleGenerate snap env false textOverride w) as [[[]|e'] w'];
         [reflexivity | discriminate Hc]).
  right. exists c, text, complaint. repeat split.
  unfold handleGenerate, generated, settled, quoteOf. rewrite Ht, Hreply.
  open_world w. run_monad. rewrite <- !app_assoc. reflexivity.
Qed.

Lemma handleGenerate_answered_returns (snap : State) (env : GenEnv)
    (isRefinement : bool) (textOverride : option jsstring) (w : World)
    (html : jsstring) :
  answers env = Some html ->
  fst (handleGenerate snap env isRefinement textOverride w) = Normal tt.
Proof.
  intros Hans. rewrite handleGenerate_completion.
  destruct (answers_reply _ _ Hans) as (c & rest & _ & ->).
  now destruct (textToAnalyze snap isRefinement textOverride) as [[|]|].
Qed.

(** What one event does to the library, the record in hand, the view and
    the storage. *)
Lemma step_outcome (ev : Event) (w : World) :
  (library (app (exec (step ev) w)) = library (app w)
   /\ storage (exec (step ev) w) = storage w
   /\ ((currentAnalysis (app (exec (step ev) w)) = currentAnalysis (app w)
        /\ view (app (exec (step ev) w)) = view (app w))
       \/ (currentAnalysis (app (exec (step ev) w)) = None
           /\ view (app (exec (step ev) w)) = welcome)
       \/ (exists e, In e (library (app w))
                     /\ currentAnalysis (app (exec (step ev) w)) = Some e
                     /\ view (app (exec (step ev) w)) = infographic)))
  \/ (exists e,
        library (app (exec (step ev) w)) = e :: library (app w)
        /\ currentAnalysis (app (exec (step ev) w)) = Some e
        /\ view (app (exec (step ev) w)) = infographic
        /\ storage (exec (step ev) w)
           = stored (library (app (exec (step ev) w))) (storage w))
  \/ (exists r r',
        currentAnalysis (app w) = Some r
        /\ currentAnalysis (app (exec (step ev) w)) = Some r'
        /\ LibraryEntry.id r' = LibraryEntry.id r
        /\ library (app (exec (step ev) w)) = replaceById r r' (library (app w))
        /\ view (app (exec (step ev) w)) = view (app w)
        /\ storage (exec (step ev) w)
           = stored (library (app (exec (step ev) w))) (storage w)).
Proof.
  assert (Hgen : forall env isRefinement textOverride w0,
             library (app w0) = library (app w) ->
             currentAnalysis (app w0) = currentAnalysis (app w) ->
             view (app w0) = view (app w) ->
             storage w0 = storage w ->
             let w' := exec (handleGenerate (app w) env isRefinement textOverride) w0 in
             (library (app w') = library (app w)
              /\ storage w' = storage w
              /\ ((currentAnalysis (app w') = currentAnalysis (app w)
                   /\ view (app w') = view (app w))
                  \/ (currentAnalysis (app w') = None /\ view (app w') = welcome)
                  \/ (exists e, In e (library (app w))
                                /\ currentAnalysis (app w') = Some e
                                /\ view (app w') = infographic)))
             \/ (exists e,
                   library (app w') = e :: library (app w)
                   /\ currentAnalysis (app w') = Some e
                   /\ view (app w') = infographic
                   /\ storage w' = stored (library (app w')) (storage w))
             \/ (exists r r',
                   currentAnalysis (app w) = Some r
                   /\ currentAnalysis (app w') = Some r'
                   /\ LibraryEntry.id r' = LibraryEntry.id r
                   /\ library (app w') = replaceById r r' (library (app w))
                   /\ view (app w') = view (app w)
                   /\ storage w' = stored (library (app w')) (storage w))).
  { intros env isRefinement textOverride w0 Hlib Hcur Hview Hst w'. subst w'.
    destruct (handleGenerate_outcome (app w) env isRefinement textOverride w0)
      as [[Happ Hs] | [[Happ Hs] | [(r & html & _ & Hr & Happ & Hs)
                                   | (e & Happ & Hs)]]];
      rewrite Happ, Hs; unfold settled; cbn [library currentAnalysis view].
    - left. rewrite Hlib, Hcur, Hview, Hst. auto.
    - left. rewrite Hlib, Hcur, Hview, Hst. auto.
    - right. right. exists r, (refined r (refineDirectives (app w)) html).
      rewrite Hview, Hst. repeat split. exact Hr.
    - right. left. exists e. rewrite Hst. repeat split. }
  destruct ev; cbn [step]; rewrite ?exec_dispatch;
    try solve [left; open_world w; run_monad; auto 8].
  - (* Generate *)
    apply (Hgen env false None w); reflexivity.
  - (* SelectFile *)
    destruct (includes supportedTypes (type file)) eqn:Hsup.
    + destruct (read env) as [url|e] eqn:Hread.
      * destruct (transcription_reply env) as [[complaint|e]|t] eqn:Hreply.
        -- unfold exec.
           rewrite (handleFileSelect_threw (app w) env file w url complaint)
             by assumption.
           left. cbn [snd app reading library currentAnalysis view storage]. auto.
        -- unfold exec.
           rewrite (handleFileSelect_caught (app w) env file w e Hsup)
             by (right; now exists url).
           left. cbn [snd app library currentAnalysis view storage]. auto.
        -- unfold exec.
           rewrite (handleFileSelect_read (app w) env file w url t) by assumption.
           destruct (caught_generation (app w) (generation env) t
                       (transcribed w file url t))
             as [[_ ->] | (c & text & complaint & _ & _ & ->)].
           ++ apply (Hgen (generation env) false t (transcribed w file url t));
                reflexivity.
           ++ left.
              cbn [snd app settled transcribed library currentAnalysis view storage].
              auto.
      * unfold exec.
        rewrite (handleFileSelect_caught (app w) env file w e Hsup) by now left.
        left. cbn [snd app library currentAnalysis view storage]. auto.
    + unfold exec. rewrite handleFileSelect_rejected by assumption.
      left. cbn [snd app storage]. auto.
  - (* LoadFromLibrary *)
    left. destruct (nth_error (library (app w)) index) as [entry|] eqn:Hnth.
    + apply nth_error_In in Hnth.
      open_world w. run_monad. repeat split.
      right. right. exists entry. repeat split. exact Hnth.
    + open_world w. run_monad. auto.
  - (* SaveEdits *)
    destruct (currentAnalysis (app w)) as [r|] eqn:Hcur.
    + destruct innerHTML as [html|].
      * destruct (handleSaveChanges_edited (app w) w r html Hcur)
          as (Happ & _ & _ & _ & Hst).
        right. right. exists r, (edited r html).
        rewrite Happ, Hst. cbn [library currentAnalysis view]. repeat split.
      * left. unfold handleSaveChanges. rewrite Hcur.
        change (exec (ret tt) w) with w. auto.
    + left. unfold handleSaveChanges. rewrite Hcur.
      change (exec (ret tt) w) with w. auto.
  - (* DownloadHtml *)
    left. unfold handleDownloadHtml.
    open_world w. cbn [app currentAnalysis].
    destruct currentAnalysis0; run_monad; auto.
  - (* SubmitRefine *)
    apply (Hgen env true None w); reflexivity.
Qed.

(** ** Handlers in flight *)

Lemma after_world (m : M (list Async.Call)) (w : World) (others : list Async.Call) :
  Async.world (Async.after m w others) = snd (m w).
Proof. unfold Async.after. now destruct (m w) as [[calls|e] w']. Qed.

(** What the state is after an action: that of a piece of a handler. *)
Lemma async_step_world (a : Async.Action) (p : Async.Page) :
  Async.world (Async.step a p) = Async.world p
  \/ (exists ev, Async.world (Async.step a p) = snd (Async.begin ev (Async.world p)))
  \/ (exists c, Async.world (Async.step a p) = snd (Async.resume c (Async.world p))).
Proof.
  destruct a as [ev|k]; cbn [Async.step].
  - right. left. exists ev. apply after_world.
  - destruct (nth_error (Async.inFlight p) k) as [c|]; [|now left].
    right. right. exists c. apply after_world.
Qed.

(** A property of the state that every piece of a handler keeps holds
    whatever is done and whichever calls settle in whichever order. *)
Lemma async_invariant (P : State -> Prop) :
  (forall ev w, P (app w) -> P (app (snd (Async.begin ev w)))) ->
  (forall c w, P (app w) -> P (app (snd (Async.resume c w)))) ->
  forall actions p,
    P (app (Async.world p)) -> P (app (Async.world (Async.run actions p))).
Proof.
  intros Hbegin Hresume.
  induction actions as [|a actions IH]; intros p Hp; cbn [Async.run]; [exact Hp|].
  apply IH.
  destruct (async_step_world a p) as [-> | [(ev & ->) | (c & ->)]]; auto.
Qed.


(** The piece of an event up to the first [await] of its handler: the event
    handled in one go when its handler does not wait, and otherwise a piece
    that leaves library, record in hand, view and storage alone. *)
Lemma begin_outcome (ev : Event) (w : World) :
  snd (Async.begin ev w) = exec (step ev) w
  \/ (library (app (snd (Async.begin ev w))) = library (app w)
      /\ currentAnalysis (app (snd (Async.begin ev w))) = currentAnalysis (app w)
      /\ view (app (snd (Async.begin ev w))) = view (app w)
      /\ storage (snd (Async.begin ev w)) = storage w).
Proof.
  assert (Hgen : forall env isRefinement,
             let w' := snd (Async.startGenerate (app w) env isRefinement None false w) in
             library (app w') = library (app w)
             /\ currentAnalysis (app w') = currentAnalysis (app w)
             /\ view (app w') = view (app w)
             /\ storage w' = storage w).
  { intros env isRefinement w'. subst w'.
    destruct (textToAnalyze (app w) isRefinement None) as [[|c text]|] eqn:Ht.
    - rewrite startGenerate_no_text by auto. repeat split.
    - rewrite (startGenerate_text _ _ _ _ _ _ c text Ht). repeat split.
    - rewrite startGenerate_no_text by auto. repeat split. }
  destruct ev; cbn [Async.begin];
    try (left; unfold bind, ret, exec;
         match goal with
         | |- context [step ?e w] => destruct (step e w) as [[[]|err] w']
         end; reflexivity).
  - right. apply Hgen.
  - right. unfold dispatch.
    destruct (includes supportedTypes (type file)) eqn:Hsup.
    + rewrite startFileSelect_supported by assumption. repeat split.
    + unfold Async.startFileSelect. rewrite Hsup. cbn [negb].
      open_world w. run_monad. repeat split.
  - right. apply Hgen.
Qed.

(** The ways in which the rest of [handleGenerate] can end, in whatever
    state the answer finds the component. *)
Lemma resumeGenerate_outcome (snap : State) (env : GenEnv) (isRefinement : bool)
    (text : jsstring) (w : World) :
  let result := Async.resumeGenerate snap env isRefinement text w in
  (app (snd result) = settled (app w) (loadingQuote (app w))
   /\ storage (snd result) = storage w
   /\ requests (snd result) = requests w
   /\ (fst result = Normal tt
       \/ exists complaint,
            reply env = Rejects (Nullish complaint)
            /\ fst result = Throw (TypeError complaint)))
  \/ (exists r html,
        isRefinement = true /\ currentAnalysis snap = Some r
        /\ fst result = Normal tt
        /\ app (snd result)
           = mkState (view (app w)) false (loadingQuote (app w))
               (Some (refined r (refineDirectives snap) html))
               (sourceText (app w)) (analysisLens (app w)) (customDirectives (app w))
               (visualTheme (app w))
               (replaceById r (refined r (refineDirectives snap) html) (library snap))
               (isSidebarOpen (app w)) false []
        /\ storage (snd result)
           = stored (replaceById r (refined r (refineDirectives snap) html)
                       (library snap)) (storage w))
  \/ (exists e,
        fst result = Normal tt
        /\ app (snd result)
           = mkState infographic false (loadingQuote (app w)) (Some e)
               (sourceText (app w)) (analysisLens (app w)) (customDirectives (app w))
               (visualTheme (app w)) (e :: library snap) (isSidebarOpen (app w)) false []
        /\ storage (snd result) = stored (e :: library snap) (storage w)).
Proof.
  unfold Async.resumeGenerate, generated, stored, settled, refined.
  open_world w.
  destruct (reply env) as [[complaint|err]|[|[|h tml]|]];
    try (left; run_monad; repeat split; left; reflexivity).
  - left. run_monad. repeat split. right. now exists complaint.
  - destruct isRefinement; [destruct (currentAnalysis snap) as [r|]|].
    + right. left. exists r, (h :: tml). run_monad.
      case_storage storage0; repeat split; reflexivity.
    + right. right. exists (created snap text env (h :: tml)).
      unfold created. run_monad.
      case_storage storage0; repeat split; reflexivity.
    + right. right. exists (created snap text env (h :: tml)).
      unfold created. run_monad.
      case_storage storage0; repeat split; reflexivity.
Qed.

(** What the [catch] block of [handleFileSelect] does to the state. *)
Lemma transcriptionFailed_app (error : Thrown) (w : World) :
  let w' := snd (transcriptionFailed error w) in
  library (app w') = library (app w)
  /\ currentAnalysis (app w') = currentAnalysis (app w)
  /\ view (app w') = view (app w)
  /\ storage w' = storage w
  /\ isLoading (app w')
     = match error with Nullish _ => isLoading (app w) | Value _ => false end.
Proof.
  open_world w. destruct error as [complaint|e]; run_monad; repeat split.
Qed.

(** What a settled call does to the library, the record in hand, the view
    and the storage: the library it writes is made from the library of the
    render that its handler was started from. *)
Lemma resume_outcome (c : Async.Call) (w : World) :
  let w' := snd (Async.resume c w) in
  (library (app w') = library (app w)
   /\ currentAnalysis (app w') = currentAnalysis (app w)
   /\ view (app w') = view (app w)
   /\ storage w' = storage w)
  \/ (exists e,
        library (app w') = e :: library (Async.closure c)
        /\ currentAnalysis (app w') = Some e
        /\ view (app w') = infographic
        /\ storage w' = stored (library (app w')) (storage w))
  \/ (exists r r',
        currentAnalysis (Async.closure c) = Some r
        /\ currentAnalysis (app w') = Some r'
        /\ LibraryEntry.id r' = LibraryEntry.id r
        /\ library (app w') = replaceById r r' (library (Async.closure c))
        /\ view (app w') = view (app w)
        /\ storage w' = stored (library (app w')) (storage w)).
Proof.
  assert (Hgen : forall snap env isRefinement text w0,
             let w' := snd (Async.resumeGenerate snap env isRefinement text w0) in
             (library (app w') = library (app w0)
              /\ currentAnalysis (app w') = currentAnalysis (app w0)
              /\ view (app w') = view (app w0)
              /\ storage w' = storage w0)
             \/ (exists e,
                   library (app w') = e :: library snap
                   /\ currentAnalysis (app w') = Some e
                   /\ view (app w') = infographic
                   /\ storage w' = stored (library (app w')) (storage w0))
             \/ (exists r r',
                   currentAnalysis snap = Some r
                   /\ currentAnalysis (app w') = Some r'
                   /\ LibraryEntry.id r' = LibraryEntry.id r
                   /\ library (app w') = replaceById r r' (library snap)
                   /\ view (app w') = view (app w0)
                   /\ storage w' = stored (library (app w')) (storage w0))).
  { intros snap env isRefinement text w0 w'. subst w'.
    destruct (resumeGenerate_outcome snap env isRefinement text w0)
      as [(Happ & Hs & _) | [(r & html & _ & Hr & _ & Happ & Hs)
                            | (e & _ & Happ & Hs)]];
      rewrite Happ, Hs; unfold settled; cbn [library currentAnalysis view].
    - left. auto.
    - right. right. exists r, (refined r (refineDirectives snap) html).
      repeat split. exact Hr.
    - right. left. exists e. repeat split. }
  assert (Hstart : forall snap env t w0,
             let w' := snd (Async.startGenerate snap env false t true w0) in
             library (app w') = library (app w0)
             /\ currentAnalysis (app w') = currentAnalysis (app w0)
             /\ view (app w') = view (app w0)
             /\ storage w' = storage w0).
  { intros snap env t w0 w'. subst w'.
    destruct (textToAnalyze snap false t) as [[|ch text]|] eqn:Ht.
    - rewrite startGenerate_no_text by auto. repeat split.
    - rewrite (startGenerate_text _ _ _ _ _ _ ch text Ht). repeat split.
    - rewrite startGenerate_no_text by auto. repeat split. }
  destruct c as [snap env isRefinement text fromUpload | snap env file | snap env];
    cbn [Async.resume Async.closure].
  - destruct fromUpload.
    + specialize (Hgen snap env isRefinement text w). cbn zeta in Hgen.
      unfold try_catch, bind, ret.
      destruct (Async.resumeGenerate snap env isRefinement text w) as [[[]|err] wx];
        cbn [snd] in *; [exact Hgen|].
      destruct (transcriptionFailed_app err wx) as (Hl & Hc & Hv & Hs & _).
      destruct (transcriptionFailed err wx) as [[[]|err'] wy]; cbn [snd] in *;
        rewrite Hl, Hc, Hv, Hs; exact Hgen.
    + specialize (Hgen snap env isRefinement text w). cbn zeta in Hgen.
      unfold bind, ret.
      destruct (Async.resumeGenerate snap env isRefinement text w) as [[[]|err] wx];
        exact Hgen.
  - left. unfold Async.resumeFileRead, fileToBase64.
    destruct (read env) as [url|e]; open_world w; run_monad; repeat split.
  - left. unfold Async.resumeTranscription.
    destruct (transcription_reply env) as [[complaint|e]|t];
      try (open_world w; run_monad; repeat split; fail).
    open_world w. run_monad.
    destruct (textToAnalyze snap false t) as [[|ch text]|] eqn:Ht.
    + rewrite !(startGenerate_no_text snap (generation env) false t true _
                  (or_intror Ht)).
      repeat split.
    + rewrite !(startGenerate_text snap (generation env) false t true _ ch text Ht).
      repeat split.
    + rewrite !(startGenerate_no_text snap (generation env) false t true _
                  (or_introl Ht)).
      repeat split.
Qed.

Lemma mount_opened (st : Storage) :
  storage (Session.opened st) = st
  /\ currentAnalysis (app (Session.opened st)) = None
  /\ view (app (Session.opened st)) = welcome.
Proof.
  destruct st as [acc q it].
  unfold Session.opened, mount, loadLibraryEffect, boot.
  destruct acc; [|run_mount; repeat split; reflexivity].
  destruct it as [[|c text]|]; try solve [run_mount; repeat split; reflexivity].
  run_mount.
  destruct (JSON.parse (c :: text)) as [v|];
    [|run_mount; repeat split; reflexivity].
  destruct (LibraryEntry.listOfJs v); run_mount; repeat split; reflexivity.
Qed.

(** Mounting on the text that [saveLibrary l] wrote loads [l]. *)
Lemma mount_saved (q : option nat) (l : list LibraryEntry.t) :
  mount (mkStorage true q (Some (JSON.stringify (LibraryEntry.listToJs l))))
  = (Normal LoadDone,
     mkWorld
       (mkState welcome false [] None (Some []) (lit "General Summary") []
          ModernScholar l false false [])
       (mkStorage true q (Some (JSON.stringify (LibraryEntry.listToJs l))))
       [] [] [] []).
Proof.
  pose proof (JSONFacts.parse_stringify _ (EntryFacts.clean_listToJs l)) as Hparse.
  pose proof (EntryFacts.listOfJs_listToJs l) as Hdec.
  destruct (EntryFacts.stringify_list_nonempty l) as (c & text & Htext).
  rewrite Htext in *.
  unfold mount, loadLibraryEffect, boot. run_mount.
  rewrite Hparse, Hdec. run_mount. reflexivity.
Qed.

Lemma coherent_step (ev : Event) (w : World) :
  Session.coherent (app w) -> Session.coherent (app (exec (step ev) w)).
Proof.
  intros (Hin & Hw & Hi).
  destruct (step_outcome ev w)
    as [(Hlib & _ & [[Hcur Hview] | [[Hcur Hview] | (e & He & Hcur & Hview)]])
       | [(e & Hlib & Hcur & Hview & _)
         | (r & r' & Hr & Hcur & _ & Hlib & Hview & _)]];
    unfold Session.coherent; rewrite Hlib, Hcur, Hview.
  - auto.
  - repeat split; intros; try discriminate; auto.
  - repeat split; try discriminate. intros x [= <-]. exact He.
  - repeat split; try discriminate. intros x [= <-]. now left.
  - repeat split.
    + intros x [= <-]. apply replaceById_In. now apply Hin.
    + intros V. rewrite (Hw V) in Hr. discriminate Hr.
    + discriminate.
Qed.

Lemma coherent_run (evs : list Event) :
  forall w, Session.coherent (app w) -> Session.coherent (app (run evs w)).
Proof.
  induction evs as [|ev evs IH]; intros w H; cbn [run]; [exact H|].
  apply IH. now apply coherent_step.
Qed.

Lemma coherent_opened (st : Storage) : Session.coherent (app (Session.opened st)).
Proof.
  destruct (mount_opened st) as (_ & Hcur & Hview).
  unfold Session.coherent. rewrite Hcur, Hview.
  repeat split; try discriminate; auto.
Qed.

Lemma reloads_step (ev : Event) (w : World) :
  Session.roomy (storage w) -> Session.reloads w ->
  Session.roomy (storage (exec (step ev) w)) /\ Session.reloads (exec (step ev) w).
Proof.
  intros [Hacc Hq] Hre.
  assert (Hsaved : forall l,
             Session.roomy (stored l (storage w))
             /\ mount (stored l (storage w))
                = (Normal LoadDone,
                   mkWorld
                     (mkState welcome false [] None (Some []) (lit "General Summary")
                        [] ModernScholar l false false [])
                     (stored l (storage w)) [] [] [] [])).
  { intros l. unfold stored. rewrite Hacc, Hq. cbn [fits].
    split; [split; reflexivity | apply mount_saved]. }
  destruct (step_outcome ev w)
    as [(Hlib & Hst & _)
       | [(e & _ & _ & _ & Hst) | (r & r' & _ & _ & _ & _ & _ & Hst)]].
  - unfold Session.reloads. rewrite Hst, Hlib. split; [split|]; assumption.
  - destruct (Hsaved (library (app (exec (step ev) w)))) as [Hroomy Hmount].
    rewrite Hst. split; [exact Hroomy|].
    unfold Session.reloads, Session.opened. rewrite Hst, Hmount. split; reflexivity.
  - destruct (Hsaved (library (app (exec (step ev) w)))) as [Hroomy Hmount].
    rewrite Hst. split; [exact Hroomy|].
    unfold Session.reloads, Session.opened. rewrite Hst, Hmount. split; reflexivity.
Qed.

Lemma reloads_run (evs : list Event) :
  forall w, Session.roomy (storage w) -> Session.reloads w ->
            Session.roomy (storage (run evs w)) /\ Session.reloads (run evs w).
Proof.
  induction evs as [|ev evs IH]; intros w Hr Hre; cbn [run]; [now split|].
  destruct (reloads_step ev w Hr Hre) as [Hr' Hre']. now apply IH.
Qed.

Lemma quoteOf_In (env : GenEnv) : In (quoteOf env) QUOTES.
Proof.
  unfold quoteOf. apply nth_In.
  apply Nat.mod_upper_bound. discriminate.
Qed.

(** Property X1.  When [handleGenerate] has text to analyse and the call to
    the service rejects with a value that has properties, no exception
    leaves the handler and the message box shows the message of the error,
    or the fixed text when the error has no message or an empty one.  When
    the call rejects with [undefined] or [null], reading [error.message] in
    the [catch] block throws: no message box is shown and that TypeError
    leaves the handler, after the [finally] block has run.  Either way the
    console gets one line; the request went out once; the library, the
    record in hand, the view, the form and the storage are what they were,
    loading is off, the refine dialog is closed and its directive
    cleared. *)
Theorem rejected_generation_is_reported :
  forall (snap : State) (env : GenEnv) (isRefinement : bool)
         (textOverride : option jsstring) (w : World) (text : jsstring)
         (e : Thrown),
    textToAnalyze snap isRefinement textOverride = Some text ->
    text <> [] ->
    reply env = Rejects e ->
    let result := handleGenerate snap env isRefinement textOverride w in
    let w' := snd result in
    match e with
    | Value err =>
        fst result = Normal tt
        /\ (forall m, message err = Some m -> m <> [] -> alerts w' = alerts w ++ [m])
        /\ (message err = None \/ message err = Some [] ->
            alerts w'
            = alerts w
                ++ [lit "An error occurred while analyzing the text. Please try again."])
    | Nullish complaint =>
        fst result = Throw (TypeError complaint)
        /\ alerts w' = alerts w
    end
    /\ console w' = console w ++ [lit "Error generating analysis:"]
    /\ requests w' = requests w ++ [generationRequest snap isRefinement text]
    /\ app w' = settled (app w) (quoteOf env)
    /\ storage w' = storage w
    /\ downloads w' = downloads w.
Proof.
  intros snap env isRefinement textOverride w text e Ht Hne Hr result w'.
  subst w' result.
  unfold handleGenerate, generated, settled, quoteOf, message_or. rewrite Ht, Hr.
  destruct text as [|c0 text]; [contradiction|].
  open_world w. destruct e as [complaint|err]; run_monad; unfold message_or.
  - repeat split.
  - repeat split.
    + intros m -> Hm. destruct m; [contradiction | reflexivity].
    + intros [-> | ->]; reflexivity.
Qed.

(** Property X2.  [handleGenerate] around its call to the service.  With
    text to analyse, the piece before the call sends exactly one request,
    turns loading on and shows one of the four quotations, and changes
    nothing else: this is the state for as long as the call does not
    settle.  When the call settles, in whatever state the component is by
    then, the rest of the handler sends nothing and ends with loading off,
    the refine dialog closed and its directive cleared, whether the call
    succeeded or not; the form is left alone; an exception leaves it only
    when the call rejected with [undefined] or [null].  The handler run in
    one go is the first piece followed by the second.  When there is no
    text it sends nothing, changes no state and shows one message box. *)
Theorem generation_settles_with_loading_off :
  forall (snap : State) (env : GenEnv) (isRefinement : bool)
         (textOverride : option jsstring) (fromUpload : bool) (w w0 : World),
    match textToAnalyze snap isRefinement textOverride with
    | Some (c :: text) =>
        (let started :=
           Async.startGenerate snap env isRefinement textOverride fromUpload w in
         fst started
         = Normal [Async.GenerationCall snap env isRefinement (c :: text) fromUpload]
         /\ requests (snd started)
            = requests w ++ [generationRequest snap isRefinement (c :: text)]
         /\ isLoading (app (snd started)) = true
         /\ In (loadingQuote (app (snd started))) QUOTES
         /\ snd started
            = waiting w (quoteOf env) (generationRequest snap isRefinement (c :: text)))
        /\ (let result :=
              Async.resumeGenerate snap env isRefinement (c :: text) w0 in
            let w' := snd result in
            fst result
            = match reply env with
              | Rejects (Nullish complaint) => Throw (TypeError complaint)
              | _ => Normal tt
              end
            /\ requests w' = requests w0
            /\ isLoading (app w') = false
            /\ isRefineModalOpen (app w') = false
            /\ refineDirectives (app w') = []
            /\ loadingQuote (app w') = loadingQuote (app w0)
            /\ sourceText (app w') = sourceText (app w0)
            /\ analysisLens (app w') = analysisLens (app w0)
            /\ customDirectives (app w') = customDirectives (app w0)
            /\ visualTheme (app w') = visualTheme (app w0))
        /\ handleGenerate snap env isRefinement textOverride w
           = Async.resumeGenerate snap env isRefinement (c :: text)
               (snd (Async.startGenerate snap env isRefinement textOverride
                       fromUpload w))
    | _ =>
        Async.startGenerate snap env isRefinement textOverride fromUpload w
        = (Normal [], alerted w (lit "Please provide some text to analyze."))
        /\ handleGenerate snap env isRefinement textOverride w
           = (Normal tt, alerted w (lit "Please provide some text to analyze."))
    end.
Proof.
  intros snap env isRefinement textOverride fromUpload w w0.
  pose proof (quoteOf_In env) as Hq.
  destruct (textToAnalyze snap isRefinement textOverride) as [[|c text]|] eqn:Ht;
    try (split; [apply startGenerate_no_text | apply handleGenerate_no_text]; auto).
  rewrite (startGenerate_text snap env isRefinement textOverride fromUpload w c text Ht).
  cbn [fst snd].
  split; [|split].
  - unfold waiting. cbn [requests app isLoading loadingQuote]. repeat split.
    exact Hq.
  - unfold Async.resumeGenerate, generated.
    open_world w0.
    destruct (reply env) as [[complaint|err]|[|[|h tml]|]];
      try (run_monad; repeat split; reflexivity).
    destruct isRefinement; [destruct (currentAnalysis snap)|];
      run_monad;
      (case_storage storage0; repeat split; reflexivity).
  - apply handleGenerate_split, Ht.
Qed.

Lemma handleFileSelect_completion (snap : State) (env : FileEnv)
    (file : option File) (w : World) :
  fst (handleFileSelect snap env file w)
  = match file with
    | Some f =>
        if includes supportedTypes (type f) then
          match read env, transcription_reply env with
          | ReadOk _, Rejects (Nullish complaint) => Throw (TypeError complaint)
          | _, _ => Normal tt
          end
        else Normal tt
    | None => Normal tt
    end.
Proof.
  destruct file as [file|]; [|reflexivity].
  destruct (includes supportedTypes (type file)) eqn:Hsup;
    [|now rewrite handleFileSelect_rejected].
  destruct (read env) as [url|e] eqn:Hread.
  - destruct (transcription_reply env) as [[complaint|e]|t] eqn:Hreply.
    + now rewrite (handleFileSelect_threw snap env file w url complaint).
    + now rewrite (handleFileSelect_caught snap env file w e Hsup)
        by (right; now exists url).
    + rewrite (handleFileSelect_read snap env file w url t) by assumption.
      destruct (caught_generation snap (generation env) t (transcribed w file url t))
        as [[Hret ->] | (c & text & complaint & _ & _ & ->)];
        [exact Hret | reflexivity].
  - now rewrite (handleFileSelect_caught snap env file w e Hsup) by now left.
Qed.

(** Property X3.  The events that let an exception out.  Generate and a
    submitted refinement do when there is text to analyse and the call
    rejects with [undefined] or [null]; an upload does when the file is of
    a supported type, was read, and the transcription rejects with
    [undefined] or [null] (a generation that rejects so inside an upload is
    caught by the upload).  What leaves is the TypeError of reading
    [error.message].  Every other event, whatever the service answers,
    whether the file can be read, and whether the storage takes the
    library, returns normally. *)
Theorem events_that_throw :
  forall (ev : Event) (w : World),
    fst (step ev w)
    = match ev with
      | Generate env =>
          match textToAnalyze (app w) false None, reply env with
          | Some (_ :: _), Rejects (Nullish complaint) => Throw (TypeError complaint)
          | _, _ => Normal tt
          end
      | SubmitRefine env =>
          match textToAnalyze (app w) true None, reply env with
          | Some (_ :: _), Rejects (Nullish complaint) => Throw (TypeError complaint)
          | _, _ => Normal tt
          end
      | SelectFile env file =>
          if includes supportedTypes (type file) then
            match read env, transcription_reply env with
            | ReadOk _, Rejects (Nullish complaint) => Throw (TypeError complaint)
            | _, _ => Normal tt
            end
          else Normal tt
      | _ => Normal tt
      end.
Proof.
  intros ev w.
  destruct ev; cbn [step]; try reflexivity; unfold dispatch.
  - apply handleGenerate_completion.
  - apply (handleFileSelect_completion (app w) env (Some file) w).
  - destruct (nth_error (library (app w)) index); reflexivity.
  - unfold handleSaveChanges.
    destruct (currentAnalysis (app w)) as [r|]; [|reflexivity].
    destruct innerHTML as [html|]; [|reflexivity].
    open_world w. run_monad. case_storage storage0; reflexivity.
  - unfold handleDownloadHtml.
    destruct (currentAnalysis (app w)); reflexivity.
  - apply handleGenerate_completion.
Qed.

(** Property X4.  An upload whose transcription comes back empty (the
    empty string, or no text at all while the form of that render is empty)
    ends in the message box of the empty input, and the loading overlay
    stays on: [handleGenerate] returns before its [try], so nothing sets
    [isLoading] back to [false].  The transcription request is the only
    one sent; library, record in hand and storage are untouched. *)
Theorem empty_transcription_leaves_loading_on :
  forall (snap : State) (env : FileEnv) (file : File) (w : World)
         (url : jsstring) (transcription : option jsstring),
    In (type file) supportedTypes ->
    read env = ReadOk url ->
    transcription_reply env = Resolves transcription ->
    textToAnalyze snap false transcription = None
    \/ textToAnalyze snap false transcription = Some [] ->
    let result := handleFileSelect snap env (Some file) w in
    let w' := snd result in
    result
    = (Normal tt,
       alerted (transcribed w file url transcription)
         (lit "Please provide some text to analyze."))
    /\ isLoading (app w') = true
    /\ loadingQuote (app w') = lit "Transcribing your audio, one moment..."
    /\ sourceText (app w') = transcription
    /\ alerts w' = alerts w ++ [lit "Please provide some text to analyze."]
    /\ requests w' = requests w ++ [transcriptionRequest file (split_comma_1 url)]
    /\ library (app w') = library (app w)
    /\ currentAnalysis (app w') = currentAnalysis (app w)
    /\ storage w' = storage w.
Proof.
  intros snap env file w url t Hin Hread Hreply Hempty result w'. subst w' result.
  apply includes_In in Hin.
  rewrite (handleFileSelect_transcribed snap env file w url t); try assumption.
  2: now rewrite handleGenerate_no_text.
  rewrite handleGenerate_no_text by assumption.
  repeat split.
Qed.

(** Property X5.  An upload whose transcription resolves without text
    ([response.text] is [undefined]) while the form holds a text runs the
    generation on the text of the form: the record created has the text of
    the form as its [sourceText], and the form is left without text. *)
Theorem upload_without_text_analyses_the_form :
  forall (w : World) (env : FileEnv) (file : File) (url text html : jsstring),
    In (type file) supportedTypes ->
    read env = ReadOk url ->
    transcription_reply env = Resolves None ->
    sourceText (app w) = Some text ->
    text <> [] ->
    answers (generation env) = Some html ->
    let w' := exec (step (SelectFile env file)) w in
    currentAnalysis (app w') = Some (created (app w) text (generation env) html)
    /\ library (app w')
       = created (app w) text (generation env) html :: library (app w)
    /\ sourceText (app w') = None
    /\ requests w'
       = requests w
           ++ [transcriptionRequest file (split_comma_1 url);
               generationRequest (app w) false text].
Proof.
  intros w env file url text html Hin Hread Hreply Hsrc Hne Hans w'. subst w'.
  apply includes_In in Hin.
  cbn [step]. rewrite exec_dispatch. unfold exec.
  rewrite (handleFileSelect_transcribed (app w) env file w url None);
    try assumption.
  2: now apply (handleGenerate_answered_returns _ _ _ _ _ html).
  destruct (handleGenerate_created (app w) (generation env) false None
              (transcribed w file url None) text html
              Hsrc Hne Hans (or_introl eq_refl)) as (Happ & Hreq & _).
  unfold exec in Happ, Hreq. rewrite Happ, Hreq.
  cbn [currentAnalysis library sourceText transcribed requests app].
  rewrite <- app_assoc. repeat split.
Qed.

(** Property X6.  When the transcription call rejects with a value that
    has properties, [handleFileSelect] returns normally after one message
    box that carries the message of the error after a fixed prefix
    ([Please try again.] when the error has no message) and loading is off
    again.  When the call rejects with [undefined] or [null], reading
    [error.message] in the [catch] block throws: that TypeError leaves the
    handler, no message box is shown and loading stays on.  Either way the
    console gets one line, the one request has gone out and nothing else
    has changed: no analysis is requested, and the text of the form
    stays. *)
Theorem rejected_transcription_is_reported :
  forall (snap : State) (env : FileEnv) (file : File) (w : World)
         (url : jsstring) (e : Thrown),
    In (type file) supportedTypes ->
    read env = ReadOk url ->
    transcription_reply env = Rejects e ->
    let result := handleFileSelect snap env (Some file) w in
    let w' := snd result in
    match e with
    | Value err =>
        fst result = Normal tt
        /\ alerts w'
           = alerts w
               ++ [lit "An error occurred during transcription or analysis: "
                     ++ match message err with
                        | Some (c :: m) => c :: m
                        | _ => lit "Please try again."
                        end]
        /\ isLoading (app w') = false
    | Nullish complaint =>
        fst result = Throw (TypeError complaint)
        /\ alerts w' = alerts w
        /\ isLoading (app w') = true
    end
    /\ loadingQuote (app w') = lit "Transcribing your audio, one moment..."
    /\ console w' = console w ++ [lit "Error transcribing audio:"]
    /\ requests w' = requests w ++ [transcriptionRequest file (split_comma_1 url)]
    /\ sourceText (app w') = sourceText (app w)
    /\ library (app w') = library (app w)
    /\ currentAnalysis (app w') = currentAnalysis (app w)
    /\ view (app w') = view (app w)
    /\ storage w' = storage w.
Proof.
  intros snap env file w url e Hin Hread Hreply result w'. subst w' result.
  apply includes_In in Hin.
  destruct e as [complaint|err].
  - rewrite (handleFileSelect_threw snap env file w url complaint) by assumption.
    repeat split.
  - rewrite (handleFileSelect_caught snap env file w err Hin)
      by (right; now exists url).
    rewrite Hread. repeat split.
Qed.

(** Property X7.  [fileToBase64] on a data URL gives what stands after the
    first comma: for [header,payload] with no comma in either part it
    resolves with [payload], and so it does when a second comma and more
    text follow; on a result without a comma it resolves with [undefined];
    when the reader fails it rejects with the reader's error.  The state is
    not touched. *)
Theorem fileToBase64_strips_the_header :
  forall (header payload : jsstring) (w : World),
    ~ In 44%N header ->
    ~ In 44%N payload ->
    fileToBase64 (ReadOk (header ++ [44%N] ++ payload)) w = (Normal (Some payload), w)
    /\ (forall rest,
           fileToBase64 (ReadOk (header ++ [44%N] ++ payload ++ [44%N] ++ rest)) w
           = (Normal (Some payload), w))
    /\ fileToBase64 (ReadOk header) w = (Normal None, w)
    /\ (forall e, fileToBase64 (ReadError e) w = (Throw e, w)).
Proof.
  intros header payload w Hh Hp.
  destruct (until_comma_app payload [] Hp) as [Hu _].
  unfold fileToBase64, ret, throw. cbn [List.app].
  destruct (split_comma_1_app header payload Hh) as [Hnone Hsome].
  rewrite Hnone, Hsome, Hu.
  repeat split.
  intros rest.
  destruct (split_comma_1_app header (payload ++ 44%N :: rest) Hh) as [_ Hsome'].
  destruct (until_comma_app payload rest Hp) as [_ Hu'].
  now rewrite Hsome', Hu'.
Qed.

Lemma sameOrigin_refl (r : LibraryEntry.t) : Session.sameOrigin r r.
Proof. repeat split. Qed.

Lemma sameOrigin_trans (a b c : LibraryEntry.t) :
  Session.sameOrigin a b -> Session.sameOrigin b c -> Session.sameOrigin a c.
Proof.
  intros (A1 & A2 & A3 & A4 & A5 & A6) (B1 & B2 & B3 & B4 & B5 & B6).
  repeat split; congruence.
Qed.

(** Property X8.  Over any sequence of events that keep a record in hand
    (refinements, manual edits, typing, downloads), the record keeps its
    [id], [createdAt], [sourceText], [analysisLens], [customDirectives] and
    [visualTheme]; and as long as no refinement is answered, it keeps its
    [title] and its [refinementHistory] too: a manual edit never changes
    the title, whatever heading the edited HTML has. *)
Theorem record_origin_is_fixed :
  forall (evs : list Event) (w : World) (r : LibraryEntry.t),
    currentAnalysis (app w) = Some r ->
    forallb keepsRecord evs = true ->
    exists r',
      currentAnalysis (app (run evs w)) = Some r'
      /\ Session.sameOrigin r r'
      /\ (filter answered_event evs = [] ->
          LibraryEntry.title r' = LibraryEntry.title r
          /\ LibraryEntry.refinementHistory r' = LibraryEntry.refinementHistory r).
Proof.
  induction evs as [|ev evs IH]; intros w r Hcur Hkeep; cbn [run].
  - exists r. split; [exact Hcur|]. split; [apply sameOrigin_refl | auto].
  - cbn [forallb] in Hkeep. apply andb_true_iff in Hkeep as [Hk Hkeep].
    destruct (step_on_record ev w r Hk Hcur) as (r1 & Hcur1 & _ & Hcase).
    destruct (IH _ r1 Hcur1 Hkeep) as (r' & Hcur' & Horigin & Hquiet).
    exists r'. split; [exact Hcur'|].
    cbn [filter]. unfold answered_event at 1.
    destruct Hcase as [(-> & _ & _)
                      | (_ & [(html & _ & _ & Hans & ->) | (html & -> & ->)])].
    + split; [exact Horigin|].
      destruct (answers_of ev); [discriminate | exact Hquiet].
    + split; [eapply sameOrigin_trans; [|exact Horigin]; repeat split|].
      rewrite Hans. discriminate.
    + split; [eapply sameOrigin_trans; [|exact Horigin]; repeat split|].
      cbn [answers_of]. intros Hq. destruct (Hquiet Hq) as [Ht Hh].
      split; [exact Ht | exact Hh].
Qed.

Lemma replaceById_twice (r r1 r2 : LibraryEntry.t) (lib : list LibraryEntry.t) :
  LibraryEntry.id r1 = LibraryEntry.id r ->
  replaceById r1 r2 (replaceById r r1 lib) = replaceById r r2 lib.
Proof.
  intros Hid. unfold replaceById. rewrite map_map. apply map_ext.
  intros e. rewrite Hid.
  destruct (streq (LibraryEntry.id e) (LibraryEntry.id r)) eqn:E;
    [now rewrite Hid, streq_refl | now rewrite E].
Qed.

(** Property X9.  Of two manual edits saved one after the other, the
    second wins: the state of the component is the one that saving the
    second edit alone would have left.  The record in hand and its library
    entries hold the second HTML and keep every other field. *)
Theorem last_saved_edit_wins :
  forall (w : World) (r : LibraryEntry.t) (html1 html2 : jsstring),
    currentAnalysis (app w) = Some r ->
    app (run [SaveEdits (Some html1); SaveEdits (Some html2)] w)
    = app (run [SaveEdits (Some html2)] w)
    /\ currentAnalysis (app (run [SaveEdits (Some html1); SaveEdits (Some html2)] w))
       = Some (edited r html2)
    /\ library (app (run [SaveEdits (Some html1); SaveEdits (Some html2)] w))
       = replaceById r (edited r html2) (library (app w)).
Proof.
  intros w r html1 html2 Hcur. cbn [run step]. rewrite !exec_dispatch.
  destruct (handleSaveChanges_edited (app w) w r html1 Hcur) as (Happ1 & _).
  set (w1 := exec (handleSaveChanges (app w) (Some html1)) w) in *.
  assert (Hcur1 : currentAnalysis (app w1) = Some (edited r html1))
    by now rewrite Happ1.
  destruct (handleSaveChanges_edited (app w1) w1 _ html2 Hcur1) as (Happ2 & _).
  destruct (handleSaveChanges_edited (app w) w r html2 Hcur) as (Happ & _).
  rewrite Happ2, Happ, Happ1.
  cbn [view isLoading loadingQuote sourceText analysisLens customDirectives
       visualTheme library isSidebarOpen isRefineModalOpen refineDirectives
       currentAnalysis].
  rewrite (replaceById_twice r (edited r html1)) by reflexivity.
  repeat split.
Qed.

Lemma replaceById_same (r : LibraryEntry.t) (lib : list LibraryEntry.t) :
  (forall e, In e lib -> LibraryEntry.id e = LibraryEntry.id r -> e = r) ->
  replaceById r r lib = lib.
Proof.
  intros H. unfold replaceById. rewrite <- (map_id lib) at 2.
  apply map_ext_in. intros e He.
  destruct (streq (LibraryEntry.id e) (LibraryEntry.id r)) eqn:E; [|reflexivity].
  apply streq_eq in E. symmetry. now apply H.
Qed.

(** Property X10.  Saving the HTML that the record in hand already has
    changes nothing in the component, in a state where identifiers are
    distinct and the record in hand is in the library: the record, the
    library and the form are what they were.  The message box still says
    that the changes were saved, and the library is written to the storage
    again. *)
Theorem saving_the_stored_html_changes_nothing :
  forall (w : World) (r : LibraryEntry.t),
    currentAnalysis (app w) = Some r ->
    wellFormed (app w) ->
    let w' := exec (step (SaveEdits (Some (LibraryEntry.infographicHtml r)))) w in
    app w' = app w
    /\ alerts w' = alerts w ++ [lit "Changes saved to library."]
    /\ storage w' = stored (library (app w)) (storage w)
    /\ requests w' = requests w.
Proof.
  intros w r Hcur Hwf w'. subst w'. cbn [step]. rewrite exec_dispatch.
  destruct (handleSaveChanges_edited (app w) w r (LibraryEntry.infographicHtml r)
              Hcur) as (Happ & Hreq & Hal & _ & Hst).
  assert (Hsame : edited r (LibraryEntry.infographicHtml r) = r)
    by (destruct r; reflexivity).
  rewrite Hsame in Happ, Hst.
  rewrite replaceById_same in Happ, Hst
    by (intros e He Hid; now apply (wellFormed_same_id (app w))).
  rewrite Happ, Hal, Hst, Hreq, <- Hcur.
  repeat split. destruct (app w); reflexivity.
Qed.

(** Property X11.  In a browser whose storage can be read and takes any
    text, the stored library follows the library in memory: after any
    sequence of events from the opening of the page, opening the page again
    loads exactly the library that the component has in memory. *)
Theorem reload_restores_the_library :
  forall (st : Storage) (evs : list Event),
    Session.roomy st ->
    fst (mount st) = Normal LoadDone ->
    let w := run evs (Session.opened st) in
    fst (mount (storage w)) = Normal LoadDone
    /\ library (app (Session.opened (storage w))) = library (app w)
    /\ Session.roomy (storage w).
Proof.
  intros st evs Hroomy Hload w. subst w.
  destruct (mount_opened st) as (Hst & _).
  destruct (reloads_run evs (Session.opened st)) as [Hr [Hm Hl]].
  - now rewrite Hst.
  - unfold Session.reloads. rewrite Hst. split; [exact Hload | reflexivity].
  - split; [exact Hm | split; [exact Hl | exact Hr]].
Qed.

(** Property X12.  After any sequence of events from the opening of the
    page (on a storage whose item, if any, is a library), the record in
    hand, if there is one, is one of the records of the library. *)
Theorem record_in_hand_is_in_the_library :
  forall (st : Storage) (evs : list Event) (r : LibraryEntry.t),
    fst (mount st) = Normal LoadDone ->
    currentAnalysis (app (run evs (Session.opened st))) = Some r ->
    In r (library (app (run evs (Session.opened st)))).
Proof.
  intros st evs r _ Hcur.
  destruct (coherent_run evs _ (coherent_opened st)) as (Hin & _).
  now apply Hin.
Qed.

(** Property X13.  From the opening of the page (on a storage whose item,
    if any, is a library): (1) in a session in which every call settles
    before the next event, [<main>] shows the welcome form, and then no
    record is in hand, or the infographic screen of the record in hand;
    (2) whatever is done and whichever calls settle in whichever order,
    [<main>] is never empty: it shows the welcome form or the infographic
    screen of the record in hand; (3) but the welcome form can then be
    showing while a record is in hand: New Analysis pressed while a
    refinement is in flight, and the answer puts the refined record in
    hand under the welcome form. *)
Theorem main_screen_matches_the_record_in_hand :
  forall (st : Storage),
    fst (mount st) = Normal LoadDone ->
    (forall (evs : list Event),
        let s := app (Async.world (Async.run (Async.oneAtATime evs) (Async.opened st))) in
        match Render.mainScreen s with
        | Render.WelcomeScreen => view s = welcome /\ currentAnalysis s = None
        | Render.InfographicScreen r =>
            view s = infographic /\ currentAnalysis s = Some r
        | Render.NoScreen => False
        end)
    /\ (forall (actions : list Async.Action),
           let s := app (Async.world (Async.run actions (Async.opened st))) in
           match Render.mainScreen s with
           | Render.WelcomeScreen => view s = welcome
           | Render.InfographicScreen r =>
               view s = infographic /\ currentAnalysis s = Some r
           | Render.NoScreen => False
           end)
    /\ (let s := app (Async.world (Async.run Cases.leftWhileRefining
                                     (Async.opened emptyStorage))) in
        Render.mainScreen s = Render.WelcomeScreen
        /\ option_map LibraryEntry.refinementHistory (currentAnalysis s)
           = Some [lit "add a table"]
        /\ sourceText s = Some []).
Proof.
  intros st _. split; [|split].
  - intros evs s. subst s. unfold Async.opened.
    rewrite one_at_a_time_run. cbn [Async.world].
    change (snd (mount st)) with (Session.opened st).
    destruct (coherent_run evs _ (coherent_opened st)) as (_ & Hw & Hi).
    unfold Render.mainScreen.
    destruct (view (app (run evs (Session.opened st)))).
    + split; [reflexivity | now apply Hw].
    + destruct (currentAnalysis (app (run evs (Session.opened st)))) as [r|];
        [split; reflexivity|].
      now apply Hi.
  - intros actions s. subst s.
    assert (Hinv : view (app (Async.world (Async.run actions (Async.opened st))))
                   = infographic ->
                   currentAnalysis
                     (app (Async.world (Async.run actions (Async.opened st))))
                   <> None).
    { apply (async_invariant
               (fun s => view s = infographic -> currentAnalysis s <> None)).
      - intros ev w Hw.
        destruct (begin_outcome ev w) as [-> | (_ & -> & -> & _)]; [|exact Hw].
        destruct (step_outcome ev w)
          as [(_ & _ & [[-> ->] | [[-> ->] | (e & _ & -> & _)]])
             | [(e & _ & -> & _) | (r & r' & _ & -> & _)]];
          try discriminate; auto.
      - intros c w Hw.
        destruct (resume_outcome c w)
          as [(_ & -> & -> & _) | [(e & _ & -> & _) | (r & r' & _ & -> & _)]];
          try discriminate; auto.
      - destruct (mount_opened st) as (_ & Hcur & Hview).
        unfold Async.opened. cbn [Async.world].
        change (snd (mount st)) with (Session.opened st).
        rewrite Hview. discriminate. }
    revert Hinv. unfold Render.mainScreen.
    destruct (view (app (Async.world (Async.run actions (Async.opened st)))));
      [reflexivity|].
    destruct (currentAnalysis
                (app (Async.world (Async.run actions (Async.opened st))))) as [r|];
      [split; reflexivity|].
    intros H. now apply H.
  - vm_compute. repeat split.
Qed.

(** Property X14.  Two generations started from the same render (the
    second before the first has answered) and answered one after the other:
    each builds the new library from the library of that render, so the
    second answer overwrites the first.  At the end the library is the
    second record in front of the library of the render, without the first
    record, and the storage has been written twice. *)
Theorem second_answer_overwrites_the_first :
  forall (snap : State) (env1 env2 : GenEnv) (w : World)
         (text html1 html2 : jsstring),
    sourceText snap = Some text ->
    text <> [] ->
    answers env1 = Some html1 ->
    answers env2 = Some html2 ->
    let w1 := exec (handleGenerate snap env1 false None) w in
    let w2 := exec (handleGenerate snap env2 false None) w1 in
    library (app w1) = created snap text env1 html1 :: library snap
    /\ library (app w2) = created snap text env2 html2 :: library snap
    /\ currentAnalysis (app w2) = Some (created snap text env2 html2)
    /\ storage w2
       = stored (created snap text env2 html2 :: library snap)
           (stored (created snap text env1 html1 :: library snap) (storage w))
    /\ requests w2
       = requests w ++ [generationRequest snap false text;
                        generationRequest snap false text].
Proof.
  intros snap env1 env2 w text html1 html2 Hsrc Hne H1 H2 w1 w2. subst w2 w1.
  destruct (handleGenerate_created snap env1 false None w text html1
              Hsrc Hne H1 (or_introl eq_refl)) as (Happ1 & Hreq1 & _ & _ & Hst1).
  set (w1 := exec (handleGenerate snap env1 false None) w) in *.
  destruct (handleGenerate_created snap env2 false None w1 text html2
              Hsrc Hne H2 (or_introl eq_refl)) as (Happ2 & Hreq2 & _ & _ & Hst2).
  rewrite Happ2, Hreq2, Hst2, Happ1, Hreq1, Hst1, <- app_assoc.
  repeat split.
Qed.

(** Property X15.  The request of a refinement is made of the lens and
    the theme of the form, the directive of the dialog and the [sourceText]
    of the record in hand, and of nothing else: two states that agree on
    these send the same request, whatever the HTML, the title, the history
    and the original directives of their records are, and whatever the
    service then answers. *)
Theorem refinement_request_ignores_earlier_output :
  forall (w1 w2 : World) (r1 r2 : LibraryEntry.t) (env1 env2 : GenEnv),
    currentAnalysis (app w1) = Some r1 ->
    currentAnalysis (app w2) = Some r2 ->
    LibraryEntry.sourceText r1 = LibraryEntry.sourceText r2 ->
    analysisLens (app w1) = analysisLens (app w2) ->
    visualTheme (app w1) = visualTheme (app w2) ->
    refineDirectives (app w1) = refineDirectives (app w2) ->
    requests w1 = requests w2 ->
    requests (exec (step (SubmitRefine env1)) w1)
    = requests (exec (step (SubmitRefine env2)) w2).
Proof.
  intros w1 w2 r1 r2 env1 env2 Hc1 Hc2 Hsrc Hlens Htheme Hdir Hreq.
  destruct (step_on_record (SubmitRefine env1) w1 r1 eq_refl Hc1)
    as (_ & _ & H1 & _).
  destruct (step_on_record (SubmitRefine env2) w2 r2 eq_refl Hc2)
    as (_ & _ & H2 & _).
  rewrite H1, H2. cbn [isSubmitRefine andb].
  unfold generationRequest. now rewrite Hsrc, Hlens, Htheme, Hdir, Hreq.
Qed.

(** Property X16.  Picking a stored record puts it in hand and copies its
    text, lens, directives and theme into the form; New Analysis after it
    empties the text and the directives and drops the record, and leaves
    the lens and the theme of that record selected in the form.  Neither
    changes the library or the storage, and an index outside the library
    picks nothing. *)
Theorem load_then_new_analysis :
  forall (w : World) (index : nat),
    let w1 := exec (step (LoadFromLibrary index)) w in
    let w2 := exec (step NewAnalysis) w1 in
    match nth_error (library (app w)) index with
    | Some e =>
        app w1
        = mkState infographic (isLoading (app w)) (loadingQuote (app w)) (Some e)
            (Some (LibraryEntry.sourceText e)) (LibraryEntry.analysisLens e)
            (LibraryEntry.customDirectives e) (LibraryEntry.visualTheme e)
            (library (app w)) false (isRefineModalOpen (app w))
            (refineDirectives (app w))
        /\ app w2
           = mkState welcome (isLoading (app w)) (loadingQuote (app w)) None
               (Some []) (LibraryEntry.analysisLens e) []
               (LibraryEntry.visualTheme e) (library (app w)) false
               (isRefineModalOpen (app w)) (refineDirectives (app w))
    | None => w1 = w
    end
    /\ storage w2 = storage w
    /\ library (app w2) = library (app w)
    /\ requests w2 = requests w.
Proof.
  intros w index w1 w2. subst w2 w1. cbn [step]. rewrite exec_dispatch.
  destruct (nth_error (library (app w)) index) as [e|];
    open_world w; run_monad; repeat split.
Qed.

(** Property X17.  A download after Save Edits offers the HTML that was
    just saved, as a blob of UTF-8 bytes in which a surrogate that stands
    without its partner has become U+FFFD: read back, the content is the
    saved HTML exactly when that HTML is well formed.  The name that the
    anchor suggests is made from the title of the record, which the edit
    has not changed. *)
Theorem download_after_save_offers_the_edit :
  forall (w : World) (r : LibraryEntry.t) (html : jsstring),
    currentAnalysis (app w) = Some r ->
    Blob.codeUnits html ->
    exists d,
      downloads (run [SaveEdits (Some html); DownloadHtml] w) = downloads w ++ [d]
      /\ download_name d = RegExp.replace_spaces (LibraryEntry.title r) ++ lit ".html"
      /\ blob_type d = lit "text/html"
      /\ blob_content d = flat_map Blob.utf8 (Blob.scalarValues html)
      /\ Blob.text (blob_content d)
         = Some (flat_map Blob.utf16 (Blob.scalarValues html))
      /\ (Blob.text (blob_content d) = Some html <-> Blob.isWellFormed html = true).
Proof.
  intros w r html Hcur Hunits. cbn [run step]. rewrite !exec_dispatch.
  destruct (handleSaveChanges_edited (app w) w r html Hcur)
    as (Happ & _ & _ & Hdl & _).
  set (w1 := exec (handleSaveChanges (app w) (Some html)) w) in *.
  unfold handleDownloadHtml, downloadName. rewrite Happ. cbn [currentAnalysis].
  rewrite <- Hdl. unfold edited. cbn [LibraryEntry.title LibraryEntry.infographicHtml].
  eexists. split; [destruct w1; reflexivity|].
  cbn [download_name blob_type blob_content].
  split; [reflexivity|]. split; [reflexivity|]. split; [reflexivity|].
  split; [now apply BlobFacts.text_bytes | now apply BlobFacts.text_bytes_back].
Qed.

(* ================================================================== *)
(** * Facts about the search of the sidebar *)
(* ================================================================== *)

Lemma startsWith_spec (s search : jsstring) :
  startsWith s search = true <-> exists post, s = search ++ post.
Proof.
  revert s. induction search as [|c search IH]; intros s; cbn [startsWith].
  - split; [intros _; now exists s | reflexivity].
  - destruct s as [|d s].
    + split; [discriminate | intros [post H]; discriminate H].
    + rewrite andb_true_iff, N.eqb_eq, IH. split.
      * intros [-> [post ->]]. now exists post.
      * intros [post H]. injection H as -> ->. split; [reflexivity | now exists post].
Qed.

Lemma String_includes_spec (s search : jsstring) :
  String_includes s search = true
  <-> exists pre post, s = pre ++ search ++ post.
Proof.
  induction s as [|d s IH]; cbn [String_includes];
    rewrite orb_true_iff, startsWith_spec.
  - split.
    + intros [[post H] | H]; [now exists [], post | discriminate H].
    + intros (pre & post & H). left.
      destruct pre; [now exists post | discriminate H].
  - rewrite IH. split.
    + intros [[post H] | (pre & post & ->)];
        [now exists [], post | now exists (d :: pre), post].
    + intros (pre & post & H). destruct pre as [|x pre].
      * left. now exists post.
      * right. injection H as _ ->. now exists pre, post.
Qed.

Lemma String_includes_refl (s : jsstring) : String_includes s s = true.
Proof. apply String_includes_spec. exists [], []. now rewrite app_nil_r. Qed.

Lemma String_includes_trans (a b c : jsstring) :
  String_includes a b = true ->
  String_includes b c = true ->
  String_includes a c = true.
Proof.
  rewrite !String_includes_spec.
  intros (p1 & q1 & ->) (p2 & q2 & ->).
  exists (p1 ++ p2), (q2 ++ q1). now rewrite <- !app_assoc.
Qed.

Lemma filteredLibrary_In (toLowerCase : jsstring -> jsstring)
    (searchTerm : jsstring) (lib : list LibraryEntry.t) (e : LibraryEntry.t) :
  In e (Sidebar.filteredLibrary toLowerCase searchTerm lib)
  <-> In e lib
      /\ (searchTerm = [] \/ Sidebar.matches toLowerCase searchTerm e = true).
Proof.
  unfold Sidebar.filteredLibrary. destruct searchTerm as [|c t]; cbn [nonempty].
  - split; [intros H; split; auto | now intros [H _]].
  - rewrite filter_In. split.
    + intros [H1 H2]. auto.
    + intros [H1 [H2 | H2]]; [discriminate H2 | auto].
Qed.

Lemma NoDup_map_filter {A B : Type} (f : A -> B) (keep : A -> bool) (l : list A) :
  NoDup (map f l) -> NoDup (map f (filter keep l)).
Proof.
  induction l as [|a l IH]; cbn [map filter]; intros H; [exact H|].
  inversion H as [|? ? Hnot Hnd]; subst.
  destruct (keep a); [|now apply IH].
  cbn [map]. constructor; [|now apply IH].
  intros Hin. apply Hnot.
  apply in_map_iff in Hin as (x & Hx & Hin). apply filter_In in Hin as [Hin _].
  rewrite <- Hx. now apply in_map.
Qed.

(** Property X18.  The search of the sidebar, whatever [toLowerCase] does:
    with an empty search term the list is the whole library; otherwise the
    list holds exactly the records of the library whose lower-cased title
    or source text contains the lower-cased term, in the order of the
    library; a record is always found by its own title and by its own
    source text; and when the identifiers of the library are distinct, so
    are those of the list (they are the keys of the list items). *)
Theorem search_lists_the_matching_records :
  forall (toLowerCase : jsstring -> jsstring) (searchTerm : jsstring)
         (lib : list LibraryEntry.t),
    Sidebar.filteredLibrary toLowerCase [] lib = lib
    /\ (forall e,
           In e (Sidebar.filteredLibrary toLowerCase searchTerm lib)
           <-> In e lib
               /\ (searchTerm = []
                   \/ String_includes (toLowerCase (LibraryEntry.title e))
                        (toLowerCase searchTerm) = true
                   \/ String_includes
                        (toLowerCase (LibraryEntry.sourceText e))
                        (toLowerCase searchTerm) = true))
    /\ (exists keep, Sidebar.filteredLibrary toLowerCase searchTerm lib
                     = filter keep lib)
    /\ (forall e, In e lib ->
           In e (Sidebar.filteredLibrary toLowerCase (LibraryEntry.title e) lib)
           /\ In e (Sidebar.filteredLibrary toLowerCase
                      (LibraryEntry.sourceText e) lib))
    /\ (NoDup (map LibraryEntry.id lib) ->
        NoDup (map LibraryEntry.id
                 (Sidebar.filteredLibrary toLowerCase searchTerm lib))).
Proof.
  intros toLowerCase searchTerm lib.
  split; [reflexivity|]. split; [|split; [|split]].
  - intros e. rewrite filteredLibrary_In. unfold Sidebar.matches.
    rewrite orb_true_iff. reflexivity.
  - unfold Sidebar.filteredLibrary. destruct (nonempty searchTerm).
    + now exists (Sidebar.matches toLowerCase searchTerm).
    + exists (fun _ => true). symmetry. apply forallb_filter_id.
      apply forallb_forall. reflexivity.
  - intros e He. split; apply filteredLibrary_In; (split; [exact He|]); right;
      unfold Sidebar.matches; rewrite String_includes_refl;
      [reflexivity | apply orb_true_r].
  - intros Hnd. unfold Sidebar.filteredLibrary.
    destruct (nonempty searchTerm); [now apply NoDup_map_filter | exact Hnd].
Qed.

(** Property X19.  Typing more narrows the search: when the lower-cased
    longer term contains the lower-cased shorter one, every record listed
    for the longer term is listed for the shorter one.  And two terms with
    the same lower case list the same records: the search does not see the
    case of the term. *)
Theorem longer_search_term_narrows :
  forall (toLowerCase : jsstring -> jsstring) (shorter longer : jsstring)
         (lib : list LibraryEntry.t),
    longer <> [] ->
    String_includes (toLowerCase longer) (toLowerCase shorter) = true ->
    (forall e,
        In e (Sidebar.filteredLibrary toLowerCase longer lib) ->
        In e (Sidebar.filteredLibrary toLowerCase shorter lib))
    /\ (shorter <> [] ->
        toLowerCase shorter = toLowerCase longer ->
        Sidebar.filteredLibrary toLowerCase shorter lib
        = Sidebar.filteredLibrary toLowerCase longer lib).
Proof.
  intros toLowerCase shorter longer lib Hne Hinc. split.
  - intros e. rewrite !filteredLibrary_In.
    intros [He [Hl | Hm]]; [contradiction|]. split; [exact He|]. right.
    unfold Sidebar.matches in *. apply orb_true_iff in Hm. apply orb_true_iff.
    destruct Hm as [Hm | Hm]; [left | right];
      now apply (String_includes_trans _ (toLowerCase longer)).
  - intros Hs Heq. unfold Sidebar.filteredLibrary.
    destruct shorter; [contradiction|]. destruct longer; [contradiction|].
    cbn [nonempty]. apply filter_ext. intros e. unfold Sidebar.matches.
    now rewrite Heq.
Qed.

(* ================================================================== *)
(** * More facts about the title *)
(* ================================================================== *)

Lemma after_gt_app (attrs body : jsstring) :
  ~ In 62%N attrs -> Spec.after_gt (attrs ++ 62%N :: body) = Some body.
Proof.
  induction attrs as [|c attrs IH]; intros Hno; cbn [List.app Spec.after_gt].
  - reflexivity.
  - destruct (c =? 62)%N eqn:E.
    + apply N.eqb_eq in E. subst c. exfalso. apply Hno. now left.
    + apply IH. intros H. apply Hno. now right.
Qed.

Lemma startsWith_tail (c : N) (s search : jsstring) :
  String_includes (c :: s) search = false ->
  startsWith (c :: s) search = false /\ String_includes s search = false.
Proof. cbn [String_includes]. apply orb_false_iff. Qed.

(** Where an opening tag stands, [<h1] or [<H1] stands. *)
Lemma after_h1_open_includes (p q : jsstring) :
  Spec.after_h1_open q <> None ->
  String_includes (p ++ q) (lit "<h1") = true
  \/ String_includes (p ++ q) (lit "<H1") = true.
Proof.
  intros H. destruct q as [|a [|b [|c r]]]; try (now contradiction H).
  cbn [Spec.after_h1_open] in H.
  destruct (a =? 60)%N eqn:Ea; [|now contradiction H].
  destruct (c =? 49)%N eqn:Ec;
    [|rewrite andb_false_r in H; now contradiction H].
  apply N.eqb_eq in Ea, Ec. subst a c.
  destruct (b =? 104)%N eqn:Eb.
  - left. apply N.eqb_eq in Eb. subst b.
    apply String_includes_spec. now exists p, r.
  - destruct (b =? 72)%N eqn:Eb'; [|now contradiction H].
    right. apply N.eqb_eq in Eb'. subst b.
    apply String_includes_spec. now exists p, r.
Qed.

(** Where a closing tag stands, [</h1>] or [</H1>] stands. *)
Lemma is_h1_close_includes (p q : jsstring) :
  Spec.is_h1_close q = true ->
  String_includes (p ++ q) (lit "</h1>") = true
  \/ String_includes (p ++ q) (lit "</H1>") = true.
Proof.
  intros H. destruct q as [|a [|b [|c [|d [|e r]]]]]; try discriminate H.
  cbn [Spec.is_h1_close] in H.
  destruct (a =? 60)%N eqn:Ea; [|discriminate H].
  destruct (b =? 47)%N eqn:Eb; [|discriminate H].
  destruct (d =? 49)%N eqn:Ed;
    [|rewrite andb_false_r in H; discriminate H].
  destruct (e =? 62)%N eqn:Ee;
    [|rewrite andb_false_r in H; discriminate H].
  apply N.eqb_eq in Ea, Eb, Ed, Ee. subst a b d e.
  destruct (c =? 104)%N eqn:Ec.
  - left. apply N.eqb_eq in Ec. subst c.
    apply String_includes_spec. now exists p, r.
  - destruct (c =? 72)%N eqn:Ec'; [|discriminate H].
    right. apply N.eqb_eq in Ec'. subst c.
    apply String_includes_spec. now exists p, r.
Qed.

(** Before the heading: no place of [pre] is the start of an opening tag,
    also when the text that follows begins with [<]. *)
Lemma no_open_before (pre rest : jsstring) :
  String_includes pre (lit "<h1") = false ->
  String_includes pre (lit "<H1") = false ->
  forall p q, pre = p ++ q -> q <> [] ->
              Spec.after_h1_open (q ++ 60%N :: rest) = None.
Proof.
  intros Hl Hu p q -> Hq.
  destruct q as [|a [|b [|c r]]]; [contradiction | | |].
  - cbn [List.app Spec.after_h1_open]. destruct rest as [|x rest]; [reflexivity|].
    destruct (a =? 60)%N; reflexivity.
  - cbn [List.app Spec.after_h1_open].
    destruct (a =? 60)%N, ((b =? 104)%N || (b =? 72)%N); reflexivity.
  - destruct (Spec.after_h1_open ((a :: b :: c :: r) ++ 60%N :: rest)) eqn:E;
      [|reflexivity].
    exfalso.
    assert (Hopen : Spec.after_h1_open (a :: b :: c :: r) <> None).
    { cbn [List.app Spec.after_h1_open] in E. cbn [Spec.after_h1_open].
      destruct ((a =? 60)%N && ((b =? 104)%N || (b =? 72)%N) && (c =? 49)%N);
        discriminate. }
    destruct (after_h1_open_includes p _ Hopen) as [H | H]; congruence.
Qed.

Lemma exec_skip (pre s : jsstring) :
  (forall p q, pre = p ++ q -> q <> [] -> Spec.after_h1_open (q ++ s) = None) ->
  RegExp.exec RegExp.h1_pattern (pre ++ s) = RegExp.exec RegExp.h1_pattern s.
Proof.
  induction pre as [|c pre IH]; intros H; [reflexivity|].
  cbn [List.app RegExp.exec]. rewrite TitleFacts.match_h1.
  change (c :: pre ++ s) with ((c :: pre) ++ s).
  rewrite (H [] (c :: pre)) by (reflexivity || discriminate).
  apply IH. intros p q -> Hq. now apply (H (c :: p) q).
Qed.

(** Inside the heading: no place of [content] is the start of a closing
    tag, also when the text that follows begins with [</h1>]. *)
Lemma no_close_inside (q post : jsstring) (h : N) :
  q <> [] ->
  startsWith q (lit "</h1>") = false ->
  startsWith q (lit "</H1>") = false ->
  Spec.is_h1_close (q ++ [60; 47; h; 49; 62]%N ++ post) = false.
Proof.
  intros Hq Hl Hu.
  change (lit "</h1>") with [60; 47; 104; 49; 62]%N in Hl.
  change (lit "</H1>") with [60; 47; 72; 49; 62]%N in Hu.
  destruct q as [|a [|b [|c [|d [|e r]]]]]; [contradiction | | | | |];
    cbn [List.app Spec.is_h1_close startsWith] in *.
  - destruct (a =? 60)%N; reflexivity.
  - destruct (a =? 60)%N, (b =? 47)%N; reflexivity.
  - destruct (a =? 60)%N, (b =? 47)%N, ((c =? 104)%N || (c =? 72)%N); reflexivity.
  - destruct (a =? 60)%N, (b =? 47)%N, ((c =? 104)%N || (c =? 72)%N), (d =? 49)%N;
      reflexivity.
  - destruct (a =? 60)%N, (b =? 47)%N, (c =? 104)%N, (c =? 72)%N, (d =? 49)%N,
      (e =? 62)%N; cbn in *; congruence.
Qed.

Lemma line_before_close_app (content post : jsstring) (h : N) :
  h = 104%N \/ h = 72%N ->
  String_includes content (lit "</h1>") = false ->
  String_includes content (lit "</H1>") = false ->
  Forall (fun c => RegExp.is_line_terminator c = false) content ->
  TitlePattern.line_before_close (content ++ [60; 47; h; 49; 62]%N ++ post)
  = Some content.
Proof.
  intros Hh Hl Hu Hline.
  induction Hline as [|c content Hc _ IH].
  - cbn [List.app TitlePattern.line_before_close Spec.is_h1_close].
    destruct Hh as [-> | ->]; reflexivity.
  - destruct (startsWith_tail _ _ _ Hl) as [Hl1 Hl2].
    destruct (startsWith_tail _ _ _ Hu) as [Hu1 Hu2].
    pose proof (no_close_inside (c :: content) post h ltac:(discriminate) Hl1 Hu1)
      as Hclose.
    change ((c :: content) ++ [60; 47; h; 49; 62]%N ++ post)
      with (c :: (content ++ [60; 47; h; 49; 62]%N ++ post)) in *.
    cbn [TitlePattern.line_before_close]. rewrite Hclose.
    unfold RegExp.dot. rewrite Hc. cbn [negb].
    now rewrite (IH Hl2 Hu2).
Qed.

Lemma exec_here (s content : jsstring) :
  RegExp.match_here RegExp.h1_pattern s RegExp.no_capture
  = Some (RegExp.mkCapture false (rev content)) ->
  RegExp.exec RegExp.h1_pattern s = Some content.
Proof.
  intros H. destruct s; cbn [RegExp.exec]; rewrite H; cbn [RegExp.taken];
    now rewrite rev_involutive.
Qed.

(** Property X20.  The title that [handleGenerate] takes from a response.
    (1) When the first [<h1] of the response (in either case, with any
    attributes up to the next [>]) is followed by a text without line
    break and then by [</h1>], the title is that text, tags inside it
    included, whatever stands before the heading and after it.  (2) When
    the response has no [</h1>] at all, the title is [Untitled Analysis]. *)
Theorem title_is_the_content_of_the_first_heading :
  (forall (pre attrs content post : jsstring) (h h' : N),
      String_includes pre (lit "<h1") = false ->
      String_includes pre (lit "<H1") = false ->
      h = 104%N \/ h = 72%N ->
      h' = 104%N \/ h' = 72%N ->
      ~ In 62%N attrs ->
      String_includes content (lit "</h1>") = false ->
      String_includes content (lit "</H1>") = false ->
      Forall (fun c => RegExp.is_line_terminator c = false) content ->
      extractTitle (pre ++ [60; h; 49]%N ++ attrs ++ [62%N] ++ content
                      ++ [60; 47; h'; 49; 62]%N ++ post)
      = content)
  /\ (forall (html : jsstring),
         String_includes html (lit "</h1>") = false ->
         String_includes html (lit "</H1>") = false ->
         extractTitle html = lit "Untitled Analysis").
Proof.
  split.
  - intros pre attrs content post h h' Hpl Hpu Hh Hh' Hattrs Hcl Hcu Hline.
    unfold extractTitle.
    change ([60; h; 49]%N ++ attrs ++ [62%N] ++ content
              ++ [60; 47; h'; 49; 62]%N ++ post)
      with (60%N :: [h; 49%N] ++ attrs ++ 62%N :: content
              ++ [60; 47; h'; 49; 62]%N ++ post).
    rewrite exec_skip by (apply no_open_before; assumption).
    rewrite (exec_here _ content); [reflexivity|].
    rewrite TitleFacts.match_h1.
    replace (Spec.after_h1_open
               (60%N :: [h; 49%N] ++ attrs ++ 62%N :: content
                  ++ [60; 47; h'; 49; 62]%N ++ post))
      with (Some (attrs ++ 62%N :: content ++ [60; 47; h'; 49; 62]%N ++ post))
      by (cbn [List.app Spec.after_h1_open]; destruct Hh as [-> | ->]; reflexivity).
    rewrite (after_gt_app attrs) by exact Hattrs.
    now rewrite line_before_close_app by assumption.
  - intros html Hl Hu. unfold extractTitle.
    rewrite TitleFacts.exec_none; [reflexivity|].
    intros pre0 t ->. rewrite TitleFacts.match_h1.
    destruct (Spec.after_h1_open t) as [r|] eqn:Hopen; [|reflexivity].
    destruct (Spec.after_gt r) as [body|] eqn:Hgt; [|reflexivity].
    destruct (TitlePattern.line_before_close body) as [content|] eqn:Hc;
      [|reflexivity].
    exfalso.
    destruct (TitleFacts.line_before_close_some _ _ Hc) as (p & q & -> & Hq).
    destruct (TitleFacts.after_h1_open_is_suffix _ _ Hopen) as (a & b & c & ->).
    destruct (TitleFacts.after_gt_is_suffix _ _ Hgt) as [x ->].
    destruct (is_h1_close_includes (pre0 ++ a :: b :: c :: x ++ p) q Hq) as [H | H];
      rewrite <- app_assoc in H; cbn [List.app] in H; rewrite <- app_assoc in H;
      congruence.
Qed.

(* ================================================================== *)
(** * Facts about [toISOString] *)
(* ================================================================== *)

Module DateFacts.

Local Open Scope Z_scope.

Lemma civil_from_days_spec (days : Z) :
  exists era doe yoe doy mp,
    days + 719468 = era * 146097 + doe
    /\ 0 <= doe <= 146096
    /\ 0 <= yoe <= 399
    /\ 0 <= doy <= 365
    /\ 0 <= mp <= 11
    /\ doe = doy + 365 * yoe + yoe / 4 - yoe / 100
    /\ 1 <= doy - (153 * mp + 2) / 5 + 1 <= 31
    /\ mp = (5 * doy + 2) / 153
    /\ JsDate.civil_from_days days
       = (yoe + era * 400 + (if (if mp <? 10 then mp + 3 else mp - 9) <=? 2 then 1 else 0),
          (if mp <? 10 then mp + 3 else mp - 9),
          doy - (153 * mp + 2) / 5 + 1).
Proof.
  unfold JsDate.civil_from_days. cbv zeta.
  set (z := days + 719468).
  set (era := z / 146097).
  set (doe := z - era * 146097).
  set (yoe := (doe - doe / 1460 + doe / 36524 - doe / 146096) / 365).
  set (doy := doe - (365 * yoe + yoe / 4 - yoe / 100)).
  set (mp := (5 * doy + 2) / 153).
  assert (Hdoe : 0 <= doe <= 146096)
    by (subst doe era; Z.div_mod_to_equations; lia).
  assert (Hyoe : 0 <= yoe <= 399)
    by (subst yoe; clearbody doe; Z.div_mod_to_equations; lia).
  assert (Hdoy : 0 <= doy <= 365)
    by (subst doy yoe; clearbody doe; Z.div_mod_to_equations; lia).
  assert (Hmp : 0 <= mp <= 11)
    by (subst mp; clearbody doy; Z.div_mod_to_equations; lia).
  assert (Hd : 1 <= doy - (153 * mp + 2) / 5 + 1 <= 31)
    by (subst mp; clearbody doy; Z.div_mod_to_equations; lia).
  exists era, doe, yoe, doy, mp.
  repeat split; try lia.
Qed.

Lemma civil_from_days_inj (a b : Z) :
  JsDate.civil_from_days a = JsDate.civil_from_days b -> a = b.
Proof.
  destruct (civil_from_days_spec a)
    as (era & doe & yoe & doy & mp & Hz & Hdoe & Hyoe & Hdoy & Hmp & Edoe & Hd & Emp & ->).
  destruct (civil_from_days_spec b)
    as (era' & doe' & yoe' & doy' & mp' & Hz' & Hdoe' & Hyoe' & Hdoy' & Hmp' & Edoe' & Hd' & Emp' & ->).
  intros H. injection H as Hy Hm Hday.
  assert (Emp_eq : mp' = mp).
  { destruct (Z.ltb_spec mp 10), (Z.ltb_spec mp' 10); lia. }
  rewrite Emp_eq in *.
  assert (Edoy : doy' = doy) by lia. rewrite Edoy in *.
  assert (Eera : era' = era)
    by (destruct ((if mp <? 10 then mp + 3 else mp - 9) <=? 2); lia).
  rewrite Eera in *.
  assert (Eyoe : yoe' = yoe) by lia.
  rewrite Eyoe in *. lia.
Qed.

Lemma civil_from_days_year (days : Z) :
  0 <= days < 2932897 ->
  1970 <= fst (fst (JsDate.civil_from_days days)) <= 9999.
Proof.
  intros Hrange.
  destruct (civil_from_days_spec days)
    as (era & doe & yoe & doy & mp & Hz & Hdoe & Hyoe & Hdoy & Hmp & Edoe & Hd
        & Emp & ->).
  cbn [fst].
  assert (Hera : 4 <= era <= 24) by lia.
  destruct (Z.ltb_spec mp 10) as [Hlt | Hge].
  - destruct (Z.leb_spec (mp + 3) 2); [lia|].
    assert (era = 4 -> 370 <= yoe) by (Z.div_mod_to_equations; lia).
    lia.
  - destruct (Z.leb_spec (mp - 9) 2); [|lia].
    assert (era = 24 -> yoe <= 398) by (Z.div_mod_to_equations; lia).
    assert (era = 4 -> 369 <= yoe) by (Z.div_mod_to_equations; lia).
    lia.
Qed.

Lemma civil_from_days_month_day (days : Z) :
  1 <= snd (fst (JsDate.civil_from_days days)) <= 12
  /\ 1 <= snd (JsDate.civil_from_days days) <= 31.
Proof.
  destruct (civil_from_days_spec days)
    as (era & doe & yoe & doy & mp & Hz & Hdoe & Hyoe & Hdoy & Hmp & Edoe & Hd
        & Emp & ->).
  cbn [fst snd]. split; [|exact Hd].
  destruct (Z.ltb_spec mp 10); lia.
Qed.

Lemma pad_digits_length (width : nat) (n : N) :
  List.length (pad_digits width n) = width.
Proof.
  revert n. induction width as [|w IH]; intros n; cbn [pad_digits]; [reflexivity|].
  rewrite length_app, IH. cbn. lia.
Qed.

Lemma pad_digits_inj (width : nat) :
  forall n m : N,
    (n < 10 ^ N.of_nat width)%N -> (m < 10 ^ N.of_nat width)%N ->
    pad_digits width n = pad_digits width m -> n = m.
Proof.
  induction width as [|w IH]; intros n m Hn Hm H.
  - cbn in Hn, Hm. lia.
  - cbn [pad_digits] in H. apply app_inj_tail in H as [Hhigh Hlow].
    rewrite Nat2N.inj_succ, N.pow_succ_r' in Hn, Hm.
    assert (Hq : (n / 10 = m / 10)%N).
    { apply IH; [apply N.Div0.div_lt_upper_bound | apply N.Div0.div_lt_upper_bound | ];
        assumption. }
    rewrite (N.div_mod' n 10), (N.div_mod' m 10). lia.
Qed.

Lemma digits_inj (width : nat) (a b : Z) :
  0 <= a < 10 ^ Z.of_nat width -> 0 <= b < 10 ^ Z.of_nat width ->
  JsDate.digits width a = JsDate.digits width b -> a = b.
Proof.
  intros Ha Hb H. unfold JsDate.digits in H.
  assert (E : (10 ^ N.of_nat width)%N = Z.to_N (10 ^ Z.of_nat width)).
  { rewrite Z2N.inj_pow by lia. f_equal. lia. }
  apply pad_digits_inj in H.
  - lia.
  - rewrite E. apply Z2N.inj_lt; lia.
  - rewrite E. apply Z2N.inj_lt; lia.
Qed.

Lemma app_inj_length {A : Type} (a a' b b' : list A) :
  List.length a = List.length a' -> a ++ b = a' ++ b' -> a = a' /\ b = b'.
Proof.
  revert a'. induction a as [|x a IH]; intros [|x' a'] Hlen H; try discriminate Hlen.
  - split; [reflexivity | exact H].
  - injection H as -> H. injection Hlen as Hlen.
    destruct (IH a' Hlen H) as [-> ->]. split; reflexivity.
Qed.

Lemma time_of_day_inj (s t : Z) :
  0 <= s < 86400000 -> 0 <= t < 86400000 ->
  s / 3600000 = t / 3600000 ->
  s / 60000 mod 60 = t / 60000 mod 60 ->
  s / 1000 mod 60 = t / 1000 mod 60 ->
  s mod 1000 = t mod 1000 ->
  s = t.
Proof. intros. Z.div_mod_to_equations. lia. Qed.

(** [toISOString] gives different texts at different milliseconds, from
    the epoch to the end of the year 9999. *)
Lemma toISOString_inj (a b : Z) :
  0 <= a < 253402300800000 -> 0 <= b < 253402300800000 ->
  JsDate.toISOString a = JsDate.toISOString b -> a = b.
Proof.
  intros Ha Hb H.
  assert (Hda : 0 <= a / 86400000 < 2932897) by (Z.div_mod_to_equations; lia).
  assert (Hdb : 0 <= b / 86400000 < 2932897) by (Z.div_mod_to_equations; lia).
  assert (Hta : 0 <= a mod 86400000 < 86400000) by (apply Z.mod_pos_bound; lia).
  assert (Htb : 0 <= b mod 86400000 < 86400000) by (apply Z.mod_pos_bound; lia).
  pose proof (civil_from_days_year _ Hda) as Hya.
  pose proof (civil_from_days_year _ Hdb) as Hyb.
  pose proof (civil_from_days_month_day (a / 86400000)) as [Hma Hdda].
  pose proof (civil_from_days_month_day (b / 86400000)) as [Hmb Hddb].
  unfold JsDate.toISOString in H. cbv zeta in H.
  assert (Hcivil : JsDate.civil_from_days (a / 86400000)
                   = JsDate.civil_from_days (b / 86400000)
                   /\ (a mod 86400000) / 3600000 = (b mod 86400000) / 3600000
                   /\ (a mod 86400000) / 60000 mod 60 = (b mod 86400000) / 60000 mod 60
                   /\ (a mod 86400000) / 1000 mod 60 = (b mod 86400000) / 1000 mod 60
                   /\ (a mod 86400000) mod 1000 = (b mod 86400000) mod 1000).
  { destruct (JsDate.civil_from_days (a / 86400000)) as [[y m] d].
    destruct (JsDate.civil_from_days (b / 86400000)) as [[y' m'] d'].
    cbn [fst snd] in *.
    unfold JsDate.year_string in H.
    replace ((0 <=? y) && (y <=? 9999)) with true in H
      by (symmetry; apply andb_true_iff; split; apply Z.leb_le; lia).
    replace ((0 <=? y') && (y' <=? 9999)) with true in H
      by (symmetry; apply andb_true_iff; split; apply Z.leb_le; lia).
    repeat match type of H with
           | ?x ++ ?r = ?x' ++ ?r' =>
               apply app_inj_length in H;
               [|unfold JsDate.digits; now rewrite ?pad_digits_length];
               let E := fresh "E" in destruct H as [E H]
           end.
    apply digits_inj in E; [|change (10 ^ Z.of_nat 4) with 10000; lia ..].
    apply digits_inj in E1; [|change (10 ^ Z.of_nat 2) with 100; lia ..].
    apply digits_inj in E3; [|change (10 ^ Z.of_nat 2) with 100; lia ..].
    apply digits_inj in E5;
      [|change (10 ^ Z.of_nat 2) with 100; clear - Hta Htb;
        Z.div_mod_to_equations; lia ..].
    apply digits_inj in E7;
      [|change (10 ^ Z.of_nat 2) with 100; clear - Hta Htb;
        Z.div_mod_to_equations; lia ..].
    apply digits_inj in E9;
      [|change (10 ^ Z.of_nat 2) with 100; clear - Hta Htb;
        Z.div_mod_to_equations; lia ..].
    apply digits_inj in E11;
      [|change (10 ^ Z.of_nat 3) with 1000; clear - Hta Htb;
        Z.div_mod_to_equations; lia ..].
    subst. repeat split; assumption. }
  destruct Hcivil as (Hc & H1 & H2 & H3 & H4).
  apply civil_from_days_inj in Hc.
  pose proof (time_of_day_inj _ _ Hta Htb H1 H2 H3 H4) as Ht.
  rewrite (Z.div_mod a 86400000), (Z.div_mod b 86400000) by lia.
  now rewrite Hc, Ht.
Qed.

End DateFacts.

Lemma NoDup_map_on {A B : Type} (f : A -> B) (l : list A) :
  (forall a b, In a l -> In b l -> f a = f b -> a = b) ->
  NoDup l -> NoDup (map f l).
Proof.
  intros Hinj Hnd. induction Hnd as [|x l Hx Hnd IH]; cbn [map]; constructor.
  - intros Hin. apply in_map_iff in Hin as (y & Hy & Hin).
    apply Hx. rewrite (Hinj x y); [exact Hin | now left | now right | now symmetry].
  - apply IH. intros a b Ha Hb. apply Hinj; now right.
Qed.

(** Property X21.  (1) From the epoch to the end of the year 9999,
    [toISOString] gives different texts at different milliseconds.
    (2) So generations that succeed at pairwise different clock readings,
    none of which is the identifier of a stored record, leave a library
    whose identifiers are pairwise distinct, when those of the library
    they started from were. *)
Theorem distinct_instants_give_distinct_ids :
  (forall a b : Z,
      Session.fourDigitYear a -> Session.fourDigitYear b ->
      JsDate.toISOString a = JsDate.toISOString b -> a = b)
  /\ (forall (inputs : list (jsstring * GenEnv)) (w : World),
         Forall answered inputs ->
         Forall (fun i => Session.fourDigitYear (now_id (snd i))) inputs ->
         NoDup (map (fun i => now_id (snd i)) inputs) ->
         NoDup (map LibraryEntry.id (library (app w))) ->
         (forall i, In i inputs ->
                    ~ In (JsDate.toISOString (now_id (snd i)))
                        (map LibraryEntry.id (library (app w)))) ->
         NoDup (map LibraryEntry.id (library (app (run (generateEach inputs) w))))).
Proof.
  split; [exact DateFacts.toISOString_inj|].
  intros inputs w Hall Hrange Hnd Hlib Hfresh.
  destruct (generateEach_library inputs w (app w)) as (Hrun & _);
    [repeat split | assumption |].
  rewrite Hrun, map_app, map_rev, map_map.
  change (fun x => LibraryEntry.id (createdBy (app w) x))
    with (fun i : jsstring * GenEnv => JsDate.toISOString (now_id (snd i))).
  rewrite <- (map_map (fun i : jsstring * GenEnv => now_id (snd i)) JsDate.toISOString).
  assert (Hnew : NoDup (map JsDate.toISOString
                          (map (fun i : jsstring * GenEnv => now_id (snd i)) inputs))).
  { apply NoDup_map_on; [|exact Hnd].
    intros a b Ha Hb. apply DateFacts.toISOString_inj.
    - apply in_map_iff in Ha as (i & <- & Hi).
      rewrite Forall_forall in Hrange. now apply Hrange.
    - apply in_map_iff in Hb as (i & <- & Hi).
      rewrite Forall_forall in Hrange. now apply Hrange. }
  apply NoDup_app; [now apply NoDup_rev | exact Hlib |].
  intros x Hx Hold. apply in_rev in Hx.
  rewrite map_map in Hx. apply in_map_iff in Hx as (i & <- & Hi).
  now apply (Hfresh i).
Qed.

(** What one run of [handleGenerate] adds to the requests and to the
    message boxes. *)
Lemma handleGenerate_logs (snap : State) (env : GenEnv) (isRefinement : bool)
    (textOverride : option jsstring) (w : World) :
  exists sent shown,
    requests (exec (handleGenerate snap env isRefinement textOverride) w)
    = requests w ++ sent
    /\ alerts (exec (handleGenerate snap env isRefinement textOverride) w)
       = alerts w ++ shown
    /\ (List.length sent <= 1)%nat
    /\ (List.length shown <= 1)%nat
    /\ downloads (exec (handleGenerate snap env isRefinement textOverride) w)
       = downloads w.
Proof.
  unfold exec, handleGenerate, generated.
  destruct (textToAnalyze snap isRefinement textOverride) as [[|c text]|];
    try (exists [], [lit "Please provide some text to analyze."];
         cbn; rewrite app_nil_r; repeat split; lia).
  open_world w.
  destruct (reply env) as [[complaint|err]|[|[|h tml]|]];
    try (run_monad; eexists; eexists;
         split; [reflexivity|]; split; [reflexivity|]; cbn; repeat split; lia);
    try (run_monad; eexists; exists [];
         split; [reflexivity|]; split; [now rewrite app_nil_r|];
         cbn; repeat split; lia).
  destruct isRefinement; [destruct (currentAnalysis snap)|];
    run_monad;
    (case_storage storage0;
     (eexists; exists [];
      split; [reflexivity|]; split; [now rewrite app_nil_r|]; cbn; repeat split; lia)).
Qed.

(** Property X22.  What one event can send and show.  Every event leaves
    the earlier requests and message boxes in place and adds at most one
    message box.  Typing, choosing, opening and closing, picking a stored
    record, New Analysis, Save Edits and Download send nothing to the
    service; Generate and a submitted refinement send at most one request,
    an upload at most two.  Only Download adds a download. *)
Theorem event_effects_are_bounded :
  forall (ev : Event) (w : World),
    exists sent shown,
      requests (exec (step ev) w) = requests w ++ sent
      /\ alerts (exec (step ev) w) = alerts w ++ shown
      /\ (List.length shown <= 1)%nat
      /\ (List.length sent
          <= match ev with
             | SelectFile _ _ => 2
             | Generate _ | SubmitRefine _ => 1
             | _ => 0
             end)%nat
      /\ match ev with
         | DownloadHtml => True
         | _ => downloads (exec (step ev) w) = downloads w
         end.
Proof.
  intros ev w.
  assert (Hquiet : exec (step ev) w = w \/ requests (exec (step ev) w) = requests w
                                           /\ alerts (exec (step ev) w) = alerts w
                                           /\ downloads (exec (step ev) w) = downloads w ->
                   match ev with
                   | Generate _ | SubmitRefine _ | SelectFile _ _ | DownloadHtml => True
                   | _ =>
                       exists sent shown,
                         requests (exec (step ev) w) = requests w ++ sent
                         /\ alerts (exec (step ev) w) = alerts w ++ shown
                         /\ (List.length shown <= 1)%nat
                         /\ (List.length sent <= 0)%nat
                         /\ downloads (exec (step ev) w) = downloads w
                   end).
  { intros H. destruct ev; try exact I; exists [], []; rewrite !app_nil_r;
      (destruct H as [-> | (-> & -> & ->)]; repeat split; cbn; lia). }
  destruct ev; cbn [step] in *; rewrite ?exec_dispatch in *;
    try solve [apply Hquiet; right; open_world w; run_monad; repeat split].
  - (* Generate *)
    destruct (handleGenerate_logs (app w) env false None w)
      as (sent & shown & H1 & H2 & H3 & H4 & H5).
    now exists sent, shown.
  - (* SelectFile *)
    destruct (includes supportedTypes (type file)) eqn:Hsup.
    + destruct (read env) as [url|e] eqn:Hread.
      * destruct (transcription_reply env) as [[complaint|e]|t] eqn:Hreply.
        -- unfold exec.
           rewrite (handleFileSelect_threw (app w) env file w url complaint)
             by assumption.
           cbn [snd requests alerts downloads].
           eexists; exists []. split; [reflexivity|].
           split; [now rewrite app_nil_r|].
           cbn. repeat split; lia.
        -- unfold exec.
           rewrite (handleFileSelect_caught (app w) env file w e Hsup)
             by (right; now exists url).
           rewrite Hread. cbn [snd requests alerts downloads].
           eexists; eexists. split; [reflexivity|]. split; [reflexivity|].
           cbn. repeat split; lia.
        -- unfold exec.
           rewrite (handleFileSelect_read (app w) env file w url t) by assumption.
           destruct (caught_generation (app w) (generation env) t
                       (transcribed w file url t))
             as [[_ ->] | (c & text & complaint & _ & _ & ->)].
           ++ destruct (handleGenerate_logs (app w) (generation env) false t
                          (transcribed w file url t))
                as (sent & shown & H1 & H2 & H3 & H4 & H5).
              unfold exec in H1, H2, H5. rewrite H1, H2, H5.
              cbn [transcribed requests alerts downloads].
              exists (transcriptionRequest file (split_comma_1 url) :: sent), shown.
              rewrite <- app_assoc. repeat split; cbn; try lia; assumption.
           ++ cbn [snd transcribed requests alerts downloads].
              eexists; eexists. split; [now rewrite <- app_assoc|].
              split; [reflexivity|]. cbn. repeat split; lia.
      * unfold exec.
        rewrite (handleFileSelect_caught (app w) env file w e Hsup) by now left.
        rewrite Hread. cbn [snd requests alerts downloads].
        eexists; eexists. split; [reflexivity|]. split; [reflexivity|].
        cbn. repeat split; lia.
    + unfold exec. rewrite handleFileSelect_rejected by assumption.
      cbn [snd requests alerts downloads].
      exists [], [lit "Unsupported file type: " ++ type file
                    ++ lit ". Please upload an MP3 or M4A file."].
      rewrite app_nil_r. repeat split; cbn; lia.
  - (* LoadFromLibrary *)
    apply Hquiet. right.
    destruct (nth_error (library (app w)) index); open_world w; run_monad;
      repeat split.
  - (* SaveEdits *)
    destruct (currentAnalysis (app w)) as [r|] eqn:Hcur.
    + destruct innerHTML as [html|].
      * destruct (handleSaveChanges_edited (app w) w r html Hcur)
          as (_ & Hreq & Hal & Hdl & _).
        exists [], [lit "Changes saved to library."].
        rewrite Hreq, Hal, Hdl, app_nil_r. repeat split; cbn; lia.
      * apply Hquiet. left. unfold handleSaveChanges. now rewrite Hcur.
    + apply Hquiet. left. unfold handleSaveChanges. now rewrite Hcur.
  - (* DownloadHtml *)
    exists [], []. rewrite !app_nil_r. unfold handleDownloadHtml.
    open_world w. cbn [app currentAnalysis].
    destruct currentAnalysis0; run_monad; repeat split; cbn; lia.
  - (* SubmitRefine *)
    destruct (handleGenerate_logs (app w) env true None w)
      as (sent & shown & H1 & H2 & H3 & H4 & H5).
    now exists sent, shown.
Qed.


(** Property X24.  An upload whose transcription has text leaves the
    component and the storage as pasting that text and pressing Generate
    leaves them, whatever the service then answers to the generation; the
    upload has sent one request more, the transcription request, before
    the generation request.  The message boxes and the console are the
    same too, unless the generation rejects with [undefined] or [null]:
    the TypeError that then leaves [handleGenerate] is lost after Generate,
    and caught by the upload, which adds a message box and a line in the
    console. *)
Theorem upload_is_paste_then_generate :
  forall (w : World) (env : FileEnv) (file : File) (url text : jsstring),
    In (type file) supportedTypes ->
    read env = ReadOk url ->
    transcription_reply env = Resolves (Some text) ->
    text <> [] ->
    let uploaded := exec (step (SelectFile env file)) w in
    let typed := run [TypeSourceText text; Generate (generation env)] w in
    app uploaded = app typed
    /\ storage uploaded = storage typed
    /\ alerts uploaded
       = alerts typed
           ++ match reply (generation env) with
              | Rejects (Nullish complaint) =>
                  [lit "An error occurred during transcription or analysis: "
                     ++ match complaint with
                        | [] => lit "Please try again."
                        | _ :: _ => complaint
                        end]
              | _ => []
              end
    /\ console uploaded
       = console typed
           ++ match reply (generation env) with
              | Rejects (Nullish _) => [lit "Error transcribing audio:"]
              | _ => []
              end
    /\ requests uploaded
       = requests w
           ++ [transcriptionRequest file (split_comma_1 url);
               generationRequest (app w) false text]
    /\ requests typed = requests w ++ [generationRequest (app w) false text].
Proof.
  intros w env file url text Hin Hread Hreply Hne uploaded typed.
  subst uploaded typed. apply includes_In in Hin.
  assert (Hup : exec (step (SelectFile env file)) w
                = snd (try_catch
                         (handleGenerate (app w) (generation env) false (Some text))
                         transcriptionFailed (transcribed w file url (Some text)))).
  { cbn [step]. rewrite exec_dispatch. unfold exec.
    now rewrite (handleFileSelect_read (app w) env file w url (Some text)). }
  rewrite Hup. clear Hup.
  cbn [run step]. rewrite !exec_dispatch.
  destruct text as [|c text]; [contradiction|].
  unfold handleGenerate, generated, textToAnalyze, transcribed, generationRequest.
  open_world w. run_monad.
  destruct (reply (generation env)) as [[complaint|err]|[|[|h tml]|]];
    try (run_monad; rewrite ?app_nil_r; repeat split; now rewrite <- app_assoc).
  - run_monad. unfold message_or, TypeError. cbn [message].
    destruct complaint; repeat split; now rewrite <- app_assoc.
  - run_monad.
    case_storage storage0; rewrite ?app_nil_r; repeat split;
      now rewrite <- app_assoc.
Qed.

Lemma handleGenerate_loading_off (snap : State) (env : GenEnv)
    (isRefinement : bool) (textOverride : option jsstring) (w : World)
    (c : N) (text : jsstring) :
  textToAnalyze snap isRefinement textOverride = Some (c :: text) ->
  isLoading (app (snd (handleGenerate snap env isRefinement textOverride w))) = false.
Proof.
  intros Ht. unfold handleGenerate, generated. rewrite Ht.
  open_world w.
  destruct (reply env) as [[complaint|err]|[|[|h tml]|]];
    try (run_monad; reflexivity).
  destruct isRefinement; [destruct (currentAnalysis snap)|];
    run_monad; (case_storage storage0; reflexivity).
Qed.

Lemma resumeGenerate_loading_off (snap : State) (env : GenEnv)
    (isRefinement : bool) (text : jsstring) (w : World) :
  isLoading (app (snd (Async.resumeGenerate snap env isRefinement text w))) = false.
Proof.
  destruct (resumeGenerate_outcome snap env isRefinement text w)
    as [(-> & _) | [(r & html & _ & _ & _ & -> & _) | (e & _ & -> & _)]];
    reflexivity.
Qed.

(** Property X25.  The ways in which the loading overlay stays on.  (1) An
    event handled in one go, with every call settled: when [isLoading] is
    [false] before it and [true] after it, the event is an upload of a
    supported file that was read, and the transcription gave no text to
    analyse, or rejected with [undefined] or [null].  (2) The piece of an
    event up to the first call of its handler turns loading on only when
    it makes that call: the overlay is then on for as long as the call
    does not settle.  (3) When a call settles, loading is on afterwards
    only when the handler has made its next call, or when loading was on
    and the call is a transcription that gave no text to analyse or
    rejected with [undefined] or [null]. *)
Theorem loading_stays_on_only_after_an_empty_transcription :
  (forall (ev : Event) (w : World),
      isLoading (app w) = false ->
      isLoading (app (exec (step ev) w)) = true ->
      exists env file url,
        ev = SelectFile env file
        /\ In (type file) supportedTypes
        /\ read env = ReadOk url
        /\ ((exists transcription,
                transcription_reply env = Resolves transcription
                /\ (textToAnalyze (app w) false transcription = None
                    \/ textToAnalyze (app w) false transcription = Some []))
            \/ exists complaint,
                 transcription_reply env = Rejects (Nullish complaint)))
  /\ (forall (ev : Event) (w : World),
         isLoading (app w) = false ->
         isLoading (app (snd (Async.begin ev w))) = true ->
         exists c, fst (Async.begin ev w) = Normal [c])
  /\ (forall (c : Async.Call) (w : World),
         isLoading (app (snd (Async.resume c w))) = true ->
         (exists next, fst (Async.resume c w) = Normal [next])
         \/ (exists snap env,
                c = Async.TranscriptionCall snap env
                /\ isLoading (app w) = true
                /\ ((exists transcription,
                        transcription_reply env = Resolves transcription
                        /\ (textToAnalyze snap false transcription = None
                            \/ textToAnalyze snap false transcription = Some []))
                    \/ exists complaint,
                         transcription_reply env = Rejects (Nullish complaint)))).
Proof.
  split; [|split].
  - intros ev w Hoff Hon.
    assert (Hgen : forall env isRefinement,
               isLoading
                 (app (exec (handleGenerate (app w) env isRefinement None) w))
               = false).
    { intros env isRefinement.
      destruct (handleGenerate_outcome (app w) env isRefinement None w)
        as [[-> _] | [[-> _] | [(r & html & _ & _ & -> & _) | (e & -> & _)]]];
        [exact Hoff | reflexivity | reflexivity | reflexivity]. }
    destruct ev; cbn [step] in Hon; rewrite ?exec_dispatch in Hon;
      try solve [exfalso; revert Hon; open_world w; cbn [app isLoading] in Hoff;
                 subst; run_monad; discriminate].
    + rewrite Hgen in Hon. discriminate Hon.
    + destruct (includes supportedTypes (type file)) eqn:Hsup.
      * destruct (read env) as [url|e] eqn:Hread.
        -- destruct (transcription_reply env) as [[complaint|e]|t] eqn:Hreply.
           ++ exists env, file, url. apply includes_In in Hsup.
              repeat split; try assumption. right. now exists complaint.
           ++ unfold exec in Hon.
              rewrite (handleFileSelect_caught (app w) env file w e Hsup) in Hon
                by (right; now exists url).
              discriminate Hon.
           ++ exists env, file, url.
              split; [reflexivity|]. split; [now apply includes_In|].
              split; [exact Hread|]. left. exists t. split; [exact Hreply|].
              unfold exec in Hon.
              rewrite (handleFileSelect_read (app w) env file w url t) in Hon
                by assumption.
              destruct (textToAnalyze (app w) false t) as [[|c text]|] eqn:Ht; auto.
              exfalso.
              destruct (caught_generation (app w) (generation env) t
                          (transcribed w file url t))
                as [[_ E] | (c' & text' & complaint & _ & _ & E)];
                rewrite E in Hon.
              ** rewrite (handleGenerate_loading_off _ _ _ _ _ c text Ht) in Hon.
                 discriminate Hon.
              ** discriminate Hon.
        -- unfold exec in Hon.
           rewrite (handleFileSelect_caught (app w) env file w e Hsup) in Hon
             by now left.
           discriminate Hon.
      * unfold exec in Hon. rewrite handleFileSelect_rejected in Hon by assumption.
        cbn [snd app] in Hon. congruence.
    + exfalso. revert Hon.
      destruct (nth_error (library (app w)) index); open_world w;
        cbn [app isLoading] in Hoff; subst; run_monad; discriminate.
    + exfalso. revert Hon. unfold handleSaveChanges.
      destruct (currentAnalysis (app w)) as [r|]; [destruct innerHTML as [html|]|];
        open_world w; cbn [app isLoading] in Hoff; subst; run_monad;
        try discriminate.
      case_storage storage0; discriminate.
    + exfalso. revert Hon. unfold handleDownloadHtml.
      open_world w; cbn [app isLoading currentAnalysis] in *; subst.
      destruct currentAnalysis0; run_monad; discriminate.
    + rewrite Hgen in Hon. discriminate Hon.
  - intros ev w Hoff Hon.
    assert (Hgen : forall env isRefinement,
               isLoading
                 (app (snd (Async.startGenerate (app w) env isRefinement None false w)))
               = true ->
               exists c,
                 fst (Async.startGenerate (app w) env isRefinement None false w)
                 = Normal [c]).
    { intros env isRefinement.
      destruct (textToAnalyze (app w) isRefinement None) as [[|c text]|] eqn:Ht.
      - rewrite startGenerate_no_text by auto. cbn [snd alerted app]. congruence.
      - rewrite (startGenerate_text _ _ _ _ _ _ c text Ht). intros _.
        eexists. reflexivity.
      - rewrite startGenerate_no_text by auto. cbn [snd alerted app]. congruence. }
    destruct ev; cbn [Async.begin] in *;
      try solve [exfalso; revert Hon; unfold bind, ret, step; open_world w;
                 cbn [app isLoading] in Hoff; subst; run_monad; discriminate].
    + apply Hgen. exact Hon.
    + unfold dispatch in *.
      destruct (includes supportedTypes (type file)) eqn:Hsup.
      * rewrite startFileSelect_supported by assumption. eexists. reflexivity.
      * exfalso. revert Hon. unfold Async.startFileSelect. rewrite Hsup.
        cbn [negb]. open_world w. cbn [app isLoading] in Hoff. subst.
        run_monad. discriminate.
    + exfalso. revert Hon. unfold bind, ret, step, dispatch.
      destruct (nth_error (library (app w)) index); open_world w;
        cbn [app isLoading] in Hoff; subst; run_monad; discriminate.
    + exfalso. revert Hon. unfold bind, ret, step, dispatch, handleSaveChanges.
      destruct (currentAnalysis (app w)) as [r|]; [destruct innerHTML as [html|]|];
        open_world w; cbn [app isLoading] in Hoff; subst; run_monad;
        try discriminate.
      case_storage storage0; discriminate.
    + exfalso. revert Hon. unfold bind, ret, step, dispatch, handleDownloadHtml.
      open_world w; cbn [app isLoading currentAnalysis] in *; subst.
      destruct currentAnalysis0; run_monad; discriminate.
    + apply Hgen. exact Hon.
  - intros c w Hon.
    destruct c as [snap env isRefinement text fromUpload | snap env file | snap env];
      cbn [Async.resume] in *.
    + exfalso. revert Hon.
      pose proof (resumeGenerate_loading_off snap env isRefinement text w) as Hoff.
      destruct fromUpload; unfold try_catch, bind, ret.
      * destruct (Async.resumeGenerate snap env isRefinement text w)
          as [[[]|err] wx] eqn:E; cbn [snd] in *; [congruence|].
        assert (Herr : exists e, err = Value e).
        { destruct (resumeGenerate_outcome snap env isRefinement text w)
            as [(_ & _ & _ & [H | (complaint & _ & H)])
               | [(r & html & _ & _ & H & _) | (e & H & _)]];
            rewrite E in H; cbn [fst] in H; try discriminate H.
          injection H as ->. eexists. reflexivity. }
        destruct Herr as [e ->].
        destruct (transcriptionFailed_app (Value e) wx) as (_ & _ & _ & _ & Hl).
        destruct (transcriptionFailed (Value e) wx) as [[[]|err'] wy];
          cbn [snd] in *; congruence.
      * destruct (Async.resumeGenerate snap env isRefinement text w)
          as [[[]|err] wx]; cbn [snd] in *; congruence.
    + unfold Async.resumeFileRead, fileToBase64 in *.
      destruct (read env) as [url|e].
      * left. eexists. open_world w. run_monad. reflexivity.
      * exfalso. revert Hon. open_world w. run_monad. discriminate.
    + unfold Async.resumeTranscription in *.
      destruct (transcription_reply env) as [[complaint|e]|t] eqn:Hreply.
      * right. exists snap, env. split; [reflexivity|].
        split; [|right; now exists complaint].
        revert Hon. open_world w. run_monad. auto.
      * exfalso. revert Hon. open_world w. run_monad. discriminate.
      * revert Hon. open_world w. run_monad.
        destruct (textToAnalyze snap false t) as [[|ch text]|] eqn:Ht.
        -- rewrite !(startGenerate_no_text snap (generation env) false t true _
                       (or_intror Ht)).
           intros Hon. right. exists snap, env. split; [reflexivity|].
           split; [exact Hon|]. left. exists t. auto.
        -- rewrite !(startGenerate_text snap (generation env) false t true _
                       ch text Ht).
           intros _. left. eexists. reflexivity.
        -- rewrite !(startGenerate_no_text snap (generation env) false t true _
                       (or_introl Ht)).
           intros Hon. right. exists snap, env. split; [reflexivity|].
           split; [exact Hon|]. left. exists t. auto.
Qed.

(** Property X26.  When the storage does not take the library (it cannot
    be accessed, or the text is over its quota), a generation that
    succeeds still creates the record, puts it in hand and in the library
    in memory and shows the infographic, and the user is told nothing: no
    message box, one line in the console.  The storage is as it was, so
    opening the page again does not bring the record back. *)
Theorem unsaved_record_is_not_reported :
  forall (snap : State) (env : GenEnv) (textOverride : option jsstring)
         (w : World) (text html : jsstring),
    textToAnalyze snap false textOverride = Some text ->
    text <> [] ->
    answers env = Some html ->
    accessible (storage w) = false
    \/ fits (JSON.stringify
               (LibraryEntry.listToJs (created snap text env html :: library snap)))
         (quota (storage w)) = false ->
    let result := handleGenerate snap env false textOverride w in
    let w' := snd result in
    fst result = Normal tt
    /\ library (app w') = created snap text env html :: library snap
    /\ currentAnalysis (app w') = Some (created snap text env html)
    /\ view (app w') = infographic
    /\ alerts w' = alerts w
    /\ console w' = console w ++ [lit "Failed to save library to localStorage"]
    /\ storage w' = storage w
    /\ mount (storage w') = mount (storage w).
Proof.
  intros snap env textOverride w text html Ht Hne Hans Hfail result w'.
  subst w' result.
  destruct (answers_reply _ _ Hans) as (c & rest & -> & Hreply).
  revert Hfail. unfold handleGenerate, generated, created. rewrite Ht, Hreply.
  destruct text as [|c0 text]; [contradiction|].
  open_world w. cbn [storage]. run_monad.
  intros Hfail.
  destruct (accessible storage0); [|run_monad; repeat split].
  destruct Hfail as [Hacc | Hfits]; [discriminate Hacc|].
  rewrite Hfits. run_monad. repeat split.
Qed.

(* ================================================================== *)
(** * The properties at concrete inputs *)
(* ================================================================== *)

(** A code unit that a literal text does not hold. *)
Ltac absent :=
  let H := fresh "H" in
  intros H; vm_compute in H;
  repeat (destruct H as [H|H]; [discriminate H|]); exact H.

Lemma rejected_generation_is_reported_witness :
  textToAnalyze (app (pasted (lit "Sample lesson text"))) false None
  = Some (lit "Sample lesson text")
  /\ lit "Sample lesson text" <> []
  /\ reply down = Rejects (Error (lit "503 Service Unavailable"))
  /\ (let result :=
        handleGenerate (app (pasted (lit "Sample lesson text"))) down false None
          (pasted (lit "Sample lesson text")) in
      fst result = Normal tt
      /\ alerts (snd result) = [lit "503 Service Unavailable"]
      /\ console (snd result) = [lit "Error generating analysis:"]
      /\ storage (snd result) = emptyStorage)
  /\ (let result :=
        handleGenerate (app (pasted (lit "Sample lesson text")))
          Cases.undefinedRejection false None (pasted (lit "Sample lesson text")) in
      fst result
      = Throw (TypeError (lit "Cannot read properties of undefined (reading 'message')"))
      /\ alerts (snd result) = []
      /\ console (snd result) = [lit "Error generating analysis:"]
      /\ isLoading (app (snd result)) = false).
Proof.
  split; [reflexivity|]. split; [discriminate|]. split; [reflexivity|].
  split.
  - destruct (rejected_generation_is_reported
                (app (pasted (lit "Sample lesson text"))) down false None
                (pasted (lit "Sample lesson text")) (lit "Sample lesson text")
                (Value (Error (lit "503 Service Unavailable"))))
      as ((H1 & H2 & _) & H4 & _ & _ & H7 & _);
      [reflexivity | discriminate | reflexivity |].
    split; [exact H1|].
    split; [exact (H2 (lit "503 Service Unavailable") eq_refl ltac:(discriminate))|].
    split; [exact H4 | exact H7].
  - destruct (rejected_generation_is_reported
                (app (pasted (lit "Sample lesson text"))) Cases.undefinedRejection
                false None
                (pasted (lit "Sample lesson text")) (lit "Sample lesson text")
                (Nullish (lit "Cannot read properties of undefined (reading 'message')")))
      as ((H1 & H2) & H4 & _ & H6 & _);
      [reflexivity | discriminate | reflexivity |].
    split; [exact H1|]. split; [exact H2|]. split; [exact H4|].
    now rewrite H6.
Defined.

Lemma empty_transcription_leaves_loading_on_witness :
  In (type mp3) supportedTypes
  /\ read Cases.silent = ReadOk (lit "data:audio/mp3;base64,SUQz")
  /\ transcription_reply Cases.silent = Resolves (Some [])
  /\ textToAnalyze initialState false (Some []) = Some []
  /\ (let result :=
        handleFileSelect initialState Cases.silent (Some mp3) (boot emptyStorage) in
      isLoading (app (snd result)) = true
      /\ alerts (snd result) = [lit "Please provide some text to analyze."]
      /\ requests (snd result) = [transcriptionRequest mp3 (Some (lit "SUQz"))]
      /\ library (app (snd result)) = []).
Proof.
  assert (Hin : In (type mp3) supportedTypes) by (right; left; reflexivity).
  split; [exact Hin|]. split; [reflexivity|]. split; [reflexivity|].
  split; [reflexivity|].
  destruct (empty_transcription_leaves_loading_on initialState Cases.silent mp3
              (boot emptyStorage) (lit "data:audio/mp3;base64,SUQz") (Some [])
              Hin eq_refl eq_refl (or_intror eq_refl))
    as (_ & H2 & _ & _ & H5 & H6 & H7 & _).
  split; [exact H2|]. split; [exact H5|]. split; [exact H6 | exact H7].
Defined.

Lemma upload_without_text_analyses_the_form_witness :
  In (type mp3) supportedTypes
  /\ read Cases.wordless = ReadOk (lit "data:audio/mp3;base64,SUQz")
  /\ transcription_reply Cases.wordless = Resolves None
  /\ sourceText (app (pasted (lit "first lesson"))) = Some (lit "first lesson")
  /\ lit "first lesson" <> []
  /\ answers (generation Cases.wordless) = Some (lit "<h1>Shabbat</h1>")
  /\ (let w' := exec (step (SelectFile Cases.wordless mp3))
                  (pasted (lit "first lesson")) in
      option_map LibraryEntry.sourceText (currentAnalysis (app w'))
      = Some (lit "first lesson")
      /\ sourceText (app w') = None).
Proof.
  assert (Hin : In (type mp3) supportedTypes) by (right; left; reflexivity).
  split; [exact Hin|]. split; [reflexivity|]. split; [reflexivity|].
  split; [reflexivity|]. split; [discriminate|]. split; [reflexivity|].
  destruct (upload_without_text_analyses_the_form (pasted (lit "first lesson"))
              Cases.wordless mp3 (lit "data:audio/mp3;base64,SUQz")
              (lit "first lesson") (lit "<h1>Shabbat</h1>")
              Hin eq_refl eq_refl eq_refl ltac:(discriminate) eq_refl)
    as (H1 & _ & H3 & _).
  split; [|exact H3].
  cbv zeta. rewrite H1. reflexivity.
Defined.

Lemma rejected_transcription_is_reported_witness :
  In (type mp3) supportedTypes
  /\ read Cases.offline = ReadOk (lit "data:audio/mp3;base64,SUQz")
  /\ transcription_reply Cases.offline = Rejects (Error (lit "Failed to fetch"))
  /\ (let result :=
        handleFileSelect (app (pasted (lit "first lesson"))) Cases.offline (Some mp3)
          (pasted (lit "first lesson")) in
      fst result = Normal tt
      /\ alerts (snd result)
         = [lit "An error occurred during transcription or analysis: Failed to fetch"]
      /\ isLoading (app (snd result)) = false
      /\ sourceText (app (snd result)) = Some (lit "first lesson"))
  /\ (let result :=
        handleFileSelect (app (pasted (lit "first lesson"))) Cases.lostInTranscription
          (Some mp3) (pasted (lit "first lesson")) in
      fst result
      = Throw (TypeError (lit "Cannot read properties of undefined (reading 'message')"))
      /\ alerts (snd result) = []
      /\ isLoading (app (snd result)) = true
      /\ console (snd result) = [lit "Error transcribing audio:"]).
Proof.
  assert (Hin : In (type mp3) supportedTypes) by (right; left; reflexivity).
  split; [exact Hin|]. split; [reflexivity|]. split; [reflexivity|].
  split.
  - destruct (rejected_transcription_is_reported (app (pasted (lit "first lesson")))
                Cases.offline mp3 (pasted (lit "first lesson"))
                (lit "data:audio/mp3;base64,SUQz") (Value (Error (lit "Failed to fetch")))
                Hin eq_refl eq_refl)
      as ((H1 & H2 & H3) & _ & _ & _ & H6 & _).
    split; [exact H1|]. split; [exact H2|]. split; [exact H3 | exact H6].
  - destruct (rejected_transcription_is_reported (app (pasted (lit "first lesson")))
                Cases.lostInTranscription mp3 (pasted (lit "first lesson"))
                (lit "data:audio/mp3;base64,SUQz")
                (Nullish (lit "Cannot read properties of undefined (reading 'message')"))
                Hin eq_refl eq_refl)
      as ((H1 & H2 & H3) & _ & H5 & _).
    split; [exact H1|]. split; [exact H2|]. split; [exact H3 | exact H5].
Defined.

Lemma fileToBase64_strips_the_header_witness :
  ~ In 44%N (lit "data:audio/mp3;base64")
  /\ ~ In 44%N (lit "SUQz")
  /\ fileToBase64 (ReadOk (lit "data:audio/mp3;base64,SUQz")) (boot emptyStorage)
     = (Normal (Some (lit "SUQz")), boot emptyStorage)
  /\ fileToBase64 (ReadOk (lit "data:audio/mp3;base64")) (boot emptyStorage)
     = (Normal None, boot emptyStorage).
Proof.
  assert (Hh : ~ In 44%N (lit "data:audio/mp3;base64")) by absent.
  assert (Hp : ~ In 44%N (lit "SUQz")) by absent.
  split; [exact Hh|]. split; [exact Hp|].
  destruct (fileToBase64_strips_the_header (lit "data:audio/mp3;base64")
              (lit "SUQz") (boot emptyStorage) Hh Hp) as (H1 & _ & H3 & _).
  split; [exact H1 | exact H3].
Defined.

Lemma record_origin_is_fixed_witness :
  currentAnalysis (app (viewing shabbat)) = Some shabbat
  /\ forallb keepsRecord Cases.editOnly = true
  /\ filter answered_event Cases.editOnly = []
  /\ (exists r',
         currentAnalysis (app (run Cases.editOnly (viewing shabbat))) = Some r'
         /\ Session.sameOrigin shabbat r'
         /\ LibraryEntry.title r' = lit "Shabbat"
         /\ LibraryEntry.refinementHistory r' = [lit "fix typo"]).
Proof.
  split; [reflexivity|]. split; [reflexivity|]. split; [reflexivity|].
  destruct (record_origin_is_fixed Cases.editOnly (viewing shabbat) shabbat
              eq_refl eq_refl) as (r' & Hcur & Ho & Hq).
  destruct (Hq eq_refl) as [Ht Hh].
  exists r'. split; [exact Hcur|]. split; [exact Ho|]. split; [exact Ht | exact Hh].
Defined.

Lemma last_saved_edit_wins_witness :
  currentAnalysis (app (viewing shabbat)) = Some shabbat
  /\ currentAnalysis
       (app (run [SaveEdits (Some (lit "<h1>Shabat</h1>"));
                  SaveEdits (Some (lit "<h1>Shabbos</h1>"))] (viewing shabbat)))
     = Some (edited shabbat (lit "<h1>Shabbos</h1>"))
  /\ app (run [SaveEdits (Some (lit "<h1>Shabat</h1>"));
               SaveEdits (Some (lit "<h1>Shabbos</h1>"))] (viewing shabbat))
     = app (run [SaveEdits (Some (lit "<h1>Shabbos</h1>"))] (viewing shabbat)).
Proof.
  split; [reflexivity|].
  destruct (last_saved_edit_wins (viewing shabbat) shabbat (lit "<h1>Shabat</h1>")
              (lit "<h1>Shabbos</h1>") eq_refl) as (H1 & H2 & _).
  split; [exact H2 | exact H1].
Defined.

Lemma viewing_wellFormed (r : LibraryEntry.t) : wellFormed (app (viewing r)).
Proof.
  split.
  - cbn. constructor; [intros [] | constructor].
  - cbn. intros x [= <-]. now left.
Defined.

Lemma saving_the_stored_html_changes_nothing_witness :
  currentAnalysis (app (viewing shabbat)) = Some shabbat
  /\ wellFormed (app (viewing shabbat))
  /\ (let w' := exec (step (SaveEdits (Some (lit "<h1>Shabbat</h1><p>Rest.</p>"))))
                  (viewing shabbat) in
      app w' = app (viewing shabbat)
      /\ alerts w' = [lit "Changes saved to library."]).
Proof.
  split; [reflexivity|]. split; [apply viewing_wellFormed|].
  destruct (saving_the_stored_html_changes_nothing (viewing shabbat) shabbat
              eq_refl (viewing_wellFormed shabbat)) as (H1 & H2 & _).
  split; [exact H1 | exact H2].
Defined.

Lemma reload_restores_the_library_witness :
  Session.roomy emptyStorage
  /\ fst (mount emptyStorage) = Normal LoadDone
  /\ (let w := run Cases.firstVisit (Session.opened emptyStorage) in
      fst (mount (storage w)) = Normal LoadDone
      /\ library (app (Session.opened (storage w))) = library (app w)).
Proof.
  assert (Hroomy : Session.roomy emptyStorage) by (split; reflexivity).
  split; [exact Hroomy|]. split; [reflexivity|].
  destruct (reload_restores_the_library emptyStorage Cases.firstVisit Hroomy eq_refl)
    as (H1 & H2 & _).
  split; [exact H1 | exact H2].
Defined.

Lemma record_in_hand_is_in_the_library_witness :
  fst (mount emptyStorage) = Normal LoadDone
  /\ currentAnalysis (app (run Cases.firstVisit (Session.opened emptyStorage)))
     = Some Cases.visited
  /\ In Cases.visited
       (library (app (run Cases.firstVisit (Session.opened emptyStorage)))).
Proof.
  assert (H : currentAnalysis
                (app (run Cases.firstVisit (Session.opened emptyStorage)))
              = Some Cases.visited) by (vm_compute; reflexivity).
  split; [reflexivity|]. split; [exact H|].
  exact (record_in_hand_is_in_the_library emptyStorage Cases.firstVisit
           Cases.visited eq_refl H).
Defined.

Lemma main_screen_matches_the_record_in_hand_witness :
  fst (mount emptyStorage) = Normal LoadDone
  /\ Render.mainScreen
       (app (Async.world (Async.run (Async.oneAtATime Cases.firstVisit)
                            (Async.opened emptyStorage))))
     = Render.InfographicScreen Cases.visited
  /\ match
       Render.mainScreen
         (app (Async.world (Async.run (Async.oneAtATime Cases.firstVisit)
                              (Async.opened emptyStorage))))
     with
     | Render.WelcomeScreen =>
         view (app (Async.world (Async.run (Async.oneAtATime Cases.firstVisit)
                                   (Async.opened emptyStorage)))) = welcome
         /\ currentAnalysis
              (app (Async.world (Async.run (Async.oneAtATime Cases.firstVisit)
                                   (Async.opened emptyStorage)))) = None
     | Render.InfographicScreen r =>
         view (app (Async.world (Async.run (Async.oneAtATime Cases.firstVisit)
                                   (Async.opened emptyStorage)))) = infographic
         /\ currentAnalysis
              (app (Async.world (Async.run (Async.oneAtATime Cases.firstVisit)
                                   (Async.opened emptyStorage)))) = Some r
     | Render.NoScreen => False
     end
  /\ Render.mainScreen
       (app (Async.world (Async.run Cases.leftWhileRefining
                            (Async.opened emptyStorage))))
     <> Render.NoScreen.
Proof.
  split; [reflexivity|]. split; [vm_compute; reflexivity|].
  destruct (main_screen_matches_the_record_in_hand emptyStorage eq_refl)
    as (Hone & Hany & _).
  split; [exact (Hone Cases.firstVisit)|].
  pose proof (Hany Cases.leftWhileRefining) as H. cbv zeta in H.
  intros E. rewrite E in H. exact H.
Defined.

Lemma second_answer_overwrites_the_first_witness :
  sourceText (app (pasted (lit "first lesson"))) = Some (lit "first lesson")
  /\ lit "first lesson" <> []
  /\ answers (answering (lit "<h1>First</h1>") 1793683200123)
     = Some (lit "<h1>First</h1>")
  /\ answers (answering (lit "<h1>Second</h1>") 1793683260123)
     = Some (lit "<h1>Second</h1>")
  /\ (let snap := app (pasted (lit "first lesson")) in
      let w1 := exec (handleGenerate snap
                        (answering (lit "<h1>First</h1>") 1793683200123) false None)
                  (pasted (lit "first lesson")) in
      let w2 := exec (handleGenerate snap
                        (answering (lit "<h1>Second</h1>") 1793683260123) false None)
                  w1 in
      map LibraryEntry.title (library (app w1)) = [lit "First"]
      /\ map LibraryEntry.title (library (app w2)) = [lit "Second"]).
Proof.
  split; [reflexivity|]. split; [discriminate|]. split; [reflexivity|].
  split; [reflexivity|].
  destruct (second_answer_overwrites_the_first (app (pasted (lit "first lesson")))
              (answering (lit "<h1>First</h1>") 1793683200123)
              (answering (lit "<h1>Second</h1>") 1793683260123)
              (pasted (lit "first lesson")) (lit "first lesson")
              (lit "<h1>First</h1>") (lit "<h1>Second</h1>")
              eq_refl ltac:(discriminate) eq_refl eq_refl)
    as (H1 & H2 & _).
  cbv zeta. rewrite H1, H2. split; vm_compute; reflexivity.
Defined.

Lemma refinement_request_ignores_earlier_output_witness :
  currentAnalysis (app refining) = Some shabbat
  /\ currentAnalysis (app Cases.refiningShabbos) = Some Cases.shabbos
  /\ LibraryEntry.infographicHtml shabbat <> LibraryEntry.infographicHtml Cases.shabbos
  /\ LibraryEntry.sourceText shabbat = LibraryEntry.sourceText Cases.shabbos
  /\ requests (exec (step (SubmitRefine (answering tableHtml 1793683260000))) refining)
     = requests (exec (step (SubmitRefine down)) Cases.refiningShabbos).
Proof.
  split; [reflexivity|]. split; [reflexivity|]. split; [discriminate|].
  split; [reflexivity|].
  exact (refinement_request_ignores_earlier_output refining Cases.refiningShabbos
           shabbat Cases.shabbos (answering tableHtml 1793683260000) down
           eq_refl eq_refl eq_refl eq_refl eq_refl eq_refl eq_refl).
Defined.

Lemma download_after_save_offers_the_edit_witness :
  currentAnalysis (app (viewing shabbat)) = Some shabbat
  /\ Blob.codeUnits (lit "<h1>Shabbos</h1>" ++ [56832%N])
  /\ exists d,
       downloads (run [SaveEdits (Some (lit "<h1>Shabbos</h1>" ++ [56832%N]));
                       DownloadHtml] (viewing shabbat))
       = [d]
       /\ download_name d = lit "Shabbat.html"
       /\ blob_content d
          = [60; 104; 49; 62; 83; 104; 97; 98; 98; 111; 115; 60; 47; 104; 49; 62;
             239; 191; 189]%N
       /\ Blob.text (blob_content d) = Some (lit "<h1>Shabbos</h1>" ++ [65533%N]).
Proof.
  assert (U : Blob.codeUnits (lit "<h1>Shabbos</h1>" ++ [56832%N]))
    by (repeat constructor).
  split; [reflexivity|]. split; [exact U|].
  destruct (download_after_save_offers_the_edit (viewing shabbat) shabbat
              (lit "<h1>Shabbos</h1>" ++ [56832%N]) eq_refl U)
    as (d & Hd & Hn & _ & Hc & Ht & _).
  exists d. repeat split; assumption.
Defined.

Lemma search_lists_the_matching_records_witness :
  In shabbat [Cases.noach; shabbat]
  /\ NoDup (map LibraryEntry.id [Cases.noach; shabbat])
  /\ String_includes (Sidebar.asciiLower (LibraryEntry.sourceText shabbat))
       (Sidebar.asciiLower (lit "LESSON")) = true
  /\ In shabbat
       (Sidebar.filteredLibrary Sidebar.asciiLower (lit "LESSON") [Cases.noach; shabbat])
  /\ In shabbat
       (Sidebar.filteredLibrary Sidebar.asciiLower (lit "Shabbat") [Cases.noach; shabbat])
  /\ NoDup (map LibraryEntry.id
              (Sidebar.filteredLibrary Sidebar.asciiLower (lit "LESSON")
                 [Cases.noach; shabbat])).
Proof.
  assert (Hin : In shabbat [Cases.noach; shabbat]) by (right; left; reflexivity).
  assert (Hnd : NoDup (map LibraryEntry.id [Cases.noach; shabbat])).
  { constructor; [intros [H|[]]; discriminate H|].
    constructor; [intros []|constructor]. }
  assert (Hinc : String_includes (Sidebar.asciiLower (LibraryEntry.sourceText shabbat))
                   (Sidebar.asciiLower (lit "LESSON")) = true) by reflexivity.
  destruct (search_lists_the_matching_records Sidebar.asciiLower (lit "LESSON")
              [Cases.noach; shabbat]) as (_ & Hiff & _ & Hown & Hkeys).
  split; [exact Hin|]. split; [exact Hnd|]. split; [exact Hinc|].
  split; [exact (proj2 (Hiff shabbat) (conj Hin (or_intror (or_intror Hinc))))|].
  split; [exact (proj1 (Hown shabbat Hin)) | exact (Hkeys Hnd)].
Defined.

Lemma longer_search_term_narrows_witness :
  lit "Shabbat" <> []
  /\ String_includes (Sidebar.asciiLower (lit "Shabbat")) (Sidebar.asciiLower (lit "Shab"))
     = true
  /\ lit "SHABBAT" <> []
  /\ Sidebar.asciiLower (lit "SHABBAT") = Sidebar.asciiLower (lit "Shabbat")
  /\ (forall e,
         In e (Sidebar.filteredLibrary Sidebar.asciiLower (lit "Shabbat")
                 [Cases.noach; shabbat]) ->
         In e (Sidebar.filteredLibrary Sidebar.asciiLower (lit "Shab")
                 [Cases.noach; shabbat]))
  /\ Sidebar.filteredLibrary Sidebar.asciiLower (lit "SHABBAT") [Cases.noach; shabbat]
     = Sidebar.filteredLibrary Sidebar.asciiLower (lit "Shabbat") [Cases.noach; shabbat].
Proof.
  assert (H1 : lit "Shabbat" <> []) by discriminate.
  assert (H2 : String_includes (Sidebar.asciiLower (lit "Shabbat"))
                 (Sidebar.asciiLower (lit "Shab")) = true) by reflexivity.
  assert (H3 : lit "SHABBAT" <> []) by discriminate.
  assert (H4 : Sidebar.asciiLower (lit "SHABBAT") = Sidebar.asciiLower (lit "Shabbat"))
    by reflexivity.
  split; [exact H1|]. split; [exact H2|]. split; [exact H3|]. split; [exact H4|].
  split.
  - exact (proj1 (longer_search_term_narrows Sidebar.asciiLower (lit "Shab")
                    (lit "Shabbat") [Cases.noach; shabbat] H1 H2)).
  - assert (H5 : String_includes (Sidebar.asciiLower (lit "Shabbat"))
                   (Sidebar.asciiLower (lit "SHABBAT")) = true) by reflexivity.
    exact (proj2 (longer_search_term_narrows Sidebar.asciiLower (lit "SHABBAT")
                    (lit "Shabbat") [Cases.noach; shabbat] H1 H5) H3 H4).
Defined.

Lemma title_is_the_content_of_the_first_heading_witness :
  String_includes Cases.pageHead (lit "<h1") = false
  /\ String_includes Cases.pageHead (lit "<H1") = false
  /\ ~ In 62%N Cases.headingAttributes
  /\ String_includes Cases.headingContent (lit "</h1>") = false
  /\ String_includes Cases.headingContent (lit "</H1>") = false
  /\ Forall (fun c => RegExp.is_line_terminator c = false) Cases.headingContent
  /\ extractTitle (Cases.pageHead ++ lit "<H1" ++ Cases.headingAttributes ++ lit ">"
                     ++ Cases.headingContent ++ lit "</h1>" ++ Cases.pageRest)
     = lit "Shabbat: <em>rest</em>"
  /\ String_includes (lit "<h1>Shabbat<h1>") (lit "</h1>") = false
  /\ String_includes (lit "<h1>Shabbat<h1>") (lit "</H1>") = false
  /\ extractTitle (lit "<h1>Shabbat<h1>") = lit "Untitled Analysis".
Proof.
  assert (Hattrs : ~ In 62%N Cases.headingAttributes) by absent.
  assert (Hline : Forall (fun c => RegExp.is_line_terminator c = false)
                    Cases.headingContent)
    by (repeat constructor).
  destruct title_is_the_content_of_the_first_heading as [Hfound Hnone].
  split; [reflexivity|]. split; [reflexivity|]. split; [exact Hattrs|].
  split; [reflexivity|]. split; [reflexivity|]. split; [exact Hline|].
  split.
  - exact (Hfound Cases.pageHead Cases.headingAttributes Cases.headingContent
             Cases.pageRest 72%N 104%N eq_refl eq_refl (or_intror eq_refl)
             (or_introl eq_refl) Hattrs eq_refl eq_refl Hline).
  - split; [reflexivity|]. split; [reflexivity|].
    exact (Hnone (lit "<h1>Shabbat<h1>") eq_refl eq_refl).
Defined.

Lemma distinct_instants_give_distinct_ids_witness :
  Session.fourDigitYear 1793683200123
  /\ Session.fourDigitYear 1793683260123
  /\ Forall answered Cases.twoLessons
  /\ NoDup (map (fun i => now_id (snd i)) Cases.twoLessons)
  /\ JsDate.toISOString 1793683200123 <> JsDate.toISOString 1793683260123
  /\ NoDup (map LibraryEntry.id
              (library (app (run (generateEach Cases.twoLessons)
                               (Session.opened emptyStorage))))).
Proof.
  assert (H1 : Session.fourDigitYear 1793683200123) by (unfold Session.fourDigitYear; lia).
  assert (H2 : Session.fourDigitYear 1793683260123) by (unfold Session.fourDigitYear; lia).
  assert (Ha : Forall answered Cases.twoLessons).
  { constructor; [|constructor; [|constructor]]; split; discriminate. }
  assert (Hnd : NoDup (map (fun i => now_id (snd i)) Cases.twoLessons)).
  { constructor; [intros [H|[]]; discriminate H|].
    constructor; [intros []|constructor]. }
  destruct distinct_instants_give_distinct_ids as [Hinj Hids].
  split; [exact H1|]. split; [exact H2|]. split; [exact Ha|]. split; [exact Hnd|].
  split.
  - intros E. pose proof (Hinj _ _ H1 H2 E) as Habs. discriminate Habs.
  - apply (Hids Cases.twoLessons (Session.opened emptyStorage) Ha).
    + constructor; [exact H1|]. constructor; [exact H2 | constructor].
    + exact Hnd.
    + constructor.
    + intros i _ [].
Defined.

Lemma upload_is_paste_then_generate_witness :
  In (type mp3) supportedTypes
  /\ read upload = ReadOk (lit "data:audio/mp3;base64,SUQz")
  /\ transcription_reply upload = Resolves (Some (lit "Sample lesson text"))
  /\ lit "Sample lesson text" <> []
  /\ app (exec (step (SelectFile upload mp3)) (boot emptyStorage))
     = app (run [TypeSourceText (lit "Sample lesson text");
                 Generate (generation upload)] (boot emptyStorage))
  /\ storage (exec (step (SelectFile upload mp3)) (boot emptyStorage))
     = storage (run [TypeSourceText (lit "Sample lesson text");
                     Generate (generation upload)] (boot emptyStorage))
  /\ read Cases.lostInGeneration = ReadOk (lit "data:audio/mp3;base64,SUQz")
  /\ transcription_reply Cases.lostInGeneration
     = Resolves (Some (lit "Sample lesson text"))
  /\ alerts (exec (step (SelectFile Cases.lostInGeneration mp3)) (boot emptyStorage))
     = alerts (run [TypeSourceText (lit "Sample lesson text");
                    Generate (generation Cases.lostInGeneration)] (boot emptyStorage))
         ++ [lit "An error occurred during transcription or analysis: Cannot read properties of undefined (reading 'message')"].
Proof.
  assert (Hin : In (type mp3) supportedTypes) by (right; left; reflexivity).
  assert (Hne : lit "Sample lesson text" <> []) by discriminate.
  split; [exact Hin|]. split; [reflexivity|]. split; [reflexivity|].
  split; [exact Hne|].
  destruct (upload_is_paste_then_generate (boot emptyStorage) upload mp3
              (lit "data:audio/mp3;base64,SUQz") (lit "Sample lesson text")
              Hin eq_refl eq_refl Hne) as (H1 & H2 & _).
  split; [exact H1|]. split; [exact H2|].
  split; [reflexivity|]. split; [reflexivity|].
  destruct (upload_is_paste_then_generate (boot emptyStorage) Cases.lostInGeneration
              mp3 (lit "data:audio/mp3;base64,SUQz") (lit "Sample lesson text")
              Hin eq_refl eq_refl Hne) as (_ & _ & H3 & _).
  exact H3.
Defined.

Lemma loading_stays_on_only_after_an_empty_transcription_witness :
  isLoading (app (boot emptyStorage)) = false
  /\ isLoading (app (exec (step (SelectFile Cases.silent mp3)) (boot emptyStorage)))
     = true
  /\ isLoading (app (exec (step (SelectFile Cases.lostInTranscription mp3))
                       (boot emptyStorage)))
     = true
  /\ (exists env file url,
         SelectFile Cases.silent mp3 = SelectFile env file
         /\ In (type file) supportedTypes
         /\ read env = ReadOk url
         /\ ((exists transcription,
                 transcription_reply env = Resolves transcription
                 /\ (textToAnalyze (app (boot emptyStorage)) false transcription = None
                     \/ textToAnalyze (app (boot emptyStorage)) false transcription
                        = Some []))
             \/ exists complaint,
                  transcription_reply env = Rejects (Nullish complaint)))
  /\ (exists env file url,
         SelectFile Cases.lostInTranscription mp3 = SelectFile env file
         /\ In (type file) supportedTypes
         /\ read env = ReadOk url
         /\ ((exists transcription,
                 transcription_reply env = Resolves transcription
                 /\ (textToAnalyze (app (boot emptyStorage)) false transcription = None
                     \/ textToAnalyze (app (boot emptyStorage)) false transcription
                        = Some []))
             \/ exists complaint,
                  transcription_reply env = Rejects (Nullish complaint)))
  /\ (exists c,
         fst (Async.begin (Generate (answering (lit "<h1>Shabbat</h1>") 1793683200123))
                (pasted (lit "Sample lesson text")))
         = Normal [c]).
Proof.
  destruct loading_stays_on_only_after_an_empty_transcription as (Hgo & Hbegin & _).
  split; [reflexivity|]. split; [reflexivity|]. split; [reflexivity|].
  split; [exact (Hgo (SelectFile Cases.silent mp3) (boot emptyStorage)
                   eq_refl eq_refl)|].
  split; [exact (Hgo (SelectFile Cases.lostInTranscription mp3) (boot emptyStorage)
                   eq_refl eq_refl)|].
  exact (Hbegin (Generate (answering (lit "<h1>Shabbat</h1>") 1793683200123))
           (pasted (lit "Sample lesson text")) eq_refl eq_refl).
Defined.

Lemma unsaved_record_is_not_reported_witness :
  textToAnalyze (app Cases.crowded) false None = Some (lit "first lesson")
  /\ lit "first lesson" <> []
  /\ answers (answering (lit "<h1>First</h1>") 1793683200123)
     = Some (lit "<h1>First</h1>")
  /\ fits (JSON.stringify
             (LibraryEntry.listToJs
                (created (app Cases.crowded) (lit "first lesson")
                   (answering (lit "<h1>First</h1>") 1793683200123)
                   (lit "<h1>First</h1>")
                 :: library (app Cases.crowded))))
       (quota (storage Cases.crowded)) = false
  /\ (let result :=
        handleGenerate (app Cases.crowded)
          (answering (lit "<h1>First</h1>") 1793683200123) false None Cases.crowded in
      fst result = Normal tt
      /\ List.length (library (app (snd result))) = 1%nat
      /\ alerts (snd result) = []
      /\ console (snd result) = [lit "Failed to save library to localStorage"]
      /\ storage (snd result) = tinyStorage).
Proof.
  assert (Hne : lit "first lesson" <> []) by discriminate.
  assert (Hfits : fits (JSON.stringify
                          (LibraryEntry.listToJs
                             (created (app Cases.crowded) (lit "first lesson")
                                (answering (lit "<h1>First</h1>") 1793683200123)
                                (lit "<h1>First</h1>")
                              :: library (app Cases.crowded))))
                    (quota (storage Cases.crowded)) = false)
    by (vm_compute; reflexivity).
  split; [reflexivity|]. split; [exact Hne|]. split; [reflexivity|].
  split; [exact Hfits|].
  destruct (unsaved_record_is_not_reported (app Cases.crowded)
              (answering (lit "<h1>First</h1>") 1793683200123) None Cases.crowded
              (lit "first lesson") (lit "<h1>First</h1>")
              eq_refl Hne eq_refl (or_intror Hfits))
    as (H1 & H2 & _ & _ & H5 & H6 & H7 & _).
  split; [exact H1|]. split; [cbv zeta; now rewrite H2|].
  split; [exact H5|]. split; [exact H6 | exact H7].
Defined.
